(** * Calendar Card Pro: configuration diffing, cache keys and date utilities

    A shallow embedding of the pure routines of the card (the configuration
    module [config/config.ts], the formatting utilities [utils/format.ts] and
    the ID generation of the helper utilities) together with the statements
    proved about them.

    Conventions of the embedding:
    - a JavaScript string is a [string] whose characters are its code units;
    - an optional property ([x?: T]) is an [option T]; [None] is [undefined];
    - a JavaScript integer number is a [Z]; 32-bit wrap-around is written out;
    - a [Date] is its time value in milliseconds ([None] for an invalid date),
      clipped to the range of time values; the local time zone is a pair of
      offset functions, so that clock changes are part of the embedding. *)

From Stdlib Require Import ZArith Lia Bool Ascii String.
From stdpp Require Import gmap strings list sorting.

Local Open Scope Z_scope.
Local Open Scope string_scope.

(** ** JavaScript primitives used by the sources *)

Module JS.

(** Truthiness of an optional string: [undefined] and [''] are falsy. *)
Definition truthy (o : option string) : bool :=
  match o with
  | Some s => negb (s =? "")
  | None => false
  end.

(** [o || d] for an optional string [o] and a string [d]. *)
Definition or_else (o : option string) (d : string) : string :=
  match o with
  | Some s => if s =? "" then d else s
  | None => d
  end.

(** [Array.prototype.sort()] without comparator on an array of strings:
    ascending order of code units.  The sorted arrangement of a list of
    strings is unique, so any correct sorting routine computes it. *)
Definition sort (l : list string) : list string := merge_sort String.le l.

(** [Array.prototype.join(sep)] on an array of strings. *)
Definition join (sep : string) (l : list string) : string := String.concat sep l.

(** [String.prototype.charCodeAt] on one character. *)
Definition charCode (c : ascii) : Z := Z.of_nat (nat_of_ascii c).

(** [ToInt32]: reduction modulo 2^32 into [-2^31, 2^31). *)
Definition toInt32 (x : Z) : Z := (x + 2147483648) mod 4294967296 - 2147483648.

(** The digit characters of [Number.prototype.toString]: 0-9 then a-z. *)
Definition digitChar (d : Z) : ascii :=
  if (d <? 10)%Z then ascii_of_nat (Z.to_nat (48 + d))
  else ascii_of_nat (Z.to_nat (87 + d)).

Fixpoint digitsOf (fuel : nat) (radix n : Z) (acc : string) : string :=
  match fuel with
  | O => acc
  | S fuel' =>
      let acc' := String (digitChar (n mod radix)) acc in
      if (n / radix =? 0)%Z then acc' else digitsOf fuel' radix (n / radix) acc'
  end.

(** [n.toString(radix)] for an integer [n]. *)
Definition toStringRadix (radix n : Z) : string :=
  let body := digitsOf (S (Z.to_nat (Z.log2 (Z.abs n)))) radix (Z.abs n) "" in
  if (n <? 0)%Z then String "-" body else body.

(** [String(n)] and [`${n}`] for a safe integer [n] (of magnitude below
    2^53), which is printed with all its digits.  Larger numbers are
    printed with the fewest digits that identify the double, from 10^21 on
    with an exponent, and are not covered; nor are numbers with a
    fraction. *)
Definition numberToString (n : Z) : string := toStringRadix 10 n.

(** [s.includes(c)] for a one-character needle. *)
Fixpoint includesChar (c : ascii) (s : string) : bool :=
  match s with
  | EmptyString => false
  | String x rest => if Ascii.eqb x c then true else includesChar c rest
  end.

(** [s.split(c)[0]] for a one-character separator: the text before the
    first occurrence of [c], or all of [s]. *)
Fixpoint beforeChar (c : ascii) (s : string) : string :=
  match s with
  | EmptyString => EmptyString
  | String x rest => if Ascii.eqb x c then EmptyString else String x (beforeChar c rest)
  end.

(** An operation either returns or throws. *)
Inductive JSError := TypeError | SyntaxError.

Inductive outcome (A : Type) :=
| Returns (a : A)
| Throws (e : JSError).
Arguments Returns {A} a.
Arguments Throws {A} e.

(** White space of [trim] and of the class [\s] among the characters of
    the embedding: TAB, LF, VT, FF, CR, space and no-break space. *)
Definition isWhiteSpace (c : ascii) : bool :=
  let n := nat_of_ascii c in
  ((9 <=? n) && (n <=? 13) || (n =? 32) || (n =? 160))%nat.

Fixpoint allWhiteSpace (s : string) : bool :=
  match s with
  | EmptyString => true
  | String c rest => isWhiteSpace c && allWhiteSpace rest
  end.

Fixpoint trimStart (s : string) : string :=
  match s with
  | EmptyString => EmptyString
  | String c rest => if isWhiteSpace c then trimStart rest else s
  end.

(** Removal of trailing white space: a character goes when it is white
    space and nothing is left of what follows it. *)
Fixpoint trimEnd (s : string) : string :=
  match s with
  | EmptyString => EmptyString
  | String c rest =>
      let rest' := trimEnd rest in
      if (rest' =? "") && isWhiteSpace c then EmptyString else String c rest'
  end.

(** [s.trim()] *)
Definition trim (s : string) : string := trimEnd (trimStart s).

(** [s.split(c)] for a one-character separator. *)
Fixpoint splitChar (c : ascii) (s : string) : list string :=
  match s with
  | EmptyString => [EmptyString]
  | String x rest =>
      if Ascii.eqb x c then EmptyString :: splitChar c rest
      else match splitChar c rest with
           | h :: t => String x h :: t
           | [] => [String x EmptyString]
           end
  end.

(** [s.startsWith(p)] *)
Definition startsWith (p s : string) : bool := String.prefix p s.

(** [s.includes(p)] *)
Fixpoint includes (p s : string) : bool :=
  String.prefix p s ||
  match s with
  | EmptyString => false
  | String _ rest => includes p rest
  end.

(** [s.endsWith(p)] *)
Definition endsWith (p s : string) : bool :=
  (String.length p <=? String.length s)%nat
  && (String.substring (String.length s - String.length p) (String.length p) s =? p).

(** [s.slice(0, n)] for [0 <= n]. *)
Definition sliceTo (n : nat) (s : string) : string := String.substring 0 n s.

(** [s.padStart(2, '0')] *)
Definition padStart2 (s : string) : string :=
  match String.length s with
  | O => "00"
  | S O => String "0" s
  | _ => s
  end.

(** A number that may be [NaN]. *)
Definition num : Type := option Z.

(** [String(x)] for a number that may be [NaN]. *)
Definition numToString (x : num) : string :=
  match x with
  | Some n => numberToString n
  | None => "NaN"
  end.

Definition digitValue (c : ascii) : option Z :=
  let n := nat_of_ascii c in
  if ((48 <=? n) && (n <=? 57))%nat then Some (Z.of_nat n - 48) else None.

Fixpoint digitsValue (acc : Z) (s : string) : num :=
  match s with
  | EmptyString => Some acc
  | String c rest =>
      match digitValue c with
      | Some d => digitsValue (10 * acc + d) rest
      | None => None
      end
  end.

(** [Number(s)] on the strings that occur between the dashes of a date:
    white space around is ignored, the empty string is 0, a run of decimal
    digits is its value.  Every other string is taken as [NaN]; signs,
    fractions, exponents and the other literal forms are not modelled. *)
Definition Number (s : string) : num := digitsValue 0 (trim s).

(** [a[i]] for an array of numbers, followed by [ToNumber]:
    a missing element is [undefined], hence [NaN]. *)
Definition numAt (a : list num) (i : nat) : num := default None (a !! i).

(** [Math.ceil(a / b)] for integers [a] and [0 < b]. *)
Definition ceilDiv (a b : Z) : Z := - ((- a) / b).

(** The first match of a pattern that ends in [$] runs to the end of the
    subject: [cutAtMatch p s] removes the match found at the leftmost
    position whose suffix satisfies [p]. *)
Fixpoint cutAtMatch (p : string -> bool) (s : string) : string :=
  if p s then EmptyString
  else match s with
       | EmptyString => EmptyString
       | String c rest => String c (cutAtMatch p rest)
       end.

(** Does [,?\s*$] match the whole of [t]? *)
Definition commaSpaces (t : string) : bool :=
  allWhiteSpace t
  || match t with
     | String c rest => Ascii.eqb c "," && allWhiteSpace rest
     | EmptyString => false
     end.

(** [s.replace(/,?\s*$/, '')] *)
Definition stripCommaSpaces (s : string) : string := cutAtMatch commaSpaces s.

(** Lower-casing of the letters A-Z; the other characters of the embedding
    have no lower- or upper-case partner among the basic Latin letters. *)
Definition lowerAscii (c : ascii) : ascii :=
  let n := nat_of_ascii c in
  if ((65 <=? n) && (n <=? 90))%nat then ascii_of_nat (n + 32) else c.

Fixpoint lowerCase (s : string) : string :=
  match s with
  | EmptyString => EmptyString
  | String c rest => String (lowerAscii c) (lowerCase rest)
  end.

End JS.

(** ** The built-in [Date], after ECMA-262 (section "Date Objects")

  A time value is a number of milliseconds since 1970-01-01T00:00Z, at
  most 8.64e15 ms away from it.  Days are numbered from that date.  The
  local time zone is given by the two readings of [LocalTZA]: the offset
  in force at an instant, and the offset by which a local time is
  interpreted. *)

Module JSDate.

Definition msPerDay : Z := 86400000.
Definition msPerHour : Z := 3600000.
Definition msPerMinute : Z := 60000.

(** The largest time value: 100,000,000 days. *)
Definition maxTime : Z := 8640000000000000.

(** A [Date] object: its time value, [None] when it is [NaN]. *)
Definition Date : Type := option Z.

(** [TimeClip]: an instant further than [maxTime] from the epoch is no time
    value. *)
Definition TimeClip (t : Z) : Date :=
  if (Z.abs t <=? maxTime)%Z then Some t else None.

Definition Day (t : Z) : Z := t / msPerDay.
Definition TimeWithinDay (t : Z) : Z := t mod msPerDay.

Definition DayFromYear (y : Z) : Z :=
  365 * (y - 1970) + (y - 1969) / 4 - (y - 1901) / 100 + (y - 1601) / 400.

Definition DaysInYear (y : Z) : Z :=
  if negb (y mod 4 =? 0)%Z then 365
  else if negb (y mod 100 =? 0)%Z then 366
  else if negb (y mod 400 =? 0)%Z then 365
  else 366.

Definition InLeapYear (y : Z) : bool := (DaysInYear y =? 366)%Z.

(** The year that holds day [d]: the largest [y] with
    [DayFromYear y <= d], computed through the 400-, 100-, 4- and 1-year
    cycles counted from 1601-01-01 (day -134774). *)
Definition YearFromDay (d : Z) : Z :=
  let n := d + 134774 in
  let n400 := n / 146097 in
  let r := n mod 146097 in
  let n100 := Z.min (r / 36524) 3 in
  let r2 := r - n100 * 36524 in
  let n4 := r2 / 1461 in
  let r3 := r2 mod 1461 in
  let n1 := Z.min (r3 / 365) 3 in
  1601 + 400 * n400 + 100 * n100 + 4 * n4 + n1.

Definition DayWithinYear (d : Z) : Z := d - DayFromYear (YearFromDay d).

(** Number of days of the year that precede month [m] (0 = January). *)
Definition daysBeforeMonth (leap : bool) (m : Z) : Z :=
  let l := if leap then 1 else 0 in
  match m with
  | 0 => 0
  | 1 => 31
  | 2 => 59 + l
  | 3 => 90 + l
  | 4 => 120 + l
  | 5 => 151 + l
  | 6 => 181 + l
  | 7 => 212 + l
  | 8 => 243 + l
  | 9 => 273 + l
  | 10 => 304 + l
  | _ => 334 + l
  end.

Definition MonthFromDay (d : Z) : Z :=
  let dy := DayWithinYear d in
  let l := if InLeapYear (YearFromDay d) then 1 else 0 in
  if (dy <? 31)%Z then 0
  else if (dy <? 59 + l)%Z then 1
  else if (dy <? 90 + l)%Z then 2
  else if (dy <? 120 + l)%Z then 3
  else if (dy <? 151 + l)%Z then 4
  else if (dy <? 181 + l)%Z then 5
  else if (dy <? 212 + l)%Z then 6
  else if (dy <? 243 + l)%Z then 7
  else if (dy <? 273 + l)%Z then 8
  else if (dy <? 304 + l)%Z then 9
  else if (dy <? 334 + l)%Z then 10
  else 11.

Definition DateFromDay (d : Z) : Z :=
  DayWithinYear d - daysBeforeMonth (InLeapYear (YearFromDay d)) (MonthFromDay d) + 1.

Definition YearFromTime (t : Z) : Z := YearFromDay (Day t).
Definition MonthFromTime (t : Z) : Z := MonthFromDay (Day t).
Definition DateFromTime (t : Z) : Z := DateFromDay (Day t).
Definition WeekDay (t : Z) : Z := (Day t + 4) mod 7.
Definition HourFromTime (t : Z) : Z := (t / msPerHour) mod 24.
Definition MinFromTime (t : Z) : Z := (t / msPerMinute) mod 60.

(** [MakeDay(year, month, date)] on integers.  Whether the result is within
    the range of time values is left to [TimeClip], which every use of
    [MakeDay] here runs into. *)
Definition MakeDay (year month date : Z) : Z :=
  let ym := year + month / 12 in
  let mn := month mod 12 in
  DayFromYear ym + daysBeforeMonth (InLeapYear ym) mn + date - 1.

Definition MakeDate (day time : Z) : Z := day * msPerDay + time.

(** The local time zone.  [offsetAt t] is [LocalTZA(t, true)], the offset
    of local time from UTC in force at the instant [t]; [offsetOfLocal tl]
    is [LocalTZA(tl, false)], the offset by which the local time [tl] is
    interpreted (at a clock change a local time may be skipped or occur
    twice, and the engine settles on one offset). *)
Record Zone := {
  offsetAt : Z -> Z;
  offsetOfLocal : Z -> Z;
}.

(** A zone without clock changes. *)
Definition constZone (tza : Z) : Zone :=
  {| offsetAt := fun _ => tza; offsetOfLocal := fun _ => tza |}.

Section Zone.
Variable z : Zone.

Definition LocalTime (t : Z) : Z := t + offsetAt z t.
Definition UTC (t : Z) : Z := t - offsetOfLocal z t.

(** [new Date(year, month, day)]; a [NaN] argument gives an invalid
    date, a year from 0 to 99 stands for 1900 + year. *)
Definition newDateYMD (y m dt : Z) : Date :=
  let yr := if ((0 <=? y) && (y <=? 99))%Z then 1900 + y else y in
  TimeClip (UTC (MakeDate (MakeDay yr m dt) 0)).

Definition newDate (year month day : option Z) : Date :=
  match year, month, day with
  | Some y, Some m, Some dt => newDateYMD y m dt
  | _, _, _ => None
  end.

Definition getFullYear (t : Z) : Z := YearFromTime (LocalTime t).
Definition getMonth (t : Z) : Z := MonthFromTime (LocalTime t).
Definition getDate (t : Z) : Z := DateFromTime (LocalTime t).
Definition getDay (t : Z) : Z := WeekDay (LocalTime t).
Definition getHours (t : Z) : Z := HourFromTime (LocalTime t).
Definition getMinutes (t : Z) : Z := MinFromTime (LocalTime t).

(** [d.setDate(dt)]: same local year, month and time of day. *)
Definition setDate (t : Z) (dt : Z) : Date :=
  let lt := LocalTime t in
  TimeClip (UTC (MakeDate (MakeDay (YearFromTime lt) (MonthFromTime lt) dt) (TimeWithinDay lt))).

(** [setDate] on a date that may be invalid, with an argument that may
    be [NaN]. *)
Definition setDateD (d : Date) (dt : option Z) : Date :=
  match d, dt with
  | Some t, Some n => setDate t n
  | _, _ => None
  end.

(** [d.toDateString()], e.g. "Thu Jan 07 2021", kept as the fields it
    prints: week day, month, day of the month and year, in local time.
    [None] is the string "Invalid Date". *)
Definition toDateString (d : Date) : option (Z * Z * Z * Z) :=
  match d with
  | Some t => Some (getDay t, getMonth t, getDate t, getFullYear t)
  | None => None
  end.

End Zone.

End JSDate.

(** ** config/config.ts *)

Module Config.

(** [Types.EntityConfig]: only [entity] is required. *)
Record EntityConfig := {
  entity : string;
  label : option string;
  color : option string;
  accent_color : option string;
  show_location : option bool;
}.

(** An element of [Config.entities]: [string | EntityConfig]. *)
Inductive EntityItem :=
| ItemString (s : string)
| ItemObject (o : EntityConfig).

(** The fields of [Types.Config] that the diffing routines read; every other
    field (title, colours, font sizes, ...) is kept as a key/value list. *)
Record Config := {
  entities : list EntityItem;
  days_to_show : Z;
  show_past_events : bool;
  refresh_interval : Z;
  styling : list (string * string);
}.

(** [Partial<Types.Config>]: every field may be absent. *)
Record PartialConfig := {
  p_entities : option (list EntityItem);
  p_days_to_show : option Z;
  p_show_past_events : option bool;
  p_refresh_interval : option Z;
  p_styling : list (string * string);
}.

Definition DEFAULT_COLOR : string := "var(--primary-text-color)".
Definition DEFAULT_ACCENT_COLOR : string := "var(--calendar-card-line-color-vertical)".

(** One key for a property that is present. *)
Definition key_of {A} (o : option A) : nat :=
  match o with
  | Some _ => 1
  | None => 0
  end.

(** [Object.keys(previous).length] *)
Definition keys_length (p : PartialConfig) : nat :=
  (key_of (p_entities p) + key_of (p_days_to_show p) +
   key_of (p_show_past_events p) + key_of (p_refresh_interval p) +
   length (p_styling p))%nat.

(** [typeof e === 'string' ? e : e.entity] *)
Definition entityId (e : EntityItem) : string :=
  match e with
  | ItemString s => s
  | ItemObject o => entity o
  end.

(** [typeof e === 'string' ? 'var(--primary-text-color)'
                           : e.color || 'var(--primary-text-color)'] *)
Definition effectiveColor (e : EntityItem) : string :=
  match e with
  | ItemString _ => DEFAULT_COLOR
  | ItemObject o => JS.or_else (color o) DEFAULT_COLOR
  end.

(** [(entities || []).map(...).sort().join(',')] *)
Definition entityIdsKey (es : option (list EntityItem)) : string :=
  JS.join "," (JS.sort (map entityId (default [] es))).

(** [a !== b] where [a] may be [undefined] and [b] is a number. *)
Definition Z_strict_ne (a : option Z) (b : Z) : bool :=
  match a with
  | Some x => negb (x =? b)%Z
  | None => true
  end.

(** [a !== b] where [a] may be [undefined] and [b] is a boolean. *)
Definition bool_strict_ne (a : option bool) (b : bool) : bool :=
  match a with
  | Some x => negb (Bool.eqb x b)
  | None => true
  end.

Definition hasConfigChanged (previous : option PartialConfig) (current : Config) : bool :=
  match previous with
  | None => true
  | Some prev =>
      if (keys_length prev =? 0)%nat then true
      else
        let previousEntityIds := entityIdsKey (p_entities prev) in
        let currentEntityIds := entityIdsKey (Some (entities current)) in
        let refreshIntervalChanged :=
          Z_strict_ne (p_refresh_interval prev) (refresh_interval current) in
        let dataChanged :=
          negb (previousEntityIds =? currentEntityIds)
          || Z_strict_ne (p_days_to_show prev) (days_to_show current)
          || bool_strict_ne (p_show_past_events prev) (show_past_events current) in
        dataChanged || refreshIntervalChanged
  end.

(** The [forEach] that fills [prevColorMap]: later entries overwrite
    earlier ones with the same entity ID. *)
Definition buildColorMap (prevEntities : list EntityItem) : gmap string string :=
  foldl (fun m e => <[entityId e := effectiveColor e]> m) ∅ prevEntities.

(** The [for ... of] loop over the current entities, with its early return. *)
Fixpoint colorLoop (prevColorMap : gmap string string) (currEntities : list EntityItem) : bool :=
  match currEntities with
  | [] => false
  | e :: rest =>
      match prevColorMap !! entityId e with
      | None => colorLoop prevColorMap rest
      | Some c =>
          if negb (c =? effectiveColor e) then true
          else colorLoop prevColorMap rest
      end
  end.

Definition haveEntityColorsChanged (previous : option PartialConfig) (current : Config) : bool :=
  match previous with
  | None => false
  | Some prev =>
      match p_entities prev with
      | None => false
      | Some prevEntities =>
          let currEntities := entities current in
          if negb (length prevEntities =? length currEntities)%nat then false
          else colorLoop (buildColorMap prevEntities) currEntities
      end
  end.

(** An object as [normalizeEntities] may meet it at run time: the guard
    [item.entity] also covers an object without that field. *)
Record RawEntity := {
  r_entity : option string;
  r_label : option string;
  r_color : option string;
  r_accent_color : option string;
  r_show_location : option bool;
}.

(** An array element handed to [normalizeEntities]: a string, an object,
    [null], or a value of another type (number, boolean, [undefined],
    function). *)
Inductive RawItem :=
| RString (s : string)
| RObject (o : RawEntity)
| RNull
| ROther.

(** The argument of [normalizeEntities]: an array or anything else. *)
Inductive RawEntities :=
| IsArray (items : list RawItem)
| NotArray.

(** The callback of [.map]: [None] is the [null] it returns.  The
    [typeof] of the element [null] is 'object', and reading [item.entity] of
    it raises a [TypeError]. *)
Definition normalizeItem (item : RawItem) : JS.outcome (option EntityConfig) :=
  match item with
  | RString s =>
      JS.Returns
        (Some {| entity := s;
                 label := None;
                 color := Some DEFAULT_COLOR;
                 accent_color := Some DEFAULT_ACCENT_COLOR;
                 show_location := Some true |})
  | RObject o =>
      if JS.truthy (r_entity o) then
        JS.Returns
          (Some {| entity := default "" (r_entity o);
                   label := r_label o;
                   color := Some (JS.or_else (r_color o) DEFAULT_COLOR);
                   accent_color := Some (JS.or_else (r_accent_color o) DEFAULT_ACCENT_COLOR);
                   show_location := Some (default true (r_show_location o)) |})
      else JS.Returns None
  | RNull => JS.Throws JS.TypeError
  | ROther => JS.Returns None
  end.

(** [.map(callback)]: the elements in order; an exception of the callback
    ends the loop. *)
Fixpoint mapItems (items : list RawItem) : JS.outcome (list (option EntityConfig)) :=
  match items with
  | [] => JS.Returns []
  | item :: rest =>
      match normalizeItem item with
      | JS.Throws e => JS.Throws e
      | JS.Returns r =>
          match mapItems rest with
          | JS.Throws e => JS.Throws e
          | JS.Returns rs => JS.Returns (r :: rs)
          end
      end
  end.

(** [.map(...).filter(Boolean)]: objects are truthy, [null] is dropped. *)
Definition normalizeEntities (entities : RawEntities) : JS.outcome (list EntityConfig) :=
  match entities with
  | NotArray => JS.Returns []
  | IsArray items =>
      match mapItems items with
      | JS.Throws e => JS.Throws e
      | JS.Returns results => JS.Returns (omap id results)
      end
  end.

(** The colour recorded for entity ID [k] by the last entry of [l] that
    carries this ID, if there is one. *)
Fixpoint lastColorOf (k : string) (l : list EntityItem) : option string :=
  match l with
  | [] => None
  | e :: rest =>
      match lastColorOf k rest with
      | Some c => Some c
      | None => if decide (entityId e = k) then Some (effectiveColor e) else None
      end
  end.

(** Some entity ID present in both lists has a different effective colour. *)
Definition someSharedIdRecoloured (prevEntities currEntities : list EntityItem) : Prop :=
  exists ep ec, ep ∈ prevEntities /\ ec ∈ currEntities
    /\ entityId ep = entityId ec /\ effectiveColor ep <> effectiveColor ec.

(** The [hass] argument of the initialization helpers: the entity IDs with
    their state objects, in the order in which [Object.keys] lists them. *)
Definition HassStates : Type := list (string * string).

(** [Object.keys(hass).find(id => id.startsWith('calendar.')) || null] *)
Definition findCalendarEntity (hass : HassStates) : option string :=
  List.find (JS.startsWith "calendar.") (map fst hass).

(** The object returned by [getStubConfig]. *)
Record StubConfig := {
  stub_type : string;
  stub_entities : list string;
  stub_days_to_show : Z;
  stub_show_location : bool;
  stub_description : option string;
}.

Definition getStubConfig (hass : HassStates) : StubConfig :=
  let calendarEntity := findCalendarEntity hass in
  {| stub_type := "custom:calendar-card-pro-dev";
     stub_entities :=
       match calendarEntity with
       | Some id => [id]
       | None => []
       end;
     stub_days_to_show := 3;
     stub_show_location := true;
     stub_description :=
       match calendarEntity with
       | Some _ => None
       | None =>
           Some "A calendar card that displays events from multiple calendars with individual styling. Add a calendar integration to Home Assistant to use this card."
       end |}.

(** A normalized entity handed to [normalizeEntities] again: the object
    itself, every property present. *)
Definition asRawItem (e : EntityConfig) : RawItem :=
  RObject {| r_entity := Some (entity e);
             r_label := label e;
             r_color := color e;
             r_accent_color := accent_color e;
             r_show_location := show_location e |}.

(** An element of a configuration's entity list as [normalizeEntities]
    receives it. *)
Definition itemAsRaw (e : EntityItem) : RawItem :=
  match e with
  | ItemString s => RString s
  | ItemObject o => asRawItem o
  end.

End Config.

(** ** Helper utilities: ID generation *)

Module Helpers.
Import Config.

(** One round of the loop of [hashString]:
    [hash = (hash << 5) - hash + char; hash = hash & hash]. *)
Definition hashStep (hash : Z) (c : ascii) : Z :=
  JS.toInt32 (JS.toInt32 (hash * 32) - hash + JS.charCode c).

Fixpoint hashLoop (hash : Z) (str : string) : Z :=
  match str with
  | EmptyString => hash
  | String c rest => hashLoop (hashStep hash c) rest
  end.

Definition hashString (str : string) : string :=
  JS.toStringRadix 36 (Z.abs (hashLoop 0 str)).

Definition generateDeterministicId
    (entities : list EntityItem) (daysToShow : Z) (showPastEvents : bool)
    (startDate : option string) : string :=
  let entityIds := JS.join "_" (JS.sort (map entityId entities)) in
  let normalizedStartDate :=
    match startDate with
    | Some sd =>
        if negb (sd =? "") then
          if JS.includesChar "T" sd then JS.beforeChar "T" sd else sd
        else ""
    | None => ""
    end in
  let startDatePart :=
    if negb (normalizedStartDate =? "") then "_" +:+ normalizedStartDate else "" in
  let baseString :=
    "calendar_" +:+ entityIds +:+ "_" +:+ JS.numberToString daysToShow +:+ "_"
      +:+ (if showPastEvents then "1" else "0") +:+ startDatePart in
  hashString baseString.

(** [value: string | boolean] *)
Inductive IndicatorValue :=
| IVBool (b : bool)
| IVString (s : string).

(** [/\.(jpg|jpeg|png|gif|svg|webp)$/i.test(value)] *)
Definition hasImageExtension (value : string) : bool :=
  existsb (fun ext => JS.endsWith ext (JS.lowerCase value))
          [".jpg"; ".jpeg"; ".png"; ".gif"; ".svg"; ".webp"].

Definition getTodayIndicatorType (value : IndicatorValue) : string :=
  match value with
  | IVBool false => "none"
  | IVBool true => "dot"
  | IVString value =>
      if value =? "dot" then "dot"
      else if value =? "pulse" then "pulse"
      else if value =? "glow" then "glow"
      else if JS.startsWith "mdi:" value then "mdi"
      else if JS.startsWith "/" value || hasImageExtension value then "image"
      else if (String.length value <=? 2)%nat then "emoji"
      else "dot"
  end.

End Helpers.

(** ** utils/format.ts *)

Module Format.
Import JSDate.

(** [Types.CalendarEventData]; [start] is guarded against [undefined] by
    [getCountdownString], reading a property of an undefined [start]
    raises a [TypeError]. *)
Record EventTime := {
  dateTime : option string;
  date : option string;
}.

Record CalendarEventData := {
  start : option EventTime;
  end_ : EventTime;
  _isEmptyDay : bool;
}.

(** [Types.Translations], the fields read here. *)
Record Translations := {
  allDay : string;
  multiDay : string;
  at_ : string;
  months : list string;
  fullDaysOfWeek : list string;
  endsToday : string;
  endsTomorrow : string;
}.

(** [config.time_24h]: a boolean or ['system']. *)
Inductive Time24h :=
| T24 (b : bool)
| T24System.

(** The fields of [Types.Config] read by the formatting routines. *)
Record TimeConfig := {
  time_24h : Time24h;
  show_end_time : bool;
}.

Record Locale := { language : string }.
Record Hass := { locale : option Locale }.

(** What the routines take from outside the sources: the engine (time zone,
    date parsing, upper-casing, regular expressions) and the modules
    [translations/localize], [translations/dayjs], [utils/helpers] and
    [config/constants] of the card.  [RegExp_i source] is
    [new RegExp(source, 'i')]: [None] when the constructor throws a
    [SyntaxError], otherwise the search function of the expression, which
    returns start and length of the first match. *)
Record Host := {
  zone : Zone;
  parseDate : string -> Date;
  toUpperCase : string -> string;
  getTranslations : string -> Translations;
  getDateFormatStyle : string -> string;
  getTimeFormat24h : Locale -> bool -> bool;
  getRelativeTimeString : Date -> string -> string;
  COUNTRY_NAMES : list string;
  RegExp_i : string -> option (string -> option (nat * nat));
}.

(** [a[i]] inside a template literal: a missing element prints as
    "undefined". *)
Definition strAt (a : list string) (i : JS.num) : string :=
  match i with
  | Some k => if (0 <=? k)%Z then default "undefined" (a !! Z.to_nat k) else "undefined"
  | None => "undefined"
  end.

Definition capitalizeFirstLetter (h : Host) (text : string) : string :=
  match text with
  | EmptyString => text
  | String c rest => toUpperCase h (String c EmptyString) +:+ rest
  end.

Definition parseAllDayDate (h : Host) (dateString : string) : Date :=
  let parts := map JS.Number (JS.splitChar "-" dateString) in
  let year := JS.numAt parts 0 in
  let month := JS.numAt parts 1 in
  let day := JS.numAt parts 2 in
  newDate (zone h) year ((fun m => m - 1) <$> month) day.

Definition formatTime (h : Host) (date : Date) (use24h : bool) : string :=
  let hours := getHours (zone h) <$> date in
  let minutes := getMinutes (zone h) <$> date in
  if negb use24h then
    let ampm :=
      match hours with
      | Some x => if (12 <=? x)%Z then "PM" else "AM"
      | None => "AM"
      end in
    let hours' :=
      match hours with
      | Some x => if (Z.rem x 12 =? 0)%Z then 12 else Z.rem x 12
      | None => 12
      end in
    JS.numberToString hours' +:+ ":" +:+ JS.padStart2 (JS.numToString minutes)
      +:+ " " +:+ ampm
  else
    JS.padStart2 (JS.numToString hours) +:+ ":" +:+ JS.padStart2 (JS.numToString minutes).

(** [useNativeFormatting && hass?.locale] selects the host's preference. *)
Definition effective24h (h : Host) (useNativeFormatting use24h : bool)
    (hass : option Hass) : bool :=
  match (if useNativeFormatting then hass ≫= locale else None) with
  | Some l => getTimeFormat24h h l use24h
  | None => use24h
  end.

Definition formatSingleDayTime (h : Host) (startDate endDate : Date)
    (showEndTime useNativeFormatting use24h : bool) (hass : option Hass) : string :=
  let use24hFormat := effective24h h useNativeFormatting use24h hass in
  if showEndTime
  then formatTime h startDate use24hFormat +:+ " - " +:+ formatTime h endDate use24hFormat
  else formatTime h startDate use24hFormat.

(** [today] and [tomorrow] as both multi-day formatters compute them. *)
Definition todayOf (h : Host) (now : Z) : Date :=
  newDate (zone h) (Some (getFullYear (zone h) now)) (Some (getMonth (zone h) now))
    (Some (getDate (zone h) now)).

Definition tomorrowOf (h : Host) (now : Z) : Date :=
  let today := todayOf h now in
  setDateD (zone h) today ((fun d => d + 1) <$> (getDate (zone h) <$> today)).

Definition sameDateString (h : Host) (a b : Date) : bool :=
  bool_decide (toDateString (zone h) a = toDateString (zone h) b).

Definition formatMultiDayTime (h : Host) (now : Z) (startDate endDate : Date)
    (language : string) (translations : Translations)
    (useNativeFormatting use24h : bool) (hass : option Hass) : string :=
  let today := todayOf h now in
  let tomorrow := tomorrowOf h now in
  let formatTimeStr := fun d => formatTime h d (effective24h h useNativeFormatting use24h hass) in
  let endPart :=
    if sameDateString h endDate today then
      endsToday translations +:+ " " +:+ at_ translations +:+ " " +:+ formatTimeStr endDate
    else if sameDateString h endDate tomorrow then
      endsTomorrow translations +:+ " " +:+ at_ translations +:+ " " +:+ formatTimeStr endDate
    else
      let endDay := JS.numToString (getDate (zone h) <$> endDate) in
      let endMonthName := strAt (months translations) (getMonth (zone h) <$> endDate) in
      let endWeekday := strAt (fullDaysOfWeek translations) (getDay (zone h) <$> endDate) in
      let endTimeStr := formatTimeStr endDate in
      let formatStyle := getDateFormatStyle h language in
      if formatStyle =? "day-dot-month" then
        endWeekday +:+ ", " +:+ endDay +:+ ". " +:+ endMonthName +:+ " "
          +:+ at_ translations +:+ " " +:+ endTimeStr
      else if formatStyle =? "month-day" then
        endWeekday +:+ ", " +:+ endMonthName +:+ " " +:+ endDay +:+ " "
          +:+ at_ translations +:+ " " +:+ endTimeStr
      else
        endWeekday +:+ ", " +:+ endDay +:+ " " +:+ endMonthName +:+ " "
          +:+ at_ translations +:+ " " +:+ endTimeStr in
  let notStarted :=
    match today, startDate with
    | Some a, Some b => (a <=? b)%Z
    | _, _ => false
    end in
  if notStarted then
    formatTimeStr startDate +:+ " " +:+ multiDay translations +:+ " " +:+ endPart
  else if sameDateString h endDate today || sameDateString h endDate tomorrow then
    endPart
  else
    multiDay translations +:+ " " +:+ endPart.

Definition formatMultiDayAllDayTime (h : Host) (now : Z) (endDate : Date)
    (language : string) (translations : Translations) : string :=
  let today := todayOf h now in
  let tomorrow := tomorrowOf h now in
  if sameDateString h endDate today then
    allDay translations +:+ ", " +:+ endsToday translations
  else if sameDateString h endDate tomorrow then
    allDay translations +:+ ", " +:+ endsTomorrow translations
  else
    let endDay := JS.numToString (getDate (zone h) <$> endDate) in
    let endMonthName := strAt (months translations) (getMonth (zone h) <$> endDate) in
    let formatStyle := getDateFormatStyle h language in
    if formatStyle =? "day-dot-month" then
      allDay translations +:+ ", " +:+ multiDay translations +:+ " " +:+ endDay
        +:+ ". " +:+ endMonthName
    else if formatStyle =? "month-day" then
      allDay translations +:+ ", " +:+ multiDay translations +:+ " " +:+ endMonthName
        +:+ " " +:+ endDay
    else
      allDay translations +:+ ", " +:+ multiDay translations +:+ " " +:+ endDay
        +:+ " " +:+ endMonthName.

(** [adjustedEndDate]: a copy of the end date moved one day back. *)
Definition adjustedEnd (h : Host) (endDate : Date) : Date :=
  setDateD (zone h) endDate ((fun d => d - 1) <$> (getDate (zone h) <$> endDate)).

Definition formatEventTime (h : Host) (now : Z) (event : CalendarEventData)
    (config : TimeConfig) (language : string) (hass : option Hass) : JS.outcome string :=
  match start event with
  | None => JS.Throws JS.TypeError
  | Some st =>
      let isAllDayEvent := negb (JS.truthy (dateTime st)) in
      let startDate :=
        if isAllDayEvent then parseAllDayDate h (JS.or_else (date st) "")
        else parseDate h (JS.or_else (dateTime st) "") in
      let endDate :=
        if isAllDayEvent then parseAllDayDate h (JS.or_else (date (end_ event)) "")
        else parseDate h (JS.or_else (dateTime (end_ event)) "") in
      let translations := getTranslations h language in
      if isAllDayEvent then
        let adjustedEndDate := adjustedEnd h endDate in
        if negb (sameDateString h startDate adjustedEndDate) then
          JS.Returns (capitalizeFirstLetter h
                        (formatMultiDayAllDayTime h now adjustedEndDate language translations))
        else
          JS.Returns (capitalizeFirstLetter h (allDay translations))
      else
        let useNativeFormatting :=
          match time_24h config, hass ≫= locale with
          | T24System, Some _ => true
          | _, _ => false
          end in
        let use24h :=
          match time_24h config with
          | T24 true => true
          | _ => false
          end in
        if negb (sameDateString h startDate endDate) then
          JS.Returns (capitalizeFirstLetter h
                        (formatMultiDayTime h now startDate endDate language translations
                           useNativeFormatting use24h hass))
        else
          JS.Returns (capitalizeFirstLetter h
                        (formatSingleDayTime h startDate endDate (show_end_time config)
                           useNativeFormatting use24h hass))
  end.

(** [null] is [None]. *)
Definition getCountdownString (h : Host) (now : Z) (event : CalendarEventData)
    (language : string) : option string :=
  match _isEmptyDay event, start event with
  | true, _ | _, None => None
  | false, Some st =>
      let startDate : option Date :=
        if JS.truthy (dateTime st) then Some (parseDate h (default "" (dateTime st)))
        else if JS.truthy (date st) then Some (parseAllDayDate h (default "" (date st)))
        else None in
      match startDate with
      | None => None
      | Some d =>
          let notAfterNow :=
            match d with
            | Some t => (t <=? now)%Z
            | None => false
            end in
          if notAfterNow then None
          else Some (getRelativeTimeString h d language)
      end
  end.

(** [removeCountry: boolean | string] *)
Inductive RemoveCountry :=
| RCBool (b : bool)
| RCString (s : string).

(** [text.replace(pattern, '')] for the search function of [pattern]. *)
Definition replaceMatch (search : string -> option (nat * nat)) (text : string) : string :=
  match search text with
  | Some (i, n) =>
      String.substring 0 i text
        +:+ String.substring (i + n) (String.length text - (i + n)) text
  | None => text
  end.

(** The loop over [Constants.COUNTRY_NAMES]. *)
Fixpoint countryLoop (countries : list string) (locationText : string) : string :=
  match countries with
  | [] => locationText
  | country :: rest =>
      if JS.endsWith country locationText then
        JS.stripCommaSpaces
          (JS.sliceTo (String.length locationText - String.length country) locationText)
      else countryLoop rest locationText
  end.

Definition formatLocation (h : Host) (location : string) (removeCountry : RemoveCountry)
    : JS.outcome string :=
  if location =? "" then JS.Returns ""
  else
    match removeCountry with
    | RCBool false => JS.Returns location
    | _ =>
        let locationText := JS.trim location in
        let custom :=
          match removeCountry with
          | RCString s => if negb (s =? "true") then Some s else None
          | RCBool _ => None
          end in
        match custom with
        | Some s =>
            match RegExp_i h ("(" +:+ s +:+ ")\s*$") with
            | None => JS.Throws JS.SyntaxError
            | Some pattern =>
                JS.Returns (JS.stripCommaSpaces (replaceMatch pattern locationText))
            end
        | None => JS.Returns (countryLoop (COUNTRY_NAMES h) locationText)
        end
    end.

(** The result is a number that may be [NaN]: an invalid date, or one so
    close to the ends of the range of time values that the Thursday of its
    week or 1 January of its year is no time value, gives [NaN].  The
    quotient by 86400000 and by 7 is exact in double precision up to the
    rounding of [Math.ceil], which the integer ceiling reproduces. *)
Definition getISOWeekNumber (z : Zone) (date : Date) : JS.num :=
  let d := date in
  let d :=
    setDateD z d ((fun t => getDate z t + 4 - (if (getDay z t =? 0)%Z then 7 else getDay z t))
                    <$> d) in
  let yearStart := newDate z (getFullYear z <$> d) (Some 0) (Some 1) in
  let weekNumber :=
    match d, yearStart with
    | Some dv, Some ys => Some (JS.ceilDiv (dv - ys + msPerDay) (7 * msPerDay))
    | _, _ => None
    end in
  weekNumber.

Definition getSimpleWeekNumber (z : Zone) (date : Date) (firstDayOfWeek : Z) : JS.num :=
  let d := date in
  let startOfYear := newDate z (getFullYear z <$> d) (Some 0) (Some 1) in
  match d, startOfYear with
  | Some dv, Some sv =>
      let days := (dv - sv) / (24 * 60 * 60 * 1000) in
      let dayOfWeekOffset := Z.rem (getDay z sv - firstDayOfWeek + 7) 7 in
      let weekNumber := JS.ceilDiv (days + dayOfWeekOffset + 1) 7 in
      Some weekNumber
  | _, _ => None
  end.

(** ['sunday' | 'monday' | 'system'] *)
Inductive FirstDayConfig := sunday | monday | system.

(** [/^en-(US|CA)|es-US/.test(locale)]: the alternation binds weaker than
    the anchor, so the first branch is tied to the start of the string and
    the second may match anywhere. *)
Definition northAmericanLocale (locale : string) : bool :=
  JS.startsWith "en-US" locale || JS.startsWith "en-CA" locale
  || JS.includes "es-US" locale.

Definition getFirstDayOfWeek (firstDayConfig : FirstDayConfig) (locale : string) : Z :=
  match firstDayConfig with
  | sunday => 0
  | monday => 1
  | system => if northAmericanLocale locale then 0 else 1
  end.

(** ['iso' | 'simple' | null] *)
Inductive WeekMethod := iso | simple.

(** The outer [None] is [null], which no method of the declared type
    leads to. *)
Definition getWeekNumber (z : Zone) (date : Date) (method : option WeekMethod)
    (firstDayOfWeek : Z) : option JS.num :=
  match default iso method with
  | iso => Some (getISOWeekNumber z date)
  | simple => Some (getSimpleWeekNumber z date firstDayOfWeek)
  end.

Definition getLocalDateKey (h : Host) (date : Date) : string :=
  JS.numToString (getFullYear (zone h) <$> date) +:+ "-"
    +:+ JS.padStart2 (JS.numToString ((fun m => m + 1) <$> (getMonth (zone h) <$> date)))
    +:+ "-"
    +:+ JS.padStart2 (JS.numToString (getDate (zone h) <$> date)).

End Format.

(** ** The statements, in the terms of the embedding *)

Module Spec.
Import Config JSDate Format.

(** The ID of an entry of an entity list: a string entry is its own ID, an
    object entry carries its ID in the field [entity]; colours and labels
    play no part. *)
Definition idOf (e : EntityItem) : string :=
  match e with
  | ItemString s => s
  | ItemObject o => entity o
  end.

(** Insertion into a list that ascends in the order of code units. *)
Fixpoint insertSorted (s : string) (l : list string) : list string :=
  match l with
  | [] => [s]
  | x :: rest => if String.leb s x then s :: l else x :: insertSorted s rest
  end.

(** A list of strings in ascending order. *)
Definition sorted (l : list string) : list string := foldr insertSorted [] l.

(** The strings of a list, one after the other, with a comma between
    neighbours. *)
Fixpoint commaJoined (l : list string) : string :=
  match l with
  | [] => ""
  | s :: rest =>
      match rest with
      | [] => s
      | _ :: _ => s +:+ "," +:+ commaJoined rest
      end
  end.

(** The sorted comma-joined list of the entity IDs of an entity list. *)
Definition sortedIds (es : list EntityItem) : string := commaJoined (sorted (map idOf es)).

(** The data-affecting difference between two configurations, as the
    diffing routine is described; an absent entity list counts as empty. *)
Definition dataDiffers (prev : PartialConfig) (current : Config) : Prop :=
  sortedIds (default [] (p_entities prev)) <> sortedIds (entities current)
  \/ p_days_to_show prev <> Some (days_to_show current)
  \/ p_show_past_events prev <> Some (show_past_events current)
  \/ p_refresh_interval prev <> Some (refresh_interval current).

(** What [normalizeEntities] makes of one array element that it keeps. *)
Definition normalisedFrom (item : RawItem) (e : EntityConfig) : Prop :=
  match item with
  | RString s =>
      entity e = s /\ color e = Some DEFAULT_COLOR
      /\ accent_color e = Some DEFAULT_ACCENT_COLOR /\ show_location e = Some true
  | RObject o =>
      r_entity o = Some (entity e) /\ entity e <> ""
      /\ label e = r_label o
      /\ color e = Some (JS.or_else (r_color o) DEFAULT_COLOR)
      /\ accent_color e = Some (JS.or_else (r_accent_color o) DEFAULT_ACCENT_COLOR)
      /\ show_location e = Some (default true (r_show_location o))
  | RNull => False
  | ROther => False
  end.

(** What the callback of [normalizeEntities] returns for an element other
    than [null]. *)
Definition normalizedItem (item : RawItem) : option EntityConfig :=
  match normalizeItem item with
  | JS.Returns r => r
  | JS.Throws _ => None
  end.

(** The start of an event as [getCountdownString] parses it: [dateTime]
    through the [Date] constructor, else [date] as an all-day date, else
    nothing. *)
Definition parsedStart (h : Host) (st : EventTime) : option Date :=
  if JS.truthy (dateTime st) then Some (parseDate h (default "" (dateTime st)))
  else if JS.truthy (date st) then Some (parseAllDayDate h (default "" (date st)))
  else None.

(** [getFirstDayOfWeek('system', .)] read literally: Sunday exactly for
    the three locales named, Monday for every other one. *)
Definition systemFirstDay_literal (locale : string) : Prop :=
  (getFirstDayOfWeek system locale = 0 <-> locale ∈ ["en-US"; "en-CA"; "es-US"])
  /\ (locale ∉ ["en-US"; "en-CA"; "es-US"] -> getFirstDayOfWeek system locale = 1).

(** No country pattern, configured or built in, matches the end of the
    trimmed location. *)
Definition noPatternMatches (h : Host) (locationText : string) (rc : RemoveCountry) : Prop :=
  match rc with
  | RCBool false => False
  | RCString p =>
      if p =? "true" then
        forall country, country ∈ COUNTRY_NAMES h -> JS.endsWith country locationText = false
      else
        exists search, RegExp_i h ("(" +:+ p +:+ ")\s*$") = Some search
                       /\ search locationText = None
  | RCBool true =>
      forall country, country ∈ COUNTRY_NAMES h -> JS.endsWith country locationText = false
  end.

(** [formatLocation] read literally: it always returns, the empty location
    gives the empty string, [removeCountry = false] is the identity, and when
    no country pattern matches the end of the trimmed location, the trimmed
    location is returned. *)
Definition formatLocation_literal (h : Host) : Prop :=
  (forall location rc, exists s, formatLocation h location rc = JS.Returns s)
  /\ (forall rc, formatLocation h "" rc = JS.Returns "")
  /\ (forall location, formatLocation h location (RCBool false) = JS.Returns location)
  /\ (forall location rc,
        noPatternMatches h (JS.trim location) rc ->
        formatLocation h location rc = JS.Returns (JS.trim location)).

(** [b] is what is left of [s] after some of its first characters. *)
Inductive suffixOf : string -> string -> Prop :=
| suffix_here (s : string) : suffixOf s s
| suffix_later (b : string) (c : ascii) (s : string) : suffixOf b s -> suffixOf b (String c s).

(** *** ISO 8601 week numbers

    Weeks start on Monday; week 1 of a year is the week that holds the
    first Thursday of that year.  Days are day numbers (day 0 is Thursday,
    1970-01-01). *)

(** Week day of a day number, 0 = Sunday. *)
Definition weekDayOf (d : Z) : Z := (d + 4) mod 7.

(** The first Thursday on or after 1 January of year [y]. *)
Definition firstThursday (y : Z) : Z :=
  DayFromYear y + (4 - weekDayOf (DayFromYear y)) mod 7.

(** The Monday that opens week 1 of year [y]. *)
Definition week1Start (y : Z) : Z := firstThursday y - 3.

(** Day [d] belongs to the week-numbering year [y]. *)
Definition inIsoYear (y d : Z) : Prop := week1Start y <= d < week1Start (y + 1).

(** The Thursday of the Monday-to-Sunday week of day [d]. *)
Definition thursdayOf (d : Z) : Z :=
  d + 4 - (if (weekDayOf d =? 0)%Z then 7 else weekDayOf d).

(** The week-numbering year of day [d]: the calendar year, or a neighbour of
    it in the days around 1 January. *)
Definition isoYear (d : Z) : Z :=
  let y := YearFromDay d in
  if (d <? week1Start y)%Z then y - 1
  else if (week1Start (y + 1) <=? d)%Z then y + 1
  else y.

Definition isoWeekNumber (d : Z) : Z := (d - week1Start (isoYear d)) / 7 + 1.

(** A configuration with its entity list replaced by a list of normalized
    entities. *)
Definition withEntities (c : Config) (es : list EntityConfig) : Config :=
  {| entities := map ItemObject es;
     days_to_show := days_to_show c;
     show_past_events := show_past_events c;
     refresh_interval := refresh_interval c;
     styling := styling c |}.

(** The ID and the effective colour of an entry: all that the two diffing
    routines read of it. *)
Definition idAndColor (e : EntityItem) : string * string := (entityId e, effectiveColor e).

(** *** Calendar dates *)

(** Length of month [m] (0 = January) in year [y]. *)
Definition daysInMonth (y m : Z) : Z :=
  match m with
  | 1 => if InLeapYear y then 29 else 28
  | 3 | 5 | 8 | 10 => 30
  | _ => 31
  end.

(** [y]-[m]-[d] names a day of the calendar, month counted from 1. *)
Definition validDate (y m d : Z) : Prop :=
  1 <= m <= 12 /\ 1 <= d <= daysInMonth y (m - 1).

(** *** Local time and the range of time values *)

(** [t] is a time value. *)
Definition representable (t : Z) : Prop := Z.abs t <= maxTime.

(** The local time [tl] is on the clock of the zone: the instant by which
    the engine interprets it is a time value, and the local clock shows [tl]
    at that instant.  (A local time skipped by a clock change is not on the
    clock.) *)
Definition onClock (z : Zone) (tl : Z) : Prop :=
  representable (UTC z tl) /\ LocalTime z (UTC z tl) = tl.

(** Local day [day] opens at the instant of its local midnight: the local
    calendar shows [day] or a later day exactly from that instant on. *)
Definition opensDay (z : Zone) (day : Z) : Prop :=
  forall u, UTC z (day * msPerDay) <= u <-> day <= Day (LocalTime z u).

(** The instant of local midnight at the start of the local day of [t]. *)
Definition startOfLocalDay (z : Zone) (t : Z) : Z := UTC z (Day (LocalTime z t) * msPerDay).

(** The local time of midnight, 1 January, of the local year of [t]. *)
Definition newYear (z : Zone) (t : Z) : Z := DayFromYear (getFullYear z t) * msPerDay.

(** At the instant [t] the zone has the offset by which 1 January of the
    local year is interpreted: no clock change, or as many forwards as
    backwards, lies between the two. *)
Definition keepsNewYearOffset (z : Zone) (t : Z) : Prop :=
  offsetAt z t = offsetOfLocal z (newYear z t).

(** The day number shown at the instant [t] by a clock that keeps the offset
    of 1 January of the local year of [t] all year. *)
Definition newYearClockDay (z : Zone) (t : Z) : Z := Day (t + offsetOfLocal z (newYear z t)).

(** The local time on the Thursday of the Monday-to-Sunday week of [t], at
    the time of day of [t]. *)
Definition thursdayLocal (z : Zone) (t : Z) : Z :=
  thursdayOf (Day (LocalTime z t)) * msPerDay + TimeWithinDay (LocalTime z t).

(** The time elapsed at [t] since local midnight, as [getISOWeekNumber]
    measures it on the Thursday of the week: the time of day, plus what the
    zone's offset on 1 January of that Thursday's year exceeds its offset on
    that Thursday.  Without clock changes this is the time of day. *)
Definition sinceMidnight (z : Zone) (t : Z) : Z :=
  let th := thursdayOf (Day (LocalTime z t)) in
  TimeWithinDay (LocalTime z t)
  + (offsetOfLocal z (DayFromYear (YearFromDay th) * msPerDay)
     - offsetOfLocal z (thursdayLocal z t)).


(** The character of the decimal digit [d]. *)
Definition decimalDigit (d : Z) : ascii := ascii_of_nat (Z.to_nat (48 + d)).

(** The two-digit numeral of [n], for [n] from 0 to 99. *)
Definition twoDigits (n : Z) : string :=
  String (decimalDigit (n / 10)) (String (decimalDigit (n mod 10)) EmptyString).

(** The numeral of [n] without leading zero, for [n] from 0 to 99. *)
Definition shortNumeral (n : Z) : string :=
  if (n <? 10)%Z then String (decimalDigit n) EmptyString else twoDigits n.


(** Every character is one of 0-9 and a-z. *)
Fixpoint alphanumeric (s : string) : bool :=
  match s with
  | EmptyString => true
  | String c rest =>
      let n := nat_of_ascii c in
      (((48 <=? n) && (n <=? 57)) || ((97 <=? n) && (n <=? 122)))%nat && alphanumeric rest
  end.

(** Every character is a decimal digit. *)
Fixpoint allDigits (s : string) : bool :=
  match s with
  | EmptyString => true
  | String c rest =>
      match JS.digitValue c with
      | Some _ => allDigits rest
      | None => false
      end
  end.

(** [a] is the beginning of [s]. *)
Definition prefixOf (a s : string) : Prop := exists rest, s = a +:+ rest.

End Spec.

(** ** A host for the worked examples *)

Module Example.
Import Config JSDate Format.

Definition entityOf (id : string) (c : string) : EntityItem :=
  ItemObject {| entity := id; label := None; color := Some c;
                accent_color := None; show_location := None |}.

Definition twiceListedPrev : PartialConfig :=
  {| p_entities := Some [entityOf "calendar.a" "red"; entityOf "calendar.a" "blue"];
     p_days_to_show := Some 3; p_show_past_events := Some false;
     p_refresh_interval := Some 30; p_styling := [] |}.

Definition twiceListedCurr : Config :=
  {| entities := [entityOf "calendar.a" "blue"; entityOf "calendar.a" "blue"];
     days_to_show := 3; show_past_events := false;
     refresh_interval := 30; styling := [] |}.

Definition prevTwo : PartialConfig :=
  {| p_entities := Some [ItemString "calendar.work"; entityOf "calendar.home" "red"];
     p_days_to_show := Some 3; p_show_past_events := Some false;
     p_refresh_interval := Some 30; p_styling := [("title_color", "black")] |}.

(** The previous configuration of [twiceListedPrev], left as it is. *)
Definition twiceListedSame : Config :=
  {| entities := [entityOf "calendar.a" "red"; entityOf "calendar.a" "blue"];
     days_to_show := 3; show_past_events := false;
     refresh_interval := 30; styling := [] |}.

Definition currTwo : Config :=
  {| entities := [entityOf "calendar.home" "blue"; ItemString "calendar.work"];
     days_to_show := 3; show_past_events := false;
     refresh_interval := 30; styling := [("title_color", "white")] |}.

Definition english : Translations :=
  {| allDay := "all-day";
     multiDay := "until";
     at_ := "at";
     months := ["Jan"; "Feb"; "Mar"; "Apr"; "May"; "Jun";
                "Jul"; "Aug"; "Sep"; "Oct"; "Nov"; "Dec"];
     fullDaysOfWeek := ["Sunday"; "Monday"; "Tuesday"; "Wednesday";
                        "Thursday"; "Friday"; "Saturday"];
     endsToday := "ends today";
     endsTomorrow := "ends tomorrow" |}.

(** Upper-casing of the letters a-z. *)
Definition upperAscii (c : ascii) : ascii :=
  let n := nat_of_ascii c in
  if ((97 <=? n) && (n <=? 122))%nat then ascii_of_nat (n - 32) else c.

Fixpoint upper (s : string) : string :=
  match s with
  | EmptyString => EmptyString
  | String c rest => String (upperAscii c) (upper rest)
  end.

(** The zone UTC. *)
Definition utc : Zone := constZone 0.

(** A zone with two clock changes: the offset is [inside] from the instant
    [from] up to the instant [till], and [outside] before and after.  A
    local time that a change skips or repeats is interpreted with the offset
    in force before the change. *)
Definition twoOffsets (outside inside from till : Z) : Zone :=
  {| offsetAt := fun t => if ((from <=? t) && (t <? till))%Z then inside else outside;
     offsetOfLocal := fun tl =>
       if ((from + Z.max outside inside <=? tl) && (tl <? till + Z.max outside inside))%Z
       then inside else outside |}.

(** The instant [hh] hours after midnight UTC of a day; in the zone UTC
    also the local time. *)
Definition at_hour (y m d hh : Z) : Z := MakeDate (MakeDay y (m - 1) d) (hh * msPerHour).

(** Central European time in 2021 and in 2025: one hour ahead of UTC, two
    hours from the last Sunday of March to the last Sunday of October,
    01:00 UTC. *)
Definition berlin2021 : Zone :=
  twoOffsets msPerHour (2 * msPerHour) (at_hour 2021 3 28 1) (at_hour 2021 10 31 1).

Definition berlin2025 : Zone :=
  twoOffsets msPerHour (2 * msPerHour) (at_hour 2025 3 30 1) (at_hour 2025 10 26 1).

(** Eastern Australian time in 2021: eleven hours ahead of UTC, ten hours
    from the first Sunday of April to the first Sunday of October,
    16:00 UTC of the day before. *)
Definition sydney2021 : Zone :=
  twoOffsets (11 * msPerHour) (10 * msPerHour) (at_hour 2021 4 3 16) (at_hour 2021 10 2 16).

(** [new Date(y, m - 1, d, hh)] in a zone, for a local time on its clock. *)
Definition localAt (z : Zone) (y m d hh : Z) : Z := UTC z (at_hour y m d hh).

(** [YYYY-MM-DDTHH:MM] read as local time in the zone UTC. *)
Definition parseIso (s : string) : Date :=
  match JS.splitChar "T" s with
  | [d; t] =>
      match map JS.Number (JS.splitChar "-" d), map JS.Number (JS.splitChar ":" t) with
      | [Some y; Some m; Some dd], Some hh :: Some mi :: _ =>
          Some (MakeDate (MakeDay y (m - 1) dd) (hh * msPerHour + mi * msPerMinute))
      | _, _ => None
      end
  | _ => None
  end.

(** Characters with a meaning of their own in a pattern. *)
Definition isSyntaxChar (c : ascii) : bool :=
  JS.includesChar c "\^$.*+?()[]{}|/".

Fixpoint noSyntaxChar (s : string) : bool :=
  match s with
  | EmptyString => true
  | String c rest => negb (isSyntaxChar c) && noSyntaxChar rest
  end.

(** Does an upper-cased alternative open [t], with only white space after
    it? *)
Definition altThenSpaces (alts : list string) (t : string) : bool :=
  existsb (fun a =>
             String.prefix a (upper t)
             && JS.allWhiteSpace (String.substring (String.length a)
                                    (String.length t - String.length a) t))
          alts.

Fixpoint searchFrom (p : string -> bool) (i : nat) (t : string) : option (nat * nat) :=
  if p t then Some (i, String.length t)
  else match t with
       | EmptyString => None
       | String _ rest => searchFrom p (S i) rest
       end.

(** Depth of open parentheses after reading [s]; [None] when a closing
    parenthesis has no partner. *)
Fixpoint parenDepth (depth : nat) (s : string) : option nat :=
  match s with
  | EmptyString => Some depth
  | String c rest =>
      if Ascii.eqb c "(" then parenDepth (S depth) rest
      else if Ascii.eqb c ")" then
        match depth with
        | O => None
        | S d => parenDepth d rest
        end
      else parenDepth depth rest
  end.

(** A regular-expression engine for the sources [(a1|...|an)\s*$] whose
    alternatives are plain text, matched without regard to case; a source
    whose parentheses do not pair up is rejected, as every engine does.
    Sources of any other shape never match here. *)
Definition regExp (source : string) : option (string -> option (nat * nat)) :=
  match parenDepth 0 source with
  | Some O =>
      let body := String.substring 1 (String.length source - 6) source in
      let alts := JS.splitChar "|" body in
      if forallb noSyntaxChar alts
         && (source =? "(" +:+ body +:+ ")\s*$")
      then Some (searchFrom (altThenSpaces (map upper alts)) 0)
      else Some (fun _ => None)
  | _ => None
  end.

(** The example host in a given zone. *)
Definition hostIn (z : Zone) : Host :=
  {| zone := z;
     parseDate := parseIso;
     toUpperCase := upper;
     getTranslations := fun _ => english;
     getDateFormatStyle := fun _ => "month-day";
     getTimeFormat24h := fun _ use24h => use24h;
     getRelativeTimeString := fun _ _ => "soon";
     COUNTRY_NAMES := ["Germany"; "United States"; "USA"];
     RegExp_i := regExp |}.

Definition host : Host := hostIn utc.

Definition allDayEvent (s e : string) : CalendarEventData :=
  {| start := Some {| dateTime := None; date := Some s |};
     end_ := {| dateTime := None; date := Some e |};
     _isEmptyDay := false |}.

Definition config24 : TimeConfig := {| time_24h := T24 true; show_end_time := true |}.

End Example.

(** * Properties *)

Section ConfigDiff.
Import Config Spec.

Lemma sort_perm_eq (l1 l2 : list string) :
  l1 ≡ₚ l2 -> JS.sort l1 = JS.sort l2.
Proof.
  intros Hp. unfold JS.sort.
  apply (Sorted_unique String.le).
  - apply Sorted_merge_sort; apply _.
  - apply Sorted_merge_sort; apply _.
  - rewrite !merge_sort_Permutation. exact Hp.
Qed.

Lemma Z_strict_ne_true (a : option Z) (b : Z) :
  Z_strict_ne a b = true <-> a <> Some b.
Proof.
  destruct a as [x|]; simpl.
  - rewrite negb_true_iff, Z.eqb_neq. split; congruence.
  - split; [discriminate | reflexivity].
Qed.

Lemma bool_strict_ne_true (a : option bool) (b : bool) :
  bool_strict_ne a b = true <-> a <> Some b.
Proof.
  destruct a as [x|]; simpl.
  - rewrite negb_true_iff. destruct x, b; simpl; split; congruence.
  - split; [discriminate | reflexivity].
Qed.

Lemma commaJoined_join (l : list string) : commaJoined l = JS.join "," l.
Proof.
  induction l as [|x [|y rest] IH]; [reflexivity | reflexivity |].
  change (commaJoined (x :: y :: rest)) with (x +:+ "," +:+ commaJoined (y :: rest)).
  rewrite IH. reflexivity.
Qed.

Lemma insertSorted_perm (s : string) (l : list string) : insertSorted s l ≡ₚ s :: l.
Proof.
  induction l as [|x rest IH]; simpl; [reflexivity|].
  destruct (String.leb s x); [reflexivity|].
  rewrite IH. apply perm_swap.
Qed.

Lemma insertSorted_Sorted (s : string) (l : list string) :
  Sorted String.le l -> Sorted String.le (insertSorted s l).
Proof.
  induction l as [|x rest IH]; simpl; intros Hs.
  - repeat constructor.
  - destruct (String.leb s x) eqn:E.
    + constructor; [exact Hs|]. constructor. unfold String.le. by rewrite E.
    + assert (Hxs : String.le x s).
      { destruct (total String.le s x) as [H|H]; [|exact H].
        unfold String.le in H. rewrite E in H. contradiction. }
      apply Sorted_inv in Hs as [Hs Hhd]. constructor; [by apply IH|].
      destruct rest as [|y rest']; simpl.
      * by constructor.
      * apply HdRel_inv in Hhd. destruct (String.leb s y); by constructor.
Qed.

Lemma sorted_sort (l : list string) : sorted l = JS.sort l.
Proof.
  unfold JS.sort. apply (Sorted_unique String.le).
  - induction l as [|x rest IH]; simpl; [constructor | by apply insertSorted_Sorted].
  - apply Sorted_merge_sort; apply _.
  - rewrite merge_sort_Permutation.
    induction l as [|x rest IH]; simpl; [reflexivity|].
    by rewrite insertSorted_perm, IH.
Qed.

(** The key that the routine compares is the sorted comma-joined list of
    the entity IDs. *)
Lemma entityIdsKey_sortedIds (es : option (list EntityItem)) :
  entityIdsKey es = sortedIds (default [] es).
Proof. unfold sortedIds, entityIdsKey. by rewrite commaJoined_join, sorted_sort. Qed.

(** C1. [hasConfigChanged previous current] is [true] exactly when
    [previous] is undefined or has no keys, or the sorted comma-joined
    entity IDs differ, or [days_to_show], [show_past_events] or
    [refresh_interval] differ.  In particular, for a previous configuration
    with at least one key, a change that keeps the entity IDs (as a
    multiset) and these three fields, whatever happens to colours, labels
    and styling fields, yields [false]. *)
Theorem hasConfigChanged_spec :
  (forall previous current,
      hasConfigChanged previous current = true <->
      (previous = None
       \/ exists prev, previous = Some prev
            /\ (keys_length prev = 0%nat \/ dataDiffers prev current)))
  /\ (forall prev current,
      keys_length prev <> 0%nat ->
      map idOf (default [] (p_entities prev)) ≡ₚ map idOf (entities current) ->
      p_days_to_show prev = Some (days_to_show current) ->
      p_show_past_events prev = Some (show_past_events current) ->
      p_refresh_interval prev = Some (refresh_interval current) ->
      hasConfigChanged (Some prev) current = false).
Proof.
  assert (Hiff : forall previous current,
      hasConfigChanged previous current = true <->
      (previous = None
       \/ exists prev, previous = Some prev
            /\ (keys_length prev = 0%nat \/ dataDiffers prev current))).
  { intros [prev|] current; simpl.
    - destruct (Nat.eqb_spec (keys_length prev) 0) as [Hk|Hk].
      + split; [|reflexivity]. intros _. right. exists prev. auto.
      + rewrite !orb_true_iff, negb_true_iff, String.eqb_neq,
          !Z_strict_ne_true, bool_strict_ne_true, !entityIdsKey_sortedIds.
        unfold dataDiffers. cbn [default]. split.
        * intros H. right. exists prev. split; [reflexivity|]. right. tauto.
        * intros [H|(p & Hp & [H|H])]; [discriminate| |];
            injection Hp as <-; [contradiction | tauto].
    - split; [auto | reflexivity]. }
  split; [exact Hiff|].
  intros prev current Hk Hids Hd Hs Hr.
  apply not_true_is_false. intros Ht.
  apply Hiff in Ht. destruct Ht as [Ht|(p & Hp & [H|H])]; [discriminate| |];
    injection Hp as <-; [contradiction|].
  destruct H as [H|[H|[H|H]]]; try contradiction.
  apply H. unfold sortedIds. f_equal. rewrite !sorted_sort. apply sort_perm_eq. exact Hids.
Qed.

End ConfigDiff.

Ltac in_head := apply elem_of_cons; left; reflexivity.
Ltac in_tail := apply elem_of_cons; right; assumption.

Section EntityColours.
Import Config Spec Example.

Lemma foldl_insert_lookup (l : list EntityItem) (m : gmap string string) (k : string) :
  foldl (fun m e => <[entityId e := effectiveColor e]> m) m l !! k
  = match lastColorOf k l with
    | Some c => Some c
    | None => m !! k
    end.
Proof.
  revert m. induction l as [|e rest IH]; intros m; simpl; [reflexivity|].
  rewrite IH. destruct (lastColorOf k rest) as [c|]; [reflexivity|].
  destruct (decide (entityId e = k)) as [->|Hne].
  - apply lookup_insert_eq.
  - apply lookup_insert_ne. exact Hne.
Qed.

Lemma buildColorMap_lookup (l : list EntityItem) (k : string) :
  buildColorMap l !! k = lastColorOf k l.
Proof.
  unfold buildColorMap. rewrite foldl_insert_lookup.
  destruct (lastColorOf k l); [reflexivity | apply lookup_empty].
Qed.

Lemma lastColorOf_Some_elem (k : string) (l : list EntityItem) (c : string) :
  lastColorOf k l = Some c ->
  exists e, e ∈ l /\ entityId e = k /\ effectiveColor e = c.
Proof.
  induction l as [|e rest IH]; simpl; [discriminate|].
  destruct (lastColorOf k rest) as [c'|].
  - intros [= <-]. destruct (IH eq_refl) as (e' & Hin & Hk & Hc).
    exists e'. split; [in_tail | auto].
  - destruct (decide (entityId e = k)) as [Hk|]; [|discriminate].
    intros [= <-]. exists e. split; [in_head | auto].
Qed.

Lemma lastColorOf_None (k : string) (l : list EntityItem) :
  lastColorOf k l = None <-> k ∉ map entityId l.
Proof.
  induction l as [|e rest IH]; simpl.
  - split; [intros _; apply not_elem_of_nil | reflexivity].
  - rewrite not_elem_of_cons, <- IH.
    destruct (lastColorOf k rest) as [c'|].
    + split; [discriminate | intros [_ ?]; discriminate].
    + destruct (decide (entityId e = k)) as [Hk|Hk].
      * split; [discriminate | intros [? _]; congruence].
      * split; [intros _; split; congruence | reflexivity].
Qed.

Lemma lastColorOf_NoDup (k : string) (l : list EntityItem) (e : EntityItem) :
  NoDup (map entityId l) -> e ∈ l -> entityId e = k ->
  lastColorOf k l = Some (effectiveColor e).
Proof.
  induction l as [|x rest IH]; simpl; intros Hnd Hin Hk.
  - by apply elem_of_nil in Hin.
  - apply NoDup_cons in Hnd as [Hx Hnd].
    apply elem_of_cons in Hin as [->|Hin].
    + assert (lastColorOf k rest = None) as ->
        by (apply lastColorOf_None; congruence).
      by rewrite decide_True.
    + by rewrite (IH Hnd Hin Hk).
Qed.

Lemma colorLoop_true (m : gmap string string) (l : list EntityItem) :
  colorLoop m l = true <->
  exists e c, e ∈ l /\ m !! entityId e = Some c /\ c <> effectiveColor e.
Proof.
  induction l as [|x rest IH]; simpl.
  - split; [discriminate|]. intros (e & c & Hin & _). by apply elem_of_nil in Hin.
  - destruct (m !! entityId x) as [cx|] eqn:Hx.
    + destruct (String.eqb_spec cx (effectiveColor x)) as [Heq|Hne]; simpl.
      * rewrite IH. split.
        -- intros (e & c & Hin & H). exists e, c. split; [in_tail | exact H].
        -- intros (e & c & Hin & Hm & Hc). apply elem_of_cons in Hin as [->|Hin].
           ++ congruence.
           ++ exists e, c. auto.
      * split; [|reflexivity]. intros _. exists x, cx.
        split; [in_head | auto].
    + rewrite IH. split.
      * intros (e & c & Hin & H). exists e, c. split; [in_tail | exact H].
      * intros (e & c & Hin & Hm & Hc). apply elem_of_cons in Hin as [->|Hin].
        -- congruence.
        -- exists e, c. auto.
Qed.

(** C2, at the previous list [{a, red}, {a, blue}]: the map from IDs to
    colours keeps one colour per ID, the one of the last entry.  Against the
    current list [{a, blue}, {a, blue}] the answer is [false] although the ID
    [a] was red and is now blue; against the unchanged list the answer is
    [true] although no colour has changed. *)
Theorem haveEntityColorsChanged_repeated_id :
  haveEntityColorsChanged (Some twiceListedPrev) twiceListedCurr = false
  /\ someSharedIdRecoloured (default [] (p_entities twiceListedPrev)) (entities twiceListedCurr)
  /\ haveEntityColorsChanged (Some twiceListedPrev) twiceListedSame = true
  /\ p_entities twiceListedPrev = Some (entities twiceListedSame).
Proof.
  split; [vm_compute; reflexivity|]. split; [|split; vm_compute; reflexivity].
  exists (entityOf "calendar.a" "red"), (entityOf "calendar.a" "blue").
  repeat split.
  - in_head.
  - in_head.
  - vm_compute. discriminate.
Qed.

(** With equal lengths the answer is [true] exactly when some current entry
    differs in colour from the last previous entry with its ID. *)
Lemma haveEntityColorsChanged_last_entry (prev : PartialConfig) (current : Config)
    (prevEntities : list EntityItem) :
  p_entities prev = Some prevEntities ->
  length prevEntities = length (entities current) ->
  (haveEntityColorsChanged (Some prev) current = true <->
   exists e c, e ∈ entities current
     /\ lastColorOf (entityId e) prevEntities = Some c
     /\ c <> effectiveColor e).
Proof.
  intros Hpe Hlen. unfold haveEntityColorsChanged.
  rewrite Hpe, Hlen, Nat.eqb_refl. simpl. rewrite colorLoop_true.
  split; intros (e & c & Hin & Hm & Hc); exists e, c;
    rewrite buildColorMap_lookup in *; auto.
Qed.

(** When no ID is repeated in the previous list, the routine does what it
    is described to do: with equal lengths it answers [true] exactly when
    some ID present in both lists has a different effective colour; it
    answers [false] when [previous] or [previous.entities] is undefined or
    the lengths differ. *)
Lemma haveEntityColorsChanged_distinct_ids :
  (forall prev current prevEntities,
      p_entities prev = Some prevEntities ->
      length prevEntities = length (entities current) ->
      NoDup (map entityId prevEntities) ->
      (haveEntityColorsChanged (Some prev) current = true <->
       someSharedIdRecoloured prevEntities (entities current)))
  /\ (forall current, haveEntityColorsChanged None current = false)
  /\ (forall prev current,
      p_entities prev = None ->
      haveEntityColorsChanged (Some prev) current = false)
  /\ (forall prev current prevEntities,
      p_entities prev = Some prevEntities ->
      length prevEntities <> length (entities current) ->
      haveEntityColorsChanged (Some prev) current = false).
Proof.
  split; [|split; [|split]].
  - intros prev current pe Hpe Hlen Hnd.
    rewrite (haveEntityColorsChanged_last_entry _ _ _ Hpe Hlen). split.
    + intros (e & c & Hin & Hm & Hc).
      destruct (lastColorOf_Some_elem _ _ _ Hm) as (ep & Hep & Hk & Hcol).
      exists ep, e. repeat split; auto. congruence.
    + intros (ep & ec & Hep & Hec & Hk & Hc).
      exists ec, (effectiveColor ep). repeat split; auto.
      apply lastColorOf_NoDup; auto.
  - reflexivity.
  - intros prev current Hpe. unfold haveEntityColorsChanged. by rewrite Hpe.
  - intros prev current pe Hpe Hlen. unfold haveEntityColorsChanged.
    rewrite Hpe. apply Nat.eqb_neq in Hlen. by rewrite Hlen.
Qed.

End EntityColours.

Section ConfigWitnesses.
Import Config Example.

Lemma hasConfigChanged_spec_witness :
  hasConfigChanged (Some prevTwo) currTwo = false.
Proof.
  apply (proj2 hasConfigChanged_spec prevTwo currTwo).
  - vm_compute. discriminate.
  - simpl. apply perm_swap.
  - reflexivity.
  - reflexivity.
  - reflexivity.
Defined.

Example haveEntityColorsChanged_recoloured :
  haveEntityColorsChanged (Some prevTwo) currTwo = true.
Proof. vm_compute. reflexivity. Qed.

End ConfigWitnesses.

Section Normalisation.
Import Config Spec.

Lemma normalizedItem_Some (item : RawItem) (e : EntityConfig) :
  normalizedItem item = Some e -> normalisedFrom item e.
Proof.
  destruct item as [s|o| |]; unfold normalizedItem; simpl; [| |discriminate|discriminate].
  - intros [= <-]. simpl. auto.
  - destruct (r_entity o) as [id|] eqn:Hid; simpl; [|discriminate].
    destruct (String.eqb_spec id "") as [->|Hne]; simpl; [discriminate|].
    intros [= <-]. simpl. auto 10.
Qed.

(** An object without a (non-empty) [entity] is dropped. *)
Lemma normalizeItem_lacking_entity (o : RawEntity) :
  JS.truthy (r_entity o) = false -> normalizeItem (RObject o) = JS.Returns None.
Proof. intros H. simpl. by rewrite H. Qed.

Lemma mapItems_returns (items : list RawItem) :
  RNull ∉ items -> mapItems items = JS.Returns (map normalizedItem items).
Proof.
  induction items as [|x rest IH]; intros Hn; [reflexivity|].
  apply not_elem_of_cons in Hn as [Hx Hrest]. cbn [mapItems map].
  rewrite (IH Hrest). unfold normalizedItem.
  destruct x as [s|o| |]; simpl; try reflexivity; [|congruence].
  destruct (JS.truthy (r_entity o)); reflexivity.
Qed.

Lemma mapItems_throws (items : list RawItem) :
  RNull ∈ items -> mapItems items = JS.Throws JS.TypeError.
Proof.
  induction items as [|x rest IH]; intros Hn; [by apply elem_of_nil in Hn|].
  cbn [mapItems]. destruct x as [s|o| |]; simpl; try reflexivity;
    (apply elem_of_cons in Hn as [Hn|Hn]; [discriminate|]); rewrite (IH Hn);
    try reflexivity.
  destruct (JS.truthy (r_entity o)); reflexivity.
Qed.

Lemma omap_id_map {A B} (f : A -> option B) (l : list A) : omap id (map f l) = omap f l.
Proof.
  induction l as [|x rest IH]; [reflexivity|].
  change (omap id (map f (x :: rest)))
    with (match f x with
          | Some e => e :: omap id (map f rest)
          | None => omap id (map f rest)
          end).
  change (omap f (x :: rest))
    with (match f x with
          | Some e => e :: omap f rest
          | None => omap f rest
          end).
  by rewrite IH.
Qed.

(** On an array without [null] the routine returns, and what it returns is
    what the callback keeps of each element, in order; on an array that
    holds [null] it throws a [TypeError]. *)
Lemma normalizeEntities_returns (items : list RawItem) :
  RNull ∉ items -> normalizeEntities (IsArray items) = JS.Returns (omap normalizedItem items).
Proof.
  intros Hn. unfold normalizeEntities. by rewrite (mapItems_returns _ Hn), omap_id_map.
Qed.

Lemma normalizeEntities_null (items : list RawItem) :
  RNull ∈ items -> normalizeEntities (IsArray items) = JS.Throws JS.TypeError.
Proof. intros Hn. unfold normalizeEntities. by rewrite (mapItems_throws _ Hn). Qed.

Lemma null_or_not (items : list RawItem) : RNull ∈ items \/ RNull ∉ items.
Proof.
  induction items as [|x rest [IH|IH]].
  - right. apply not_elem_of_nil.
  - left. by apply elem_of_cons; right.
  - destruct x as [s|o| |].
    + right. apply not_elem_of_cons. split; [discriminate | exact IH].
    + right. apply not_elem_of_cons. split; [discriminate | exact IH].
    + left. apply elem_of_cons. by left.
    + right. apply not_elem_of_cons. split; [discriminate | exact IH].
Qed.

Lemma normalizeEntities_Returns_inv (items : list RawItem) (out : list EntityConfig) :
  normalizeEntities (IsArray items) = JS.Returns out ->
  (RNull ∉ items) /\ out = omap normalizedItem items.
Proof.
  intros H. destruct (null_or_not items) as [Hin|Hn].
  - rewrite (normalizeEntities_null _ Hin) in H. discriminate.
  - rewrite (normalizeEntities_returns _ Hn) in H. injection H as <-. auto.
Qed.

(** Every element of the result stems from an array element, with the
    defaults filled in; nothing is added. *)
Lemma normalizeEntities_elements (items : list RawItem) (out : list EntityConfig)
    (e : EntityConfig) :
  normalizeEntities (IsArray items) = JS.Returns out ->
  e ∈ out ->
  exists item, item ∈ items /\ normalisedFrom item e.
Proof.
  intros H. apply normalizeEntities_Returns_inv in H as [_ ->].
  rewrite list_elem_of_omap. intros (item & Hin & Hn).
  exists item. split; [exact Hin | by apply normalizedItem_Some].
Qed.

Lemma normalizeEntities_length (items : list RawItem) (out : list EntityConfig) :
  normalizeEntities (IsArray items) = JS.Returns out ->
  (length out <= length items)%nat.
Proof.
  intros H. apply normalizeEntities_Returns_inv in H as [_ ->].
  induction items as [|x rest IH]; [reflexivity|].
  change (omap normalizedItem (x :: rest))
    with (match normalizedItem x with
          | Some e => e :: omap normalizedItem rest
          | None => omap normalizedItem rest
          end).
  destruct (normalizedItem x); simpl length; lia.
Qed.

Lemma normalizeEntities_not_array : normalizeEntities NotArray = JS.Returns [].
Proof. reflexivity. Qed.

(** C10, at the input [['']]: the string branch copies the string without
    looking at it, so the result holds an element whose [entity] is empty,
    whereas the object branch drops [{entity: ''}]. *)
Theorem normalizeEntities_empty_string_kept :
  normalizeEntities (IsArray [RString ""])
  = JS.Returns
      [ {| entity := ""; label := None; color := Some DEFAULT_COLOR;
           accent_color := Some DEFAULT_ACCENT_COLOR; show_location := Some true |} ]
  /\ normalizeEntities
       (IsArray [RObject {| r_entity := Some ""; r_label := None; r_color := None;
                            r_accent_color := None; r_show_location := None |}])
     = JS.Returns [].
Proof. split; reflexivity. Qed.

End Normalisation.

Section CacheKey.
Import Config Helpers Example.

Example hashString_calendar : hashString "calendar_a_3_0" = "bqz1tx".
Proof. vm_compute. reflexivity. Qed.

Lemma includesChar_app (c : ascii) (s t : string) :
  JS.includesChar c (s +:+ String c t) = true.
Proof.
  induction s as [|x s IH]; simpl.
  - by rewrite Ascii.eqb_refl.
  - destruct (Ascii.eqb x c); [reflexivity | exact IH].
Qed.

Lemma beforeChar_app (c : ascii) (s t : string) :
  JS.includesChar c s = false -> JS.beforeChar c (s +:+ String c t) = s.
Proof.
  induction s as [|x s IH]; simpl.
  - by rewrite Ascii.eqb_refl.
  - destruct (Ascii.eqb x c); [discriminate|]. intros H. by rewrite IH.
Qed.

(** C5. [generateDeterministicId] depends on the entity list only through
    the multiset of its entity IDs: lists whose IDs are permutations of
    each other (whatever the order, and whether an entry is a plain string
    or an object with colours) give the same ID for the same
    [daysToShow], [showPastEvents] and start date.  A start date in ISO
    date-time form, [date ++ "T" ++ time] with no ['T'] inside [date], gives
    the same ID as [date] alone. *)
Theorem generateDeterministicId_spec :
  (forall es1 es2 daysToShow showPastEvents startDate,
      map entityId es1 ≡ₚ map entityId es2 ->
      generateDeterministicId es1 daysToShow showPastEvents startDate
      = generateDeterministicId es2 daysToShow showPastEvents startDate)
  /\ (forall es daysToShow showPastEvents date time,
      JS.includesChar "T" date = false ->
      generateDeterministicId es daysToShow showPastEvents (Some (date +:+ String "T" time))
      = generateDeterministicId es daysToShow showPastEvents (Some date)).
Proof.
  split.
  - intros es1 es2 d p sd Hp. unfold generateDeterministicId.
    by rewrite (sort_perm_eq _ _ Hp).
  - intros es d p date time HT. unfold generateDeterministicId.
    rewrite includesChar_app, (beforeChar_app _ _ _ HT), HT.
    assert (Hne : (date +:+ String "T" time =? "") = false)
      by (destruct date; reflexivity).
    rewrite Hne. simpl negb. cbv iota.
    destruct (String.eqb_spec date "") as [->|Hd]; [reflexivity|].
    simpl negb. cbv iota. apply String.eqb_neq in Hd. by rewrite Hd.
Qed.

Lemma generateDeterministicId_spec_witness :
  generateDeterministicId [ItemString "calendar.work"; entityOf "calendar.home" "red"]
    7 true (Some "2025-03-01T08:30:00")
  = generateDeterministicId [ItemString "calendar.home"; ItemString "calendar.work"]
    7 true (Some "2025-03-01").
Proof.
  etransitivity.
  - apply (proj1 generateDeterministicId_spec
             [ItemString "calendar.work"; entityOf "calendar.home" "red"]
             [ItemString "calendar.home"; ItemString "calendar.work"]).
    simpl. apply perm_swap.
  - apply (proj2 generateDeterministicId_spec _ 7 true "2025-03-01" "08:30:00").
    reflexivity.
Defined.

End CacheKey.

Section FirstDayOfWeek.
Import Format Spec.

Lemma prefix_app (p rest : string) : String.prefix p (p +:+ rest) = true.
Proof.
  induction p as [|c p IH]; simpl; [by destruct rest|].
  destruct (ascii_dec c c); [exact IH | contradiction].
Qed.

Lemma prefix_inv (p s : string) :
  String.prefix p s = true -> exists rest, s = p +:+ rest.
Proof.
  revert s. induction p as [|c p IH]; intros s.
  - intros _. by exists s.
  - destruct s as [|x s]; simpl; [discriminate|].
    destruct (ascii_dec c x) as [->|]; [|discriminate].
    intros H. destruct (IH _ H) as [rest ->]. by exists rest.
Qed.

Lemma includes_inv (p s : string) :
  JS.includes p s = true -> exists a b, s = a +:+ p +:+ b.
Proof.
  induction s as [|x s IH]; cbn [JS.includes].
  - rewrite orb_false_r. intros H. destruct (prefix_inv _ _ H) as [rest Hr].
    exists "", rest. exact Hr.
  - intros H. apply orb_true_iff in H as [H|H].
    + destruct (prefix_inv _ _ H) as [rest Hr]. exists "", rest. exact Hr.
    + destruct (IH H) as (a & b & ->). by exists (String x a), b.
Qed.

Lemma includes_app (p a b : string) : JS.includes p (a +:+ p +:+ b) = true.
Proof.
  induction a as [|x a IH].
  - change ("" +:+ p +:+ b) with (p +:+ b).
    pose proof (prefix_app p b) as H.
    destruct (p +:+ b); cbn [JS.includes]; by rewrite H.
  - change (String x a +:+ p +:+ b) with (String x (a +:+ p +:+ b)).
    cbn [JS.includes]. rewrite IH. apply orb_true_r.
Qed.

(** C6, literal reading refuted: the pattern is not anchored at the end,
    so a longer tag that begins with en-US also yields Sunday. *)
Lemma getFirstDayOfWeek_longer_tag : ~ systemFirstDay_literal "en-US-POSIX".
Proof.
  intros [_ H].
  assert (Hn : "en-US-POSIX" ∉ ["en-US"; "en-CA"; "es-US"]).
  { intros Hin. repeat (apply elem_of_cons in Hin as [Hin|Hin]; [discriminate|]).
    by apply elem_of_nil in Hin. }
  specialize (H Hn). vm_compute in H. discriminate.
Qed.

(** C6 (amended). An explicit setting wins over the locale:
    [getFirstDayOfWeek sunday] is 0 and [getFirstDayOfWeek monday] is 1 for
    every locale.  Under ['system'] the result is 0 (Sunday) for every
    locale that begins with en-US, en-CA or es-US, and 1 (Monday) for every
    locale that neither begins with en-US or en-CA nor contains es-US. *)
Theorem getFirstDayOfWeek_spec :
  (forall locale, getFirstDayOfWeek sunday locale = 0)
  /\ (forall locale, getFirstDayOfWeek monday locale = 1)
  /\ (forall rest, getFirstDayOfWeek system ("en-US" +:+ rest) = 0)
  /\ (forall rest, getFirstDayOfWeek system ("en-CA" +:+ rest) = 0)
  /\ (forall rest, getFirstDayOfWeek system ("es-US" +:+ rest) = 0)
  /\ (forall locale,
        (forall rest, locale <> "en-US" +:+ rest) ->
        (forall rest, locale <> "en-CA" +:+ rest) ->
        (forall a b, locale <> a +:+ "es-US" +:+ b) ->
        getFirstDayOfWeek system locale = 1).
Proof.
  split; [reflexivity|]. split; [reflexivity|].
  split; [by intros []|]. split; [by intros []|]. split; [by intros []|].
  intros locale H1 H2 H3.
  unfold getFirstDayOfWeek, northAmericanLocale, JS.startsWith.
  destruct (String.prefix "en-US" locale) eqn:E1.
  { destruct (prefix_inv _ _ E1) as [rest Hr]. by destruct (H1 rest). }
  destruct (String.prefix "en-CA" locale) eqn:E2.
  { destruct (prefix_inv _ _ E2) as [rest Hr]. by destruct (H2 rest). }
  destruct (JS.includes "es-US" locale) eqn:E3.
  { destruct (includes_inv _ _ E3) as (a & b & Hr). by destruct (H3 a b). }
  reflexivity.
Qed.

Lemma getFirstDayOfWeek_spec_witness : getFirstDayOfWeek system "de-DE" = 1.
Proof.
  apply (proj2 (proj2 (proj2 (proj2 (proj2 getFirstDayOfWeek_spec)))) "de-DE").
  - intros rest H. discriminate.
  - intros rest H. discriminate.
  - intros a b H.
    repeat (destruct a as [|? a]; [discriminate|]; simpl in H; injection H as _ H).
    destruct a; discriminate.
Defined.

End FirstDayOfWeek.

Section Countdown.
Import JSDate Format Spec.

(** C8. [getCountdownString] is [null] exactly when the event is marked
    as an empty day, or has no [start], or has neither a (non-empty)
    [start.dateTime] nor a (non-empty) [start.date], or its parsed start is
    a valid time at or before the current time.  For an event that is not
    an empty day and whose parsed start lies strictly after the current
    time, the result is the relative-time string for that start. *)
Theorem getCountdownString_spec (h : Host) (now : Z) (event : CalendarEventData)
    (language : string) :
  (getCountdownString h now event language = None <->
     (_isEmptyDay event = true
      \/ start event = None
      \/ (exists st, start event = Some st
            /\ JS.truthy (dateTime st) = false /\ JS.truthy (date st) = false)
      \/ (exists st t, start event = Some st
            /\ parsedStart h st = Some (Some t) /\ t <= now)))
  /\ (forall st t,
        _isEmptyDay event = false ->
        start event = Some st ->
        parsedStart h st = Some (Some t) ->
        now < t ->
        getCountdownString h now event language
        = Some (getRelativeTimeString h (Some t) language)).
Proof.
  unfold getCountdownString. split.
  - destruct (_isEmptyDay event); [split; auto|].
    destruct (start event) as [st|]; [|split; auto].
    fold (parsedStart h st).
    destruct (parsedStart h st) as [[t|]|] eqn:Hp.
    + destruct (Z.leb_spec t now) as [Hle|Hgt].
      * split; [|reflexivity]. intros _. do 3 right. exists st, t. auto.
      * split; [discriminate|].
        intros [H|[H|[(st' & Hs & Ha & Hb)|(st' & t' & Hs & Hq & Hle)]]];
          try discriminate.
        -- injection Hs as <-. unfold parsedStart in Hp. rewrite Ha, Hb in Hp. discriminate.
        -- injection Hs as <-. rewrite Hp in Hq. injection Hq as <-. lia.
    + split; [discriminate|].
      intros [H|[H|[(st' & Hs & Ha & Hb)|(st' & t' & Hs & Hq & Hle)]]];
        try discriminate.
      * injection Hs as <-. unfold parsedStart in Hp. rewrite Ha, Hb in Hp. discriminate.
      * injection Hs as <-. rewrite Hp in Hq. discriminate.
    + split; [|reflexivity]. intros _. right. right. left. exists st.
      unfold parsedStart in Hp. split; [reflexivity|].
      destruct (JS.truthy (dateTime st)); [discriminate|].
      destruct (JS.truthy (date st)); [discriminate|]. auto.
  - intros st t He Hs Hp Hlt. rewrite He, Hs. fold (parsedStart h st). rewrite Hp.
    destruct (Z.leb_spec t now); [lia | reflexivity].
Qed.

Lemma getCountdownString_spec_witness :
  getCountdownString Example.host (Example.at_hour 2025 3 3 9)
    (Example.allDayEvent "2025-03-04" "2025-03-05") "en"
  = Some "soon".
Proof.
  apply (proj2 (getCountdownString_spec Example.host (Example.at_hour 2025 3 3 9)
                  (Example.allDayEvent "2025-03-04" "2025-03-05") "en")
           {| dateTime := None; date := Some "2025-03-04" |}
           (Example.at_hour 2025 3 4 0)).
  - reflexivity.
  - reflexivity.
  - vm_compute. reflexivity.
  - vm_compute. reflexivity.
Defined.

End Countdown.

Ltac zdiv := Z.div_mod_to_equations; lia.

Section DateArithmetic.
Import JSDate Format Spec.

Lemma MonthFromDay_range (d : Z) : 0 <= MonthFromDay d <= 11.
Proof.
  unfold MonthFromDay.
  repeat match goal with
         | |- context [if ?b then _ else _] => destruct b
         end; lia.
Qed.

(** The day, month and year of a day number lead back to it; a date beyond
    the month's length carries over linearly. *)
Lemma MakeDay_civil (d k : Z) :
  MakeDay (YearFromDay d) (MonthFromDay d) (DateFromDay d + k) = d + k.
Proof.
  pose proof (MonthFromDay_range d) as Hm.
  unfold MakeDay.
  rewrite (Z.div_small (MonthFromDay d) 12), (Z.mod_small (MonthFromDay d) 12) by lia.
  rewrite Z.add_0_r. unfold DateFromDay, DayWithinYear. lia.
Qed.

Lemma MakeDate_shift (lt k : Z) :
  MakeDate (Day lt + k) (TimeWithinDay lt) = lt + k * msPerDay.
Proof.
  unfold MakeDate, Day, TimeWithinDay, msPerDay.
  pose proof (Z.div_mod lt 86400000). lia.
Qed.

Lemma MakeDate_midnight (day : Z) : MakeDate day 0 = day * msPerDay.
Proof. unfold MakeDate. lia. Qed.


Lemma Day_of_midnight (day : Z) : Day (day * msPerDay) = day.
Proof. unfold Day, msPerDay. apply Z.div_mul. lia. Qed.

Lemma TimeWithinDay_of_midnight (day : Z) : TimeWithinDay (day * msPerDay) = 0.
Proof. unfold TimeWithinDay, msPerDay. apply Z.mod_mul. lia. Qed.

Lemma TimeWithinDay_range (t : Z) : 0 <= TimeWithinDay t < msPerDay.
Proof. unfold TimeWithinDay, msPerDay. apply Z.mod_pos_bound. lia. Qed.

(** A day number is reached exactly by the local times from its midnight
    on. *)
Lemma Day_le_iff (day lt : Z) : day <= Day lt <-> day * msPerDay <= lt.
Proof. unfold Day, msPerDay. zdiv. Qed.

Lemma TimeClip_representable (t : Z) : representable t -> TimeClip t = Some t.
Proof.
  unfold representable, TimeClip. intros H.
  destruct (Z.leb_spec (Z.abs t) maxTime); [reflexivity | lia].
Qed.

Lemma TimeClip_Some (t u : Z) : TimeClip t = Some u -> u = t /\ representable t.
Proof.
  unfold representable, TimeClip.
  destruct (Z.leb_spec (Z.abs t) maxTime); [|discriminate].
  intros [= <-]. auto.
Qed.

Lemma TimeClip_None (t : Z) : ~ representable t -> TimeClip t = None.
Proof.
  unfold representable, TimeClip. intros H.
  destruct (Z.leb_spec (Z.abs t) maxTime); [contradiction | reflexivity].
Qed.

Lemma onClock_TimeClip (z : Zone) (tl : Z) :
  onClock z tl -> TimeClip (UTC z tl) = Some (UTC z tl).
Proof. intros [H _]. by apply TimeClip_representable. Qed.

(** In a zone without clock changes every local time whose instant is a
    time value is on the clock, and every day opens at its midnight. *)
Lemma onClock_const (tza tl : Z) : representable (tl - tza) -> onClock (constZone tza) tl.
Proof. intros H. split; [exact H|]. unfold LocalTime, UTC. simpl. lia. Qed.

Lemma opensDay_const (tza day : Z) : opensDay (constZone tza) day.
Proof.
  intros u. rewrite Day_le_iff. unfold LocalTime, UTC. simpl. lia.
Qed.

(** [setDate] moves a date by whole days on the local clock. *)
Lemma setDate_shift (z : Zone) (t k : Z) :
  setDate z t (getDate z t + k) = TimeClip (UTC z (LocalTime z t + k * msPerDay)).
Proof.
  unfold setDate, getDate, DateFromTime, YearFromTime, MonthFromTime.
  by rewrite MakeDay_civil, MakeDate_shift.
Qed.

(** [new Date(d.getFullYear(), d.getMonth(), d.getDate())] is local midnight
    of the day of [d]. *)
Lemma newDateYMD_civil (z : Zone) (t : Z) :
  ~ (0 <= getFullYear z t <= 99) ->
  newDateYMD z (getFullYear z t) (getMonth z t) (getDate z t)
  = TimeClip (startOfLocalDay z t).
Proof.
  intros Hy. unfold newDateYMD.
  replace ((0 <=? getFullYear z t) && (getFullYear z t <=? 99))%Z with false
    by (symmetry; apply andb_false_iff; rewrite !Z.leb_gt; lia).
  unfold getFullYear, getMonth, getDate, YearFromTime, MonthFromTime, DateFromTime.
  pose proof (MakeDay_civil (Day (LocalTime z t)) 0) as Hc.
  rewrite !Z.add_0_r in Hc. rewrite Hc, MakeDate_midnight. reflexivity.
Qed.

(** [YearFromDay d] is the year whose days include [d]. *)
Lemma YearFromDay_spec (d : Z) :
  DayFromYear (YearFromDay d) <= d < DayFromYear (YearFromDay d + 1).
Proof. unfold YearFromDay, DayFromYear. zdiv. Qed.

Lemma DayFromYear_step (y : Z) :
  365 <= DayFromYear (y + 1) - DayFromYear y <= 366.
Proof. unfold DayFromYear. zdiv. Qed.

Lemma DayFromYear_mono (y y' : Z) :
  y < y' -> DayFromYear y + 365 * (y' - y) <= DayFromYear y'.
Proof. unfold DayFromYear. zdiv. Qed.

(** The table of year lengths agrees with the day numbering. *)
Lemma DaysInYear_spec (y : Z) : DaysInYear y = DayFromYear (y + 1) - DayFromYear y.
Proof.
  unfold DaysInYear, DayFromYear.
  destruct (Z.eqb_spec (y mod 4) 0); simpl; [|zdiv].
  destruct (Z.eqb_spec (y mod 100) 0); simpl; [|zdiv].
  destruct (Z.eqb_spec (y mod 400) 0); simpl; zdiv.
Qed.

Lemma YearFromDay_unique (y d : Z) :
  DayFromYear y <= d < DayFromYear (y + 1) -> YearFromDay d = y.
Proof.
  intros H. pose proof (YearFromDay_spec d) as Hs.
  destruct (Z.lt_trichotomy (YearFromDay d) y) as [Hlt|[Heq|Hgt]]; [|exact Heq|].
  - pose proof (DayFromYear_mono (YearFromDay d + 1) y).
    assert (YearFromDay d + 1 = y \/ YearFromDay d + 1 < y) as [E|E] by lia.
    + rewrite E in Hs. lia.
    + lia.
  - pose proof (DayFromYear_mono (y + 1) (YearFromDay d)).
    assert (y + 1 = YearFromDay d \/ y + 1 < YearFromDay d) as [E|E] by lia.
    + rewrite E in H. lia.
    + lia.
Qed.

Lemma InLeapYear_spec (y : Z) :
  DayFromYear (y + 1) - DayFromYear y = 365 + (if InLeapYear y then 1 else 0).
Proof.
  rewrite <- DaysInYear_spec. unfold InLeapYear.
  pose proof (DayFromYear_step y) as H. rewrite <- DaysInYear_spec in H.
  destruct (Z.eqb_spec (DaysInYear y) 366); lia.
Qed.

Lemma DateFromDay_range (d : Z) : 1 <= DateFromDay d <= daysInMonth (YearFromDay d) (MonthFromDay d).
Proof.
  pose proof (YearFromDay_spec d) as Hs.
  pose proof (InLeapYear_spec (YearFromDay d)) as Hl.
  unfold DateFromDay, MonthFromDay, daysInMonth, DayWithinYear in *.
  destruct (InLeapYear (YearFromDay d));
    repeat match goal with
           | |- context [if (?a <? ?b)%Z then _ else _] => destruct (Z.ltb_spec a b)
           end; simpl; lia.
Qed.



(** A day of the calendar is found again in the fields of its day number. *)
Lemma civil_of_MakeDay (y m d : Z) :
  validDate y m d ->
  YearFromDay (MakeDay y (m - 1) d) = y
  /\ MonthFromDay (MakeDay y (m - 1) d) = m - 1
  /\ DateFromDay (MakeDay y (m - 1) d) = d.
Proof.
  intros [Hm Hd].
  pose proof (InLeapYear_spec y) as Hl.
  assert (Hday : MakeDay y (m - 1) d
                 = DayFromYear y + daysBeforeMonth (InLeapYear y) (m - 1) + d - 1).
  { unfold MakeDay.
    rewrite (Z.div_small (m - 1) 12), (Z.mod_small (m - 1) 12) by lia.
    by rewrite Z.add_0_r. }
  revert Hday. generalize (MakeDay y (m - 1) d). intros day Hday.
  assert (Hy : YearFromDay day = y).
  { apply YearFromDay_unique. rewrite Hday. unfold daysInMonth in Hd.
    assert (Hc : m = 1 \/ m = 2 \/ m = 3 \/ m = 4 \/ m = 5 \/ m = 6 \/ m = 7 \/ m = 8
                 \/ m = 9 \/ m = 10 \/ m = 11 \/ m = 12) by lia.
    destruct (InLeapYear y);
      repeat (destruct Hc as [->|Hc]; [simpl in *; lia|]); subst m; simpl in *; lia. }
  split; [exact Hy|].
  assert (Hmo : MonthFromDay day = m - 1).
  { unfold MonthFromDay, DayWithinYear. rewrite Hy. rewrite Hday. unfold daysInMonth in Hd.
    assert (Hc : m = 1 \/ m = 2 \/ m = 3 \/ m = 4 \/ m = 5 \/ m = 6 \/ m = 7 \/ m = 8
                 \/ m = 9 \/ m = 10 \/ m = 11 \/ m = 12) by lia.
    destruct (InLeapYear y);
      repeat (destruct Hc as [->|Hc];
              [simpl in *;
               repeat match goal with
                      | |- context [if (?a <? ?b)%Z then _ else _] =>
                          destruct (Z.ltb_spec a b); try lia
                      end; lia|]);
      subst m; simpl in *;
      repeat match goal with
             | |- context [if (?a <? ?b)%Z then _ else _] =>
                 destruct (Z.ltb_spec a b); try lia
             end; lia. }
  split; [exact Hmo|].
  unfold DateFromDay, DayWithinYear. rewrite Hmo, Hy, Hday. lia.
Qed.

(** Two valid dates print the same [toDateString] exactly when they fall on
    the same local calendar day. *)
Lemma toDateString_eq_iff (z : Zone) (a b : Z) :
  toDateString z (Some a) = toDateString z (Some b)
  <-> Day (LocalTime z a) = Day (LocalTime z b).
Proof.
  unfold toDateString, getDay, getMonth, getDate, getFullYear, WeekDay,
    MonthFromTime, DateFromTime, YearFromTime.
  split.
  - intros [= _ Hm Hd Hy].
    pose proof (MakeDay_civil (Day (LocalTime z a)) 0) as Ha.
    pose proof (MakeDay_civil (Day (LocalTime z b)) 0) as Hb.
    rewrite Hm, Hd, Hy in Ha. lia.
  - intros ->. reflexivity.
Qed.

Lemma sameDateString_iff (h : Host) (a b : Z) :
  sameDateString h (Some a) (Some b) = true
  <-> Day (LocalTime (zone h) a) = Day (LocalTime (zone h) b).
Proof.
  unfold sameDateString. rewrite bool_decide_eq_true. apply toDateString_eq_iff.
Qed.

(** [today] is local midnight of the current day, [tomorrow] local midnight
    of the next one, when these local times are on the clock. *)
Lemma todayOf_eq (h : Host) (now : Z) :
  ~ (0 <= getFullYear (zone h) now <= 99) ->
  onClock (zone h) (Day (LocalTime (zone h) now) * msPerDay) ->
  todayOf h now = Some (startOfLocalDay (zone h) now)
  /\ LocalTime (zone h) (startOfLocalDay (zone h) now)
     = Day (LocalTime (zone h) now) * msPerDay.
Proof.
  intros Hy Hc. unfold todayOf, newDate.
  rewrite (newDateYMD_civil _ _ Hy). unfold startOfLocalDay.
  rewrite (onClock_TimeClip _ _ Hc). split; [reflexivity | apply Hc].
Qed.

Lemma tomorrowOf_eq (h : Host) (now : Z) :
  ~ (0 <= getFullYear (zone h) now <= 99) ->
  onClock (zone h) (Day (LocalTime (zone h) now) * msPerDay) ->
  onClock (zone h) ((Day (LocalTime (zone h) now) + 1) * msPerDay) ->
  tomorrowOf h now = Some (UTC (zone h) ((Day (LocalTime (zone h) now) + 1) * msPerDay)).
Proof.
  intros Hy Hc Hc'. unfold tomorrowOf.
  destruct (todayOf_eq h now Hy Hc) as [-> Hlt]. simpl.
  rewrite setDate_shift, Hlt.
  replace (Day (LocalTime (zone h) now) * msPerDay + 1 * msPerDay)
    with ((Day (LocalTime (zone h) now) + 1) * msPerDay) by lia.
  by apply onClock_TimeClip.
Qed.

Lemma sameDate_today (h : Host) (now t : Z) :
  ~ (0 <= getFullYear (zone h) now <= 99) ->
  onClock (zone h) (Day (LocalTime (zone h) now) * msPerDay) ->
  sameDateString h (Some t) (todayOf h now)
  = bool_decide (Day (LocalTime (zone h) t) = Day (LocalTime (zone h) now)).
Proof.
  intros Hy Hc. destruct (todayOf_eq h now Hy Hc) as [-> Hlt].
  apply bool_decide_ext.
  rewrite toDateString_eq_iff, Hlt, Day_of_midnight. reflexivity.
Qed.

Lemma sameDate_tomorrow (h : Host) (now t : Z) :
  ~ (0 <= getFullYear (zone h) now <= 99) ->
  onClock (zone h) (Day (LocalTime (zone h) now) * msPerDay) ->
  onClock (zone h) ((Day (LocalTime (zone h) now) + 1) * msPerDay) ->
  sameDateString h (Some t) (tomorrowOf h now)
  = bool_decide (Day (LocalTime (zone h) t) = Day (LocalTime (zone h) now) + 1).
Proof.
  intros Hy Hc Hc'. rewrite (tomorrowOf_eq h now Hy Hc Hc').
  apply bool_decide_ext.
  rewrite toDateString_eq_iff, (proj2 Hc'), Day_of_midnight. reflexivity.
Qed.

(** The numerals of the numbers below 100. *)
Lemma numberToString_short (n : Z) :
  0 <= n < 100 ->
  JS.numberToString n = shortNumeral n
  /\ JS.padStart2 (JS.numberToString n) = twoDigits n.
Proof.
  intros Hn.
  assert (Hf : forallb (fun k => (JS.numberToString (Z.of_nat k) =? shortNumeral (Z.of_nat k))
                                 && (JS.padStart2 (JS.numberToString (Z.of_nat k))
                                     =? twoDigits (Z.of_nat k)))
                 (seq 0 100) = true) by (vm_compute; reflexivity).
  rewrite forallb_forall in Hf. specialize (Hf (Z.to_nat n)).
  rewrite Z2Nat.id in Hf by lia.
  assert (Hin : In (Z.to_nat n) (seq 0 100)) by (apply in_seq; lia).
  apply Hf, andb_true_iff in Hin as [H1 H2].
  by apply String.eqb_eq in H1, H2.
Qed.

End DateArithmetic.

Section AllDayEvents.
Import JSDate Format Spec.






(** On the day on which the clocks go forward the local day has 23 hours;
    an all-day event of that one day, and one that runs over it, are
    recognised all the same. *)
Example formatEventTime_short_day :
  formatEventTime (Example.hostIn Example.berlin2025)
    (Example.localAt Example.berlin2025 2025 3 20 9)
    (Example.allDayEvent "2025-03-30" "2025-03-31") Example.config24 "en" None
  = JS.Returns "All-day"
  /\ formatEventTime (Example.hostIn Example.berlin2025)
       (Example.localAt Example.berlin2025 2025 3 29 9)
       (Example.allDayEvent "2025-03-29" "2025-03-31") Example.config24 "en" None
     = JS.Returns "All-day, ends tomorrow".
Proof. split; vm_compute; reflexivity. Qed.

End AllDayEvents.

Section Locations.
Import Format Spec.

Lemma suffixOf_app (a b : string) : suffixOf b (a +:+ b).
Proof. induction a as [|c a IH]; simpl; [constructor | by constructor]. Qed.

Lemma suffixOf_trans (a b c : string) : suffixOf a b -> suffixOf b c -> suffixOf a c.
Proof. intros Hab Hbc. induction Hbc; [exact Hab | constructor; auto]. Qed.

Lemma suffixOf_tail (c : ascii) (b s : string) : suffixOf (String c b) s -> suffixOf b s.
Proof.
  intros H. apply (suffixOf_trans _ (String c b)); [|exact H].
  constructor. constructor.
Qed.

Lemma cutAtMatch_no_match (p : string -> bool) (s : string) :
  (forall b, suffixOf b s -> b <> "" -> p b = false) ->
  p "" = true ->
  JS.cutAtMatch p s = s.
Proof.
  intros Hs He. induction s as [|c s IH]; simpl.
  - by rewrite He.
  - rewrite (Hs (String c s)) by (constructor || discriminate).
    f_equal. apply IH. intros b Hb. apply Hs. by constructor.
Qed.

(** After [trimEnd], what remains from any position on is not blank. *)
Lemma trimEnd_suffix_not_blank (s b : string) :
  suffixOf b (JS.trimEnd s) -> b <> "" -> JS.allWhiteSpace b = false.
Proof.
  revert b. induction s as [|c s IH]; intros b; simpl.
  - intros H. inversion H; subst. congruence.
  - destruct (String.eqb_spec (JS.trimEnd s) "") as [He|Hne]; simpl.
    + destruct (JS.isWhiteSpace c) eqn:Hc.
      * intros H. inversion H; subst. congruence.
      * intros H Hb. inversion H as [|? ? ? H']; subst.
        -- simpl. by rewrite Hc.
        -- rewrite He in H'. inversion H'; subst. congruence.
    + intros H Hb. inversion H as [|? ? ? H']; subst.
      * simpl. rewrite (IH (JS.trimEnd s)) by (constructor || assumption).
        apply andb_false_r.
      * by apply IH.
Qed.

Lemma stripCommaSpaces_trimmed (s : string) :
  (forall a, JS.trimEnd s <> a +:+ ",") ->
  JS.stripCommaSpaces (JS.trimEnd s) = JS.trimEnd s.
Proof.
  intros Hc. apply cutAtMatch_no_match; [|reflexivity].
  intros b Hb Hne. unfold JS.commaSpaces.
  rewrite (trimEnd_suffix_not_blank _ _ Hb Hne). simpl.
  destruct b as [|c rest]; [congruence|].
  destruct (Ascii.eqb_spec c ",") as [->|]; [|reflexivity]. simpl.
  destruct rest as [|c' rest'].
  - exfalso. clear Hne. revert Hc Hb. generalize (JS.trimEnd s). intros t Hc Hb.
    induction t as [|x t IH].
    + inversion Hb.
    + inversion Hb as [|? ? ? Hb']; subst.
      * by apply (Hc "").
      * apply IH; [|exact Hb']. intros a Ha. apply (Hc (String x a)). simpl. by rewrite Ha.
  - apply (trimEnd_suffix_not_blank s); [|discriminate].
    by apply suffixOf_tail in Hb.
Qed.

Lemma countryLoop_no_match (countries : list string) (locationText : string) :
  (forall country, country ∈ countries -> JS.endsWith country locationText = false) ->
  countryLoop countries locationText = locationText.
Proof.
  induction countries as [|c rest IH]; intros H; simpl; [reflexivity|].
  rewrite (H c) by in_head. apply IH. intros country Hin. apply H. in_tail.
Qed.

(** C9, literal reading refuted on the example host: with the configured
    pattern "Germany", which does not match, the trailing comma of
    "Berlin," is removed all the same; and the pattern "(" makes the
    construction of the regular expression throw. *)
Lemma formatLocation_not_literal : ~ formatLocation_literal Example.host.
Proof.
  intros (_ & _ & _ & H).
  specialize (H "Berlin," (RCString "Germany")).
  assert (Hn : noPatternMatches Example.host (JS.trim "Berlin,") (RCString "Germany")).
  { simpl. eexists. split; [vm_compute; reflexivity|]. vm_compute. reflexivity. }
  specialize (H Hn). vm_compute in H. discriminate.
Qed.

Example formatLocation_throws :
  formatLocation Example.host "Berlin" (RCString "(") = JS.Throws JS.SyntaxError.
Proof. vm_compute. reflexivity. Qed.

(** C9 (amended). [formatLocation] returns the empty string for the empty
    location and the location itself when [removeCountry] is [false].  With
    the built-in list ([true] or ['true']) it always returns a string, and
    when no built-in country name ends the trimmed location, that string is
    the trimmed location.  With a configured pattern it returns a string
    unless the construction of the regular expression throws, in which case
    the [SyntaxError] escapes; when the pattern does not match and the
    trimmed location does not end in a comma, the result is the trimmed
    location. *)
Theorem formatLocation_spec (h : Host) :
  (forall rc, formatLocation h "" rc = JS.Returns "")
  /\ (forall location, formatLocation h location (RCBool false) = JS.Returns location)
  /\ (forall location rc,
        rc = RCBool true \/ rc = RCString "true" ->
        (exists s, formatLocation h location rc = JS.Returns s)
        /\ ((forall country, country ∈ COUNTRY_NAMES h ->
               JS.endsWith country (JS.trim location) = false) ->
            formatLocation h location rc = JS.Returns (JS.trim location)))
  /\ (forall location p,
        p <> "true" -> location <> "" ->
        match RegExp_i h ("(" +:+ p +:+ ")\s*$") with
        | None => formatLocation h location (RCString p) = JS.Throws JS.SyntaxError
        | Some search =>
            (exists s, formatLocation h location (RCString p) = JS.Returns s)
            /\ (search (JS.trim location) = None ->
                (forall a, JS.trim location <> a +:+ ",") ->
                formatLocation h location (RCString p) = JS.Returns (JS.trim location))
        end).
Proof.
  split; [|split; [|split]].
  - intros rc. reflexivity.
  - intros location. unfold formatLocation.
    destruct (String.eqb_spec location "") as [->|]; reflexivity.
  - intros location rc Hrc.
    assert (Hf : formatLocation h location rc
                 = if location =? "" then JS.Returns ""
                   else JS.Returns (countryLoop (COUNTRY_NAMES h) (JS.trim location))).
    { destruct Hrc as [-> | ->]; reflexivity. }
    rewrite Hf. destruct (String.eqb_spec location "") as [->|Hne].
    + split; [by eexists | reflexivity].
    + split; [by eexists|]. intros Hno. f_equal. by apply countryLoop_no_match.
  - intros location p Hp Hloc. unfold formatLocation.
    apply String.eqb_neq in Hp, Hloc. rewrite Hp, Hloc. simpl.
    destruct (RegExp_i h ("(" +:+ p +:+ ")\s*$")) as [search|]; [|reflexivity].
    split; [by eexists|]. intros Hno Hcomma. unfold replaceMatch. rewrite Hno.
    f_equal. by apply stripCommaSpaces_trimmed.
Qed.

Lemma formatLocation_spec_witness :
  formatLocation Example.host " Piazza Navona, Roma " (RCBool true)
  = JS.Returns "Piazza Navona, Roma".
Proof.
  apply (proj2 (proj1 (proj2 (proj2 (formatLocation_spec Example.host)))
                  " Piazza Navona, Roma " (RCBool true) (or_introl eq_refl))).
  intros country Hin.
  repeat (apply elem_of_cons in Hin as [->|Hin]; [vm_compute; reflexivity|]).
  by apply elem_of_nil in Hin.
Defined.

End Locations.

Section WeekNumbers.
Import JSDate Format Spec.

Lemma week1Start_bounds (y : Z) :
  DayFromYear y - 3 <= week1Start y <= DayFromYear y + 3 /\ (week1Start y + 3) mod 7 = 0.
Proof. unfold week1Start, firstThursday, weekDayOf. generalize (DayFromYear y). intros j. zdiv. Qed.

Lemma week1Start_mono (y y' : Z) : y < y' -> week1Start (y + 1) <= week1Start y'.
Proof.
  intros H. assert (y + 1 = y' \/ y + 1 < y') as [<-|E] by lia; [lia|].
  pose proof (DayFromYear_mono (y + 1) y' E).
  pose proof (week1Start_bounds (y + 1)). pose proof (week1Start_bounds y'). lia.
Qed.

Lemma inIsoYear_unique (y y' d : Z) : inIsoYear y d -> inIsoYear y' d -> y = y'.
Proof.
  unfold inIsoYear. intros H H'.
  destruct (Z.lt_trichotomy y y') as [Hlt|[Heq|Hgt]]; [|exact Heq|].
  - pose proof (week1Start_mono y y' Hlt). lia.
  - pose proof (week1Start_mono y' y Hgt). lia.
Qed.

Lemma isoYear_bracket (d : Z) : inIsoYear (isoYear d) d.
Proof.
  unfold inIsoYear, isoYear.
  pose proof (YearFromDay_spec d) as Hs.
  set (y := YearFromDay d) in *.
  pose proof (week1Start_bounds (y - 1)). pose proof (week1Start_bounds y).
  pose proof (week1Start_bounds (y + 1)). pose proof (week1Start_bounds (y + 1 + 1)).
  pose proof (DayFromYear_step (y - 1)). pose proof (DayFromYear_step y).
  pose proof (DayFromYear_step (y + 1)).
  replace (y - 1 + 1) with y in * by lia.
  destruct (Z.ltb_spec d (week1Start y)).
  - replace (y - 1 + 1) with y by lia. lia.
  - destruct (Z.leb_spec (week1Start (y + 1)) d); lia.
Qed.

Lemma MakeDay_jan1 (y : Z) : MakeDay y 0 1 = DayFromYear y.
Proof.
  unfold MakeDay. change (0 / 12) with 0. change (0 mod 12) with 0.
  cbv beta zeta iota delta [daysBeforeMonth]. rewrite !Z.add_0_r. lia.
Qed.

Lemma newDateYMD_jan1 (z : Zone) (y : Z) :
  ~ (0 <= y <= 99) -> newDateYMD z y 0 1 = TimeClip (UTC z (DayFromYear y * msPerDay)).
Proof.
  intros Hy. unfold newDateYMD.
  replace ((0 <=? y) && (y <=? 99))%Z with false
    by (symmetry; apply andb_false_iff; rewrite !Z.leb_gt; lia).
  by rewrite MakeDay_jan1, MakeDate_midnight.
Qed.

Lemma thursdayOf_spec (d : Z) : thursdayOf d mod 7 = 0 /\ d - 3 <= thursdayOf d <= d + 3.
Proof.
  unfold thursdayOf, weekDayOf.
  destruct (Z.eqb_spec ((d + 4) mod 7) 0); zdiv.
Qed.

(** The routine in closed form.  The copy of the date is moved to the
    Thursday of its week, at the same time of day; the span from the instant
    of 1 January to that instant is the number of days between the two on
    the calendar, plus the time of day, plus what the zone's offset on
    1 January exceeds its offset on that Thursday.  Years 0 to 99 are set
    aside because [new Date(year, 0, 1)] reads them as 1900 + year. *)
Lemma getISOWeekNumber_eq (z : Zone) (t : Z) :
  let th := thursdayOf (Day (LocalTime z t)) in
  let j := DayFromYear (YearFromDay th) in
  ~ (0 <= YearFromDay th <= 99) ->
  onClock z (thursdayLocal z t) ->
  representable (UTC z (j * msPerDay)) ->
  getISOWeekNumber z (Some t)
  = Some (JS.ceilDiv ((th - j + 1) * msPerDay + sinceMidnight z t) (7 * msPerDay)).
Proof.
  intros th j Hy Hc Hr. unfold getISOWeekNumber.
  cbn [fmap option_fmap option_map setDateD].
  assert (Hwd : getDay z t = weekDayOf (Day (LocalTime z t))) by reflexivity.
  rewrite Hwd.
  replace (getDate z t + 4 - (if (weekDayOf (Day (LocalTime z t)) =? 0)%Z then 7
                              else weekDayOf (Day (LocalTime z t))))
    with (getDate z t + (th - Day (LocalTime z t))) by (unfold th, thursdayOf; lia).
  rewrite setDate_shift.
  assert (Htl : LocalTime z t + (th - Day (LocalTime z t)) * msPerDay = thursdayLocal z t).
  { unfold thursdayLocal. fold th. unfold Day, TimeWithinDay, msPerDay.
    pose proof (Z.div_mod (LocalTime z t) 86400000). lia. }
  rewrite Htl, (onClock_TimeClip _ _ Hc).
  cbn [fmap option_fmap option_map newDate].
  assert (Hyr : getFullYear z (UTC z (thursdayLocal z t)) = YearFromDay th).
  { unfold getFullYear, YearFromTime. rewrite (proj2 Hc). f_equal.
    unfold thursdayLocal. fold th. pose proof (TimeWithinDay_range (LocalTime z t)).
    unfold Day, msPerDay in *. zdiv. }
  rewrite Hyr, (newDateYMD_jan1 _ _ Hy). fold j.
  rewrite (TimeClip_representable _ Hr). f_equal. f_equal.
  unfold sinceMidnight, thursdayLocal, UTC. fold th. fold j. lia.
Qed.

Lemma thursday_inIsoYear (d : Z) : inIsoYear (YearFromDay (thursdayOf d)) d.
Proof.
  unfold inIsoYear.
  pose proof (thursdayOf_spec d) as [Hm Hr].
  pose proof (YearFromDay_spec (thursdayOf d)) as Hs.
  set (y := YearFromDay (thursdayOf d)) in *.
  pose proof (week1Start_bounds y) as [Hb Hbm].
  pose proof (week1Start_bounds (y + 1)) as [Hb' Hbm'].
  zdiv.
Qed.

(** The arithmetic of the closed form: [e] milliseconds into the [k]-th day
    of the year of the week's Thursday. *)
Lemma isoWeek_ceil (d e : Z) :
  let th := thursdayOf d in
  let j := DayFromYear (YearFromDay th) in
  - msPerDay < e <= msPerDay ->
  JS.ceilDiv ((th - j + 1) * msPerDay + e) (7 * msPerDay)
  = isoWeekNumber d + (if (0 <? e)%Z && ((th - j) mod 7 =? 6)%Z then 1 else 0)
  /\ 1 <= isoWeekNumber d <= 53.
Proof.
  intros th j He.
  assert (Hiy : isoYear d = YearFromDay th).
  { apply (inIsoYear_unique _ _ d); [apply isoYear_bracket | apply thursday_inIsoYear]. }
  unfold isoWeekNumber. rewrite Hiy.
  pose proof (thursdayOf_spec d) as [Hm Hr]. fold th in Hm, Hr.
  pose proof (YearFromDay_spec th) as Hs.
  pose proof (DayFromYear_step (YearFromDay th)) as Hst.
  fold j in Hs, Hst. revert Hs Hst.
  pose proof (week1Start_bounds (YearFromDay th)) as [Hb Hbm]. fold j in Hb. revert Hb Hbm.
  generalize (week1Start (YearFromDay th)) (DayFromYear (YearFromDay th + 1)).
  clearbody j th. clear Hiy. intros w j' Hb Hbm Hs Hst.
  unfold JS.ceilDiv, msPerDay in *.
  destruct (Z.ltb_spec 0 e); destruct (Z.eqb_spec ((th - j) mod 7) 6); simpl; split; zdiv.
Qed.

(** For a date at local midnight, in a zone whose offset on 1 January does
    not exceed its offset on the Thursday of the date's week,
    [getISOWeekNumber] is the ISO 8601 week number of the day, a number from
    1 to 53. *)
Theorem getISOWeekNumber_midnight (z : Zone) (t : Z) :
  let th := thursdayOf (Day (LocalTime z t)) in
  let j := DayFromYear (YearFromDay th) in
  TimeWithinDay (LocalTime z t) = 0 ->
  ~ (0 <= YearFromDay th <= 99) ->
  onClock z (thursdayLocal z t) ->
  representable (UTC z (j * msPerDay)) ->
  - msPerDay < sinceMidnight z t <= 0 ->
  getISOWeekNumber z (Some t) = Some (isoWeekNumber (Day (LocalTime z t)))
  /\ 1 <= isoWeekNumber (Day (LocalTime z t)) <= 53.
Proof.
  intros th j Htod Hy Hc Hr He.
  rewrite (getISOWeekNumber_eq z t Hy Hc Hr).
  destruct (isoWeek_ceil (Day (LocalTime z t)) (sinceMidnight z t) ltac:(lia)) as [-> Hrange].
  split; [|exact Hrange].
  destruct (Z.ltb_spec 0 (sinceMidnight z t)); [lia|]. simpl. f_equal. lia.
Qed.

(** X15. The routine answers the ISO week number, or one more.  It
    counts one week too many exactly when the Thursday of the week is the
    7th, 14th, ... day of its year and the time elapsed since that day's
    midnight, as the routine measures it, is positive: the time of day plus
    what the zone's offset on 1 January exceeds its offset on that Thursday.
    (The year of the Thursday lies outside 0..99, the Thursday at the date's
    time of day is on the clock, 1 January is a time value, and the elapsed
    time lies between minus one day and one day.) *)
Theorem getISOWeekNumber_time_of_day (z : Zone) (t : Z) :
  let th := thursdayOf (Day (LocalTime z t)) in
  let j := DayFromYear (YearFromDay th) in
  ~ (0 <= YearFromDay th <= 99) ->
  onClock z (thursdayLocal z t) ->
  representable (UTC z (j * msPerDay)) ->
  - msPerDay < sinceMidnight z t <= msPerDay ->
  getISOWeekNumber z (Some t)
  = Some (isoWeekNumber (Day (LocalTime z t))
          + (if (0 <? sinceMidnight z t)%Z && ((th - j) mod 7 =? 6)%Z then 1 else 0)).
Proof.
  intros th j Hy Hc Hr He.
  rewrite (getISOWeekNumber_eq z t Hy Hc Hr).
  by rewrite (proj1 (isoWeek_ceil (Day (LocalTime z t)) (sinceMidnight z t) He)).
Qed.

(** The routine in closed form: the days since 1 January on a clock that
    keeps the offset of 1 January, shifted by the position of 1 January in
    its week. *)
Lemma getSimpleWeekNumber_eq (z : Zone) (t fdow : Z) :
  let j := DayFromYear (getFullYear z t) in
  ~ (0 <= getFullYear z t <= 99) ->
  0 <= fdow <= 6 ->
  onClock z (newYear z t) ->
  getSimpleWeekNumber z (Some t) fdow
  = Some (JS.ceilDiv (newYearClockDay z t - j + (weekDayOf j - fdow + 7) mod 7 + 1) 7).
Proof.
  intros j Hy Hf Hc. unfold getSimpleWeekNumber.
  cbn [fmap option_fmap option_map newDate].
  rewrite (newDateYMD_jan1 _ _ Hy). fold (newYear z t).
  rewrite (onClock_TimeClip _ _ Hc).
  assert (Hwd : getDay z (UTC z (newYear z t)) = weekDayOf j).
  { unfold getDay, WeekDay. rewrite (proj2 Hc). unfold newYear. fold j.
    by rewrite Day_of_midnight. }
  rewrite Hwd.
  assert (Hwr : 0 <= weekDayOf j < 7) by (unfold weekDayOf; apply Z.mod_pos_bound; lia).
  rewrite Z.rem_mod_nonneg by lia.
  f_equal. f_equal. f_equal. f_equal.
  change (24 * 60 * 60 * 1000) with 86400000.
  unfold newYearClockDay, UTC, Day, msPerDay.
  replace (t - (newYear z t - offsetOfLocal z (newYear z t)))
    with (t + offsetOfLocal z (newYear z t) + (- j) * 86400000)
    by (unfold newYear, msPerDay; fold j; lia).
  rewrite Z.div_add by lia. lia.
Qed.

(** Where the zone keeps the offset of 1 January, the clock of 1 January
    is the local clock. *)
Lemma newYearClockDay_local (z : Zone) (t : Z) :
  keepsNewYearOffset z t -> newYearClockDay z t = Day (LocalTime z t).
Proof. unfold keepsNewYearOffset, newYearClockDay, LocalTime. by intros ->. Qed.

Lemma weekNumber_range (d j j' fdow : Z) :
  0 <= fdow <= 6 -> j <= d < j' -> 365 <= j' - j <= 366 ->
  1 <= JS.ceilDiv (d - j + (weekDayOf j - fdow + 7) mod 7 + 1) 7 <= 54.
Proof. intros Hf Hd Hj. unfold JS.ceilDiv, weekDayOf. zdiv. Qed.

(** X16. For a first day of the week from 0 to 6 and years outside 0..99,
    local midnight of 1 January being on the clock of the zone: 1 January is
    in week 1.  The routine counts the days on a clock that keeps the offset
    of 1 January all year: while that clock shows a day of the year the
    result lies between 1 and 54; and from one day to the next on that clock
    within a year the number grows by one exactly when the new day is the
    configured first day of the week.  At every instant at which the zone
    has the offset of 1 January (always, in a zone without clock changes)
    that clock is the local clock. *)
Theorem getSimpleWeekNumber_facts (z : Zone) (fdow : Z) :
  0 <= fdow <= 6 ->
  (forall y, ~ (0 <= y <= 99) -> onClock z (DayFromYear y * msPerDay) ->
     getSimpleWeekNumber z (newDateYMD z y 0 1) fdow = Some 1)
  /\ (forall t, ~ (0 <= getFullYear z t <= 99) -> onClock z (newYear z t) ->
        DayFromYear (getFullYear z t) <= newYearClockDay z t
          < DayFromYear (getFullYear z t + 1) ->
        exists n, getSimpleWeekNumber z (Some t) fdow = Some n /\ 1 <= n <= 54)
  /\ (forall t t', ~ (0 <= getFullYear z t <= 99) -> onClock z (newYear z t) ->
        getFullYear z t' = getFullYear z t ->
        newYearClockDay z t' = newYearClockDay z t + 1 ->
        exists n, getSimpleWeekNumber z (Some t) fdow = Some n
                  /\ getSimpleWeekNumber z (Some t') fdow
                     = Some (n + (if (weekDayOf (newYearClockDay z t') =? fdow)%Z
                                  then 1 else 0)))
  /\ (forall t, keepsNewYearOffset z t ->
        newYearClockDay z t = Day (LocalTime z t)
        /\ weekDayOf (newYearClockDay z t) = getDay z t
        /\ DayFromYear (getFullYear z t) <= newYearClockDay z t
             < DayFromYear (getFullYear z t + 1)).
Proof.
  intros Hf. split; [|split; [|split]].
  - intros y Hy Hc. rewrite (newDateYMD_jan1 _ _ Hy), (onClock_TimeClip _ _ Hc).
    assert (Hyy : getFullYear z (UTC z (DayFromYear y * msPerDay)) = y).
    { unfold getFullYear, YearFromTime. rewrite (proj2 Hc), Day_of_midnight.
      apply YearFromDay_unique. pose proof (DayFromYear_step y). lia. }
    assert (Hn : newYear z (UTC z (DayFromYear y * msPerDay)) = DayFromYear y * msPerDay).
    { unfold newYear. by rewrite Hyy. }
    rewrite getSimpleWeekNumber_eq; rewrite ?Hyy, ?Hn; [|exact Hy|exact Hf|exact Hc].
    f_equal. unfold newYearClockDay. rewrite Hn.
    replace (UTC z (DayFromYear y * msPerDay) + offsetOfLocal z (DayFromYear y * msPerDay))
      with (DayFromYear y * msPerDay) by (unfold UTC; lia).
    rewrite Day_of_midnight. unfold JS.ceilDiv, weekDayOf. zdiv.
  - intros t Hy Hc Hd. rewrite (getSimpleWeekNumber_eq z t fdow Hy Hf Hc).
    eexists. split; [reflexivity|].
    apply (weekNumber_range _ _ (DayFromYear (getFullYear z t + 1))); [exact Hf|exact Hd|].
    pose proof (DayFromYear_step (getFullYear z t)). lia.
  - intros t t' Hy Hc Hsame Hd.
    assert (Hn : newYear z t' = newYear z t) by (unfold newYear; by rewrite Hsame).
    rewrite (getSimpleWeekNumber_eq z t fdow Hy Hf Hc).
    rewrite (getSimpleWeekNumber_eq z t' fdow); rewrite ?Hsame, ?Hn; try assumption.
    eexists. split; [reflexivity|]. f_equal. rewrite Hd.
    generalize (newYearClockDay z t) (DayFromYear (getFullYear z t)). intros d j.
    unfold JS.ceilDiv, weekDayOf.
    destruct (Z.eqb_spec ((d + 1 + 4) mod 7) fdow); zdiv.
  - intros t Hk. rewrite (newYearClockDay_local _ _ Hk).
    split; [reflexivity|]. split; [reflexivity|]. apply YearFromDay_spec.
Qed.

(** C4, at noon of Thursday 2021-01-07 (zone UTC): the time of day is
    carried into the quotient, and the routine answers 2 although the day
    lies in ISO week 1 of 2021, the week of the year's first Thursday. *)
Theorem getISOWeekNumber_noon :
  getISOWeekNumber Example.utc (Some (Example.at_hour 2021 1 7 12)) = Some 2
  /\ inIsoYear 2021 (Day (Example.at_hour 2021 1 7 12))
  /\ isoWeekNumber (Day (Example.at_hour 2021 1 7 12)) = 1
  /\ getISOWeekNumber Example.utc (Some (Example.at_hour 2021 1 7 0)) = Some 1.
Proof. vm_compute. repeat split; congruence. Qed.

(** C7, on Sunday 2000-12-31 with weeks starting on Sunday (zone UTC):
    the year is a leap year that begins on a Saturday, and its last day is
    given week number 54. *)
Theorem getSimpleWeekNumber_week_54 :
  getSimpleWeekNumber Example.utc (Some (Example.at_hour 2000 12 31 0)) 0 = Some 54
  /\ getDay Example.utc (Example.at_hour 2000 12 31 0) = 0
  /\ getFullYear Example.utc (Example.at_hour 2000 12 31 0) = 2000.
Proof. vm_compute. repeat split; reflexivity. Qed.

(** Monday 2024-12-30 at midnight belongs to week 1 of 2025. *)
Example getISOWeekNumber_late_december :
  getISOWeekNumber Example.utc (Some (Example.at_hour 2024 12 30 0)) = Some 1
  /\ inIsoYear 2025 (Day (Example.at_hour 2024 12 30 0)).
Proof. vm_compute. repeat split; congruence. Qed.

(** The same two dates in Central European time, where January has no
    clock change. *)
Example week_numbers_in_berlin :
  getISOWeekNumber Example.berlin2021 (Some (Example.localAt Example.berlin2021 2021 1 7 12))
  = Some 2
  /\ getSimpleWeekNumber Example.berlin2025
       (Some (Example.localAt Example.berlin2025 2025 1 1 0)) 1 = Some 1.
Proof. vm_compute. split; reflexivity. Qed.

(** Under summer time the span from 1 January is one hour short of whole
    days.  In Central European time, Sunday 2021-07-11 at 00:30 is in ISO
    week 27 with its Thursday the 189th day of the year, and the routine
    answers 27, at 02:00 it answers 28.  With weeks starting on Monday, the simple
    number of Monday 2025-06-02 is still 22 at 00:00 and becomes 23 at
    01:00.  In eastern Australia, where 1 January lies in summer time, the
    span is one hour long in winter: all-day date 2021-07-01, whose ISO week
    is 26, is given 27. *)
Example week_numbers_under_summer_time :
  getISOWeekNumber Example.berlin2021
    (Some (Example.localAt Example.berlin2021 2021 7 11 0 + 30 * msPerMinute)) = Some 27
  /\ getISOWeekNumber Example.berlin2021
       (Some (Example.localAt Example.berlin2021 2021 7 11 2)) = Some 28
  /\ getSimpleWeekNumber Example.berlin2025
       (Some (Example.localAt Example.berlin2025 2025 6 1 0)) 1 = Some 22
  /\ getSimpleWeekNumber Example.berlin2025
       (Some (Example.localAt Example.berlin2025 2025 6 2 0)) 1 = Some 22
  /\ getSimpleWeekNumber Example.berlin2025
       (Some (Example.localAt Example.berlin2025 2025 6 2 1)) 1 = Some 23
  /\ getWeekNumber Example.sydney2021
       (parseAllDayDate (Example.hostIn Example.sydney2021) "2021-07-01") None 1
     = Some (Some 27)
  /\ isoWeekNumber (Day (Example.at_hour 2021 7 1 0)) = 26.
Proof. vm_compute. repeat split; reflexivity. Qed.

End WeekNumbers.

(** * Further properties of the same routines *)

Section HashShape.
Import Config Helpers Spec.

Lemma toInt32_range (x : Z) : -2147483648 <= JS.toInt32 x < 2147483648.
Proof. unfold JS.toInt32. Z.div_mod_to_equations; lia. Qed.

Lemma hashLoop_range (str : string) (hash : Z) :
  -2147483648 <= hash < 2147483648 ->
  -2147483648 <= hashLoop hash str < 2147483648.
Proof.
  revert hash. induction str as [|c rest IH]; intros hash H; simpl; [exact H|].
  apply IH. unfold hashStep. apply toInt32_range.
Qed.

Lemma digitChar_alphanumeric (d : Z) (rest : string) :
  0 <= d < 36 -> alphanumeric (String (JS.digitChar d) rest) = alphanumeric rest.
Proof.
  intros Hd. unfold JS.digitChar. cbn [alphanumeric]. cbv zeta.
  destruct (Z.ltb_spec d 10).
  - rewrite nat_ascii_embedding by lia.
    assert (E1 : (48 <=? Z.to_nat (48 + d))%nat = true) by (apply Nat.leb_le; lia).
    assert (E2 : (Z.to_nat (48 + d) <=? 57)%nat = true) by (apply Nat.leb_le; lia).
    rewrite E1, E2. reflexivity.
  - rewrite nat_ascii_embedding by lia.
    assert (E1 : (97 <=? Z.to_nat (87 + d))%nat = true) by (apply Nat.leb_le; lia).
    assert (E2 : (Z.to_nat (87 + d) <=? 122)%nat = true) by (apply Nat.leb_le; lia).
    rewrite E1, E2, orb_true_r. reflexivity.
Qed.

Lemma digitsOf_alphanumeric (fuel : nat) (n : Z) (acc : string) :
  0 <= n -> alphanumeric acc = true -> alphanumeric (JS.digitsOf fuel 36 n acc) = true.
Proof.
  revert n acc. induction fuel as [|fuel IH]; intros n acc Hn Hacc; simpl; [exact Hacc|].
  assert (Hd : alphanumeric (String (JS.digitChar (n mod 36)) acc) = true).
  { rewrite digitChar_alphanumeric; [exact Hacc | apply Z.mod_pos_bound; lia]. }
  destruct (n / 36 =? 0)%Z; [exact Hd|].
  apply IH; [apply Z.div_pos; lia | exact Hd].
Qed.

Lemma digitsOf_length (fuel k : nat) (n : Z) (acc : string) :
  0 <= n < 36 ^ Z.of_nat (S k) ->
  (String.length acc <= String.length (JS.digitsOf fuel 36 n acc) <= String.length acc + S k)%nat
  /\ (fuel <> O -> JS.digitsOf fuel 36 n acc <> "").
Proof.
  revert k n acc. induction fuel as [|fuel IH]; intros k n acc Hn; simpl.
  - split; [lia | congruence].
  - destruct (Z.eqb_spec (n / 36) 0) as [Hz|Hz].
    + simpl. split; [lia | discriminate].
    + destruct k as [|k].
      * exfalso. apply Hz. apply Z.div_small. simpl in Hn. lia.
      * assert (Hq : 0 <= n / 36 < 36 ^ Z.of_nat (S k)).
        { split; [apply Z.div_pos; lia|].
          apply Z.div_lt_upper_bound; [lia|].
          rewrite <- Z.pow_succ_r by lia. rewrite <- Nat2Z.inj_succ. lia. }
        destruct (IH k (n / 36) (String (JS.digitChar (n mod 36)) acc) Hq) as [Hl Hne].
        simpl in Hl. split; [lia|]. intros _.
        intros He. rewrite He in Hl. simpl in Hl. lia.
Qed.

(** X1. The hash is a key that can be used anywhere: for every input
    [hashString] returns between one and six characters, each a digit or a
    lower-case letter (never a sign), and so does [generateDeterministicId]. *)
Theorem hashString_shape :
  (forall str,
      alphanumeric (hashString str) = true
      /\ hashString str <> ""
      /\ (String.length (hashString str) <= 6)%nat)
  /\ (forall entities daysToShow showPastEvents startDate,
      let id := generateDeterministicId entities daysToShow showPastEvents startDate in
      alphanumeric id = true /\ id <> "" /\ (String.length id <= 6)%nat).
Proof.
  assert (H : forall str,
      alphanumeric (hashString str) = true
      /\ hashString str <> ""
      /\ (String.length (hashString str) <= 6)%nat).
  { intros str. unfold hashString, JS.toStringRadix.
    pose proof (hashLoop_range str 0 ltac:(lia)) as Hr.
    assert (Hn : 0 <= Z.abs (hashLoop 0 str) <= 2147483648) by lia.
    revert Hn. generalize (Z.abs (hashLoop 0 str)). clear Hr. intros n Hn.
    rewrite (Z.abs_eq n) by lia.
    destruct (Z.ltb_spec n 0); [lia|].
    assert (Hb : 0 <= n < 36 ^ Z.of_nat 6).
    { replace (36 ^ Z.of_nat 6) with 2176782336 by reflexivity. lia. }
    destruct (digitsOf_length (S (Z.to_nat (Z.log2 n))) 5 n "" Hb) as [Hl Hne].
    split; [apply digitsOf_alphanumeric; [lia | reflexivity]|].
    split; [apply Hne; discriminate | exact (proj2 Hl)]. }
  split; [exact H|]. intros. apply H.
Qed.

End HashShape.

Section ConfigCoverage.
Import Config Spec.

Lemma splitChar_none (c : ascii) (s : string) :
  JS.includesChar c s = false -> JS.splitChar c s = [s].
Proof.
  induction s as [|x s IH]; simpl; [reflexivity|].
  destruct (Ascii.eqb x c); [discriminate|]. intros H. by rewrite (IH H).
Qed.

Lemma splitChar_app (c : ascii) (a b : string) :
  JS.includesChar c a = false ->
  JS.splitChar c (a +:+ String c b) = a :: JS.splitChar c b.
Proof.
  induction a as [|x a IH]; simpl.
  - intros _. by rewrite Ascii.eqb_refl.
  - destruct (Ascii.eqb x c); [discriminate|]. intros H. by rewrite (IH H).
Qed.

(** Splitting undoes joining, for a non-empty list of strings free of the
    separator. *)
Lemma splitChar_join (c : ascii) (l : list string) :
  l <> [] ->
  Forall (fun s => JS.includesChar c s = false) l ->
  JS.splitChar c (JS.join (String c "") l) = l.
Proof.
  intros Hne Hall. induction Hall as [|x l Hx Hl IH]; [congruence|].
  destruct l as [|y l'].
  - simpl. by apply splitChar_none.
  - change (JS.join (String c "") (x :: y :: l'))
      with (x +:+ String c (JS.join (String c "") (y :: l'))).
    rewrite splitChar_app by exact Hx. f_equal. apply IH. discriminate.
Qed.

(** X2. When [hasConfigChanged] answers [false], the three data fields are
    those of the previous configuration and, for entity IDs without a comma
    (neither list being empty), the current IDs are a rearrangement of the
    previous ones. *)
Theorem hasConfigChanged_false_inv (prev : PartialConfig) (current : Config) :
  hasConfigChanged (Some prev) current = false ->
  keys_length prev <> 0%nat
  /\ p_days_to_show prev = Some (days_to_show current)
  /\ p_show_past_events prev = Some (show_past_events current)
  /\ p_refresh_interval prev = Some (refresh_interval current)
  /\ (default [] (p_entities prev) <> [] ->
      entities current <> [] ->
      Forall (fun e => JS.includesChar "," (entityId e) = false)
             (default [] (p_entities prev) ++ entities current) ->
      map entityId (default [] (p_entities prev)) ≡ₚ map entityId (entities current)).
Proof.
  unfold hasConfigChanged.
  destruct (Nat.eqb_spec (keys_length prev) 0) as [|Hk]; [discriminate|].
  intros H. apply orb_false_iff in H as [H Hr].
  apply orb_false_iff in H as [H Hp]. apply orb_false_iff in H as [Hi Hd].
  apply negb_false_iff, String.eqb_eq in Hi.
  split; [exact Hk|].
  split. { destruct (p_days_to_show prev) as [x|]; simpl in Hd; [|discriminate].
           apply negb_false_iff, Z.eqb_eq in Hd. by subst. }
  split. { destruct (p_show_past_events prev) as [x|]; simpl in Hp; [|discriminate].
           apply negb_false_iff in Hp. destruct x, (show_past_events current); simpl in Hp;
             congruence. }
  split. { destruct (p_refresh_interval prev) as [x|]; simpl in Hr; [|discriminate].
           apply negb_false_iff, Z.eqb_eq in Hr. by subst. }
  intros Hp0 Hc0 Hall. apply Forall_app in Hall as [Hap Hac].
  unfold entityIdsKey in Hi. simpl in Hi.
  set (lp := map entityId (default [] (p_entities prev))) in *.
  set (lc := map entityId (entities current)) in *.
  assert (Hsp : JS.sort lp ≡ₚ lp) by apply merge_sort_Permutation.
  assert (Hsc : JS.sort lc ≡ₚ lc) by apply merge_sort_Permutation.
  assert (Hfp : Forall (fun s => JS.includesChar "," s = false) (JS.sort lp)).
  { rewrite Hsp. unfold lp. by apply Forall_fmap. }
  assert (Hfc : Forall (fun s => JS.includesChar "," s = false) (JS.sort lc)).
  { rewrite Hsc. unfold lc. by apply Forall_fmap. }
  assert (Hnp : JS.sort lp <> []).
  { intros E. rewrite E in Hsp. symmetry in Hsp. apply Permutation_nil_r in Hsp.
    unfold lp in Hsp. apply fmap_nil_inv in Hsp. contradiction. }
  assert (Hnc : JS.sort lc <> []).
  { intros E. rewrite E in Hsc. symmetry in Hsc. apply Permutation_nil_r in Hsc.
    unfold lc in Hsc. apply fmap_nil_inv in Hsc. contradiction. }
  pose proof (splitChar_join "," _ Hnp Hfp) as E1.
  pose proof (splitChar_join "," _ Hnc Hfc) as E2.
  change (String "," "") with "," in E1, E2.
  rewrite Hi, E2 in E1. rewrite <- Hsp, <- Hsc, E1. reflexivity.
Qed.

Lemma hasConfigChanged_false_inv_witness :
  map entityId (default [] (p_entities Example.prevTwo))
  ≡ₚ map entityId (entities Example.currTwo).
Proof.
  apply (hasConfigChanged_false_inv Example.prevTwo Example.currTwo
           ltac:(vm_compute; reflexivity)).
  - discriminate.
  - discriminate.
  - repeat constructor.
Defined.

(** X3. No false alarm.  When every current entry has the effective colour
    of each previous entry with the same ID, [haveEntityColorsChanged]
    answers [false]: reordering the list, adding or removing entities,
    changing labels or accent colours, or writing an entity as a plain string
    instead of an object with the default colour never counts as a colour
    change. *)
Theorem haveEntityColorsChanged_unchanged (previous : option PartialConfig)
    (current : Config) :
  (forall prev prevEntities ep e,
      previous = Some prev -> p_entities prev = Some prevEntities ->
      ep ∈ prevEntities -> e ∈ entities current ->
      entityId ep = entityId e -> effectiveColor ep = effectiveColor e) ->
  haveEntityColorsChanged previous current = false.
Proof.
  intros Hsame. destruct previous as [prev|]; [|reflexivity].
  unfold haveEntityColorsChanged.
  destruct (p_entities prev) as [pe|] eqn:Hpe; [|reflexivity].
  destruct (negb (length pe =? length (entities current))%nat); [reflexivity|].
  apply not_true_is_false. intros Ht.
  apply colorLoop_true in Ht as (e & c & He & Hm & Hc).
  rewrite buildColorMap_lookup in Hm.
  apply lastColorOf_Some_elem in Hm as (ep & Hep & Hid & Hcol).
  apply Hc. rewrite <- Hcol. by apply (Hsame prev pe ep e).
Qed.

Lemma haveEntityColorsChanged_unchanged_witness :
  haveEntityColorsChanged
    (Some {| p_entities := Some [ItemString "calendar.work"; Example.entityOf "calendar.home" "red"];
             p_days_to_show := None; p_show_past_events := None;
             p_refresh_interval := None; p_styling := [] |})
    {| entities := [Example.entityOf "calendar.home" "red";
                    Example.entityOf "calendar.work" DEFAULT_COLOR];
       days_to_show := 7; show_past_events := true; refresh_interval := 5; styling := [] |}
  = false.
Proof.
  apply haveEntityColorsChanged_unchanged.
  intros prev pe ep e [= <-] [= <-] Hep He Hid. simpl in He.
  repeat (apply elem_of_cons in Hep as [->|Hep]);
    repeat (apply elem_of_cons in He as [->|He]);
    try (by apply elem_of_nil in Hep); try (by apply elem_of_nil in He);
    first [reflexivity | discriminate].
Defined.

Lemma or_else_twice (o : option string) (d : string) :
  d <> "" -> JS.or_else (Some (JS.or_else o d)) d = JS.or_else o d.
Proof.
  intros Hd. unfold JS.or_else at 1.
  destruct (String.eqb_spec (JS.or_else o d) "") as [E|]; [|reflexivity].
  rewrite E. destruct o as [s|]; simpl in E; [|congruence].
  destruct (String.eqb_spec s ""); congruence.
Qed.

Lemma normalizedItem_asRawItem (item : RawItem) (e : EntityConfig) :
  normalizedItem item = Some e -> entity e <> "" -> normalizedItem (asRawItem e) = Some e.
Proof.
  intros Hn He. apply normalizedItem_Some in Hn.
  destruct e as [en la co ac sl]. simpl in He.
  apply String.eqb_neq in He.
  unfold asRawItem, normalizedItem, normalizeItem, JS.truthy.
  cbn [entity label color accent_color show_location
       r_entity r_label r_color r_accent_color r_show_location].
  rewrite He. cbn [negb default].
  destruct item as [s|o| |]; [| |contradiction|contradiction]; simpl in Hn.
  - destruct Hn as (_ & -> & -> & ->). reflexivity.
  - destruct Hn as (_ & _ & _ & -> & -> & ->).
    rewrite !or_else_twice by discriminate. reflexivity.
Qed.

Lemma asRawItem_not_null (l : list EntityConfig) : RNull ∉ map asRawItem l.
Proof.
  intros Hin. apply list_elem_of_fmap in Hin as (e & He & _). discriminate.
Qed.

Lemma omap_normalizedItem_idempotent (items : list RawItem) :
  RString "" ∉ items ->
  omap normalizedItem (map asRawItem (omap normalizedItem items)) = omap normalizedItem items.
Proof.
  induction items as [|x rest IH]; intros Hne; [reflexivity|].
  apply not_elem_of_cons in Hne as [Hx Hrest].
  change (omap normalizedItem (x :: rest))
    with (match normalizedItem x with
          | Some e => e :: omap normalizedItem rest
          | None => omap normalizedItem rest
          end).
  destruct (normalizedItem x) as [e|] eqn:Hn; [|by apply IH].
  change (omap normalizedItem (map asRawItem (e :: omap normalizedItem rest)))
    with (match normalizedItem (asRawItem e) with
          | Some e' => e' :: omap normalizedItem (map asRawItem (omap normalizedItem rest))
          | None => omap normalizedItem (map asRawItem (omap normalizedItem rest))
          end).
  assert (He : entity e <> "").
  { pose proof (normalizedItem_Some _ _ Hn) as Hs. destruct x as [s|o| |]; simpl in Hs.
    - destruct Hs as [-> _]. intros ->. by apply Hx.
    - tauto.
    - contradiction.
    - contradiction. }
  rewrite (normalizedItem_asRawItem _ _ Hn He). f_equal. by apply IH.
Qed.

(** X4. Normalising is idempotent.  On an array that holds [null] the
    routine throws a [TypeError]; on every other array it returns, and
    feeding its output back in returns that output unchanged, provided the
    input held no empty string (an element with an empty [entity] would be
    dropped the second time). *)
Theorem normalizeEntities_idempotent (items : list RawItem) :
  (RNull ∈ items -> normalizeEntities (IsArray items) = JS.Throws JS.TypeError)
  /\ (RNull ∉ items ->
      exists out, normalizeEntities (IsArray items) = JS.Returns out
        /\ (RString "" ∉ items ->
            normalizeEntities (IsArray (map asRawItem out)) = JS.Returns out)).
Proof.
  split; [apply normalizeEntities_null|].
  intros Hn. exists (omap normalizedItem items).
  split; [by apply normalizeEntities_returns|].
  intros Hne. rewrite (normalizeEntities_returns _ (asRawItem_not_null _)).
  f_equal. by apply omap_normalizedItem_idempotent.
Qed.

Lemma normalizeEntities_idempotent_witness :
  exists out, normalizeEntities (IsArray [RString "calendar.work"; ROther]) = JS.Returns out
    /\ normalizeEntities (IsArray (map asRawItem out)) = JS.Returns out.
Proof.
  destruct (proj2 (normalizeEntities_idempotent [RString "calendar.work"; ROther]))
    as (out & Hout & Hidem).
  - intros Hin. repeat (apply elem_of_cons in Hin as [Hin|Hin]; [discriminate|]).
    by apply elem_of_nil in Hin.
  - exists out. split; [exact Hout|]. apply Hidem.
    intros Hin. repeat (apply elem_of_cons in Hin as [Hin|Hin]; [discriminate|]).
    by apply elem_of_nil in Hin.
Defined.

Lemma normalizedItem_itemAsRaw (e : EntityItem) :
  (forall o, e = ItemObject o -> entity o <> "") ->
  exists e', normalizedItem (itemAsRaw e) = Some e'
             /\ idAndColor (ItemObject e') = idAndColor e.
Proof.
  intros He. destruct e as [s|o].
  - eexists. split; reflexivity.
  - specialize (He o eq_refl). apply String.eqb_neq in He.
    unfold itemAsRaw, asRawItem, normalizedItem, normalizeItem, JS.truthy.
    cbn [r_entity r_label r_color r_accent_color r_show_location].
    rewrite He. cbn [negb].
    eexists. split; [reflexivity|].
    unfold idAndColor, effectiveColor, entityId. cbn [color entity default].
    by rewrite or_else_twice.
Qed.

Lemma itemAsRaw_not_null (es : list EntityItem) : RNull ∉ map itemAsRaw es.
Proof.
  intros Hin. apply list_elem_of_fmap in Hin as (e & He & _). by destruct e.
Qed.

Lemma normalized_idAndColor (es : list EntityItem) :
  (forall o, ItemObject o ∈ es -> entity o <> "") ->
  map idAndColor (map ItemObject (omap normalizedItem (map itemAsRaw es)))
  = map idAndColor es.
Proof.
  induction es as [|e rest IH]; intros He; [reflexivity|].
  destruct (normalizedItem_itemAsRaw e) as (e' & Hn & Hic).
  { intros o ->. apply He. apply elem_of_cons. by left. }
  change (omap normalizedItem (map itemAsRaw (e :: rest)))
    with (match normalizedItem (itemAsRaw e) with
          | Some x => x :: omap normalizedItem (map itemAsRaw rest)
          | None => omap normalizedItem (map itemAsRaw rest)
          end).
  rewrite Hn. cbn [map]. rewrite Hic. f_equal. apply IH.
  intros o Ho. apply He. apply elem_of_cons. by right.
Qed.

Lemma colorLoop_ext (m : gmap string string) (l1 l2 : list EntityItem) :
  map idAndColor l1 = map idAndColor l2 -> colorLoop m l1 = colorLoop m l2.
Proof.
  revert l2. induction l1 as [|a l1 IH]; intros [|b l2] H; try discriminate; [reflexivity|].
  injection H as Hi Hc Hrest. simpl. rewrite Hi, Hc, (IH _ Hrest). reflexivity.
Qed.

(** X5. Normalising the entity list of the current configuration always
    returns, and changes neither answer of the diffing routines, as long as
    no object entry has an empty [entity] (such an entry is dropped by
    [normalizeEntities]). *)
Theorem normalizeEntities_preserves_diff (previous : option PartialConfig)
    (current : Config) :
  (forall o, ItemObject o ∈ entities current -> entity o <> "") ->
  exists normalized,
    normalizeEntities (IsArray (map itemAsRaw (entities current))) = JS.Returns normalized
    /\ hasConfigChanged previous (withEntities current normalized)
       = hasConfigChanged previous current
    /\ haveEntityColorsChanged previous (withEntities current normalized)
       = haveEntityColorsChanged previous current.
Proof.
  intros He. eexists. split; [apply normalizeEntities_returns, itemAsRaw_not_null|].
  set (normalized := omap normalizedItem (map itemAsRaw (entities current))).
  pose proof (normalized_idAndColor _ He) as Hic. fold normalized in Hic.
  assert (Hid : map entityId (entities (withEntities current normalized))
                = map entityId (entities current)).
  { apply (f_equal (map fst)) in Hic. rewrite !map_map in Hic.
    unfold withEntities. cbn [entities]. rewrite map_map. exact Hic. }
  assert (Hlen : length (entities (withEntities current normalized))
                 = length (entities current)).
  { apply (f_equal (@length _)) in Hid. by rewrite !length_map in Hid. }
  split.
  - assert (Hk : entityIdsKey (Some (entities (withEntities current normalized)))
                 = entityIdsKey (Some (entities current))).
    { change (JS.join "," (JS.sort (map entityId (entities (withEntities current normalized))))
              = JS.join "," (JS.sort (map entityId (entities current)))).
      by rewrite Hid. }
    unfold hasConfigChanged. by rewrite Hk.
  - unfold haveEntityColorsChanged. destruct previous as [prev|]; [|reflexivity].
    destruct (p_entities prev) as [pe|]; [|reflexivity].
    rewrite Hlen. destruct (negb (length pe =? length (entities current))%nat);
      [reflexivity|].
    apply colorLoop_ext. exact Hic.
Qed.

Lemma normalizeEntities_preserves_diff_witness :
  exists normalized,
    normalizeEntities (IsArray (map itemAsRaw (entities Example.currTwo)))
    = JS.Returns normalized
    /\ hasConfigChanged (Some Example.prevTwo) (withEntities Example.currTwo normalized) = false
    /\ haveEntityColorsChanged (Some Example.prevTwo) (withEntities Example.currTwo normalized)
       = true.
Proof.
  destruct (normalizeEntities_preserves_diff (Some Example.prevTwo) Example.currTwo)
    as (normalized & Hn & H1 & H2).
  - intros o Hin. simpl in Hin.
    repeat (apply elem_of_cons in Hin as [Hin|Hin]; [try discriminate|]).
    + injection Hin as ->. discriminate.
    + by apply elem_of_nil in Hin.
  - exists normalized. split; [exact Hn|]. rewrite H1, H2. split; vm_compute; reflexivity.
Defined.

Lemma find_startsWith (keys : list string) :
  match List.find (JS.startsWith "calendar.") keys with
  | Some id =>
      exists before after : list string, keys = (before ++ id :: after)%list
        /\ prefixOf "calendar." id
        /\ Forall (fun k => ~ prefixOf "calendar." k) before
  | None => Forall (fun k => ~ prefixOf "calendar." k) keys
  end.
Proof.
  induction keys as [|k rest IH]; simpl; [constructor|].
  unfold JS.startsWith at 1. destruct (String.prefix "calendar." k) eqn:Hp.
  - exists [], rest. split; [reflexivity|]. split; [|constructor].
    destruct (prefix_inv _ _ Hp) as [r Hr]. by exists r.
  - assert (Hk : ~ prefixOf "calendar." k).
    { intros [r ->]. by rewrite prefix_app in Hp. }
    destruct (List.find (JS.startsWith "calendar.") rest) as [id|].
    + destruct IH as (before & after & -> & Hid & Hb).
      exists (k :: before), after. split; [reflexivity|]. split; [exact Hid|].
      by constructor.
    + by constructor.
Qed.

(** X6. [findCalendarEntity] returns the first key, in the order of
    [Object.keys], that begins with "calendar.", and [null] exactly when no
    key does.  The stub configuration lists that entity alone, or nothing
    together with a description; its entity list normalises to at most one
    entry, with the default colours. *)
Theorem getStubConfig_spec (hass : HassStates) :
  match findCalendarEntity hass with
  | Some id =>
      (exists before after : list string, map fst hass = (before ++ id :: after)%list
         /\ prefixOf "calendar." id
         /\ Forall (fun k => ~ prefixOf "calendar." k) before)
      /\ stub_description (getStubConfig hass) = None
      /\ normalizeEntities (IsArray (map RString (stub_entities (getStubConfig hass))))
         = JS.Returns
             [ {| entity := id; label := None; color := Some DEFAULT_COLOR;
                  accent_color := Some DEFAULT_ACCENT_COLOR; show_location := Some true |} ]
  | None =>
      Forall (fun k => ~ prefixOf "calendar." k) (map fst hass)
      /\ stub_description (getStubConfig hass) <> None
      /\ normalizeEntities (IsArray (map RString (stub_entities (getStubConfig hass))))
         = JS.Returns []
  end.
Proof.
  unfold getStubConfig. pose proof (find_startsWith (map fst hass)) as H.
  unfold findCalendarEntity in *.
  destruct (List.find (JS.startsWith "calendar.") (map fst hass)) as [id|]; simpl.
  - split; [exact H|]. split; reflexivity.
  - split; [exact H|]. split; [discriminate | reflexivity].
Qed.

End ConfigCoverage.

Section EventDates.
Import JSDate Format Spec.

(** A date that [parseAllDayDate] returns is a time value, and the instant
    by which the zone interprets local midnight of some day. *)
Lemma parseAllDayDate_midnight (h : Host) (s : string) (t : Z) :
  parseAllDayDate h s = Some t ->
  representable t /\ exists day, t = UTC (zone h) (day * msPerDay).
Proof.
  unfold parseAllDayDate, newDate.
  destruct (JS.numAt _ 0) as [y|]; [|discriminate].
  destruct (_ <$> JS.numAt _ 1) as [m|]; [|discriminate].
  destruct (JS.numAt _ 2) as [d|]; [|discriminate].
  unfold newDateYMD. rewrite MakeDate_midnight. intros Ht.
  apply TimeClip_Some in Ht as [-> Hr]. split; [exact Hr | by eexists].
Qed.

(** X7. A date that [parseAllDayDate] returns is the instant of a local
    midnight and a time value.  A string whose first three dash-separated
    fields are the numbers of a valid date (year outside 0..99) gives, when
    local midnight of that day is on the clock of the zone, the date with
    exactly these fields, at local midnight; when the instant of that
    midnight is no time value (as for years beyond 275760) it gives an
    invalid date.  A string with fewer than three fields gives an invalid
    date. *)
Theorem parseAllDayDate_spec (h : Host) (s : string) :
  (forall t, parseAllDayDate h s = Some t ->
     representable t /\ exists day, t = UTC (zone h) (day * msPerDay))
  /\ (forall y m d rest,
        map JS.Number (JS.splitChar "-" s) = Some y :: Some m :: Some d :: rest ->
        validDate y m d -> ~ (0 <= y <= 99) ->
        (onClock (zone h) (MakeDay y (m - 1) d * msPerDay) ->
         exists t, parseAllDayDate h s = Some t
                   /\ getFullYear (zone h) t = y
                   /\ getMonth (zone h) t = m - 1
                   /\ getDate (zone h) t = d
                   /\ TimeWithinDay (LocalTime (zone h) t) = 0)
        /\ (~ representable (UTC (zone h) (MakeDay y (m - 1) d * msPerDay)) ->
            parseAllDayDate h s = None))
  /\ ((length (JS.splitChar "-" s) < 3)%nat -> parseAllDayDate h s = None).
Proof.
  split; [|split].
  - intros t Ht. by apply (parseAllDayDate_midnight h s).
  - intros y m d rest Hparts Hv Hy.
    assert (Hp : parseAllDayDate h s
                 = TimeClip (UTC (zone h) (MakeDay y (m - 1) d * msPerDay))).
    { unfold parseAllDayDate. rewrite Hparts.
      change (newDateYMD (zone h) y (m - 1) d
              = TimeClip (UTC (zone h) (MakeDay y (m - 1) d * msPerDay))).
      unfold newDateYMD.
      replace ((0 <=? y) && (y <=? 99))%Z with false
        by (symmetry; apply andb_false_iff; rewrite Z.leb_gt, Z.leb_gt; lia).
      by rewrite MakeDate_midnight. }
    rewrite Hp. split.
    + intros Hc. rewrite (onClock_TimeClip _ _ Hc). eexists. split; [reflexivity|].
      unfold getFullYear, getMonth, getDate, YearFromTime, MonthFromTime, DateFromTime.
      rewrite (proj2 Hc), Day_of_midnight, TimeWithinDay_of_midnight.
      destruct (civil_of_MakeDay y m d Hv) as (? & ? & ?). auto.
    + apply TimeClip_None.
  - intros Hlen. unfold parseAllDayDate.
    destruct (JS.splitChar "-" s) as [|a [|b [|c l]]]; simpl in Hlen; try lia; cbn [map].
    + reflexivity.
    + generalize (JS.Number a). by intros [?|].
    + generalize (JS.Number a) (JS.Number b). by intros [?|] [?|].
Qed.

Lemma parseAllDayDate_spec_witness :
  exists t, parseAllDayDate (Example.hostIn Example.berlin2025) "2025-03-30" = Some t
            /\ getFullYear Example.berlin2025 t = 2025
            /\ getMonth Example.berlin2025 t = 3 - 1
            /\ getDate Example.berlin2025 t = 30
            /\ TimeWithinDay (LocalTime Example.berlin2025 t) = 0.
Proof.
  apply (proj1 (proj1 (proj2 (parseAllDayDate_spec (Example.hostIn Example.berlin2025)
                                 "2025-03-30")) 2025 3 30 []
                  ltac:(vm_compute; reflexivity)
                  ltac:(vm_compute; intuition congruence)
                  ltac:(lia))).
  split; vm_compute; [discriminate | reflexivity].
Defined.

(** Beyond the range of time values there is no date: the year 300000. *)
Example parseAllDayDate_out_of_range :
  parseAllDayDate Example.host "300000-01-01" = None
  /\ parseAllDayDate Example.host "275760-09-13" = Some maxTime.
Proof. split; vm_compute; reflexivity. Qed.

(** X8. For an all-day event (no [dateTime], a [date] that parses) which is
    not an empty-day placeholder, the countdown is [null] exactly from the
    local day of its start on: there is a countdown only while the start day
    has not begun.  (The date parsed is the instant of local midnight of a
    day which is on the clock of the zone and at which that day opens.) *)
Theorem getCountdownString_all_day (h : Host) (now : Z) (event : CalendarEventData)
    (language : string) (st : EventTime) (t day : Z) :
  _isEmptyDay event = false ->
  start event = Some st ->
  JS.truthy (dateTime st) = false ->
  JS.truthy (date st) = true ->
  parseAllDayDate h (default "" (date st)) = Some t ->
  t = UTC (zone h) (day * msPerDay) ->
  LocalTime (zone h) t = day * msPerDay ->
  opensDay (zone h) day ->
  (getCountdownString h now event language = None
   <-> Day (LocalTime (zone h) t) <= Day (LocalTime (zone h) now))
  /\ (Day (LocalTime (zone h) now) < Day (LocalTime (zone h) t) ->
      getCountdownString h now event language
      = Some (getRelativeTimeString h (Some t) language)).
Proof.
  intros He Hs Hdt Hd Hp Hday Hlt Hopen.
  unfold getCountdownString. rewrite He, Hs, Hdt, Hd, Hp.
  assert (Hiff : t <= now <-> Day (LocalTime (zone h) t) <= Day (LocalTime (zone h) now)).
  { rewrite Hlt, Day_of_midnight, Hday. apply Hopen. }
  destruct (Z.leb_spec t now) as [Hle|Hgt].
  - split; [split; [intros _; by apply Hiff | reflexivity]|]. intros Hlt'.
    apply Hiff in Hle. lia.
  - split; [split; [discriminate | intros Hle; apply Hiff in Hle; lia]|]. reflexivity.
Qed.

Lemma getCountdownString_all_day_witness :
  getCountdownString Example.host (Example.at_hour 2025 3 4 15)
    (Example.allDayEvent "2025-03-04" "2025-03-05") "en" = None.
Proof.
  apply (proj1 (getCountdownString_all_day Example.host (Example.at_hour 2025 3 4 15)
                  (Example.allDayEvent "2025-03-04" "2025-03-05") "en"
                  {| dateTime := None; date := Some "2025-03-04" |}
                  (Example.at_hour 2025 3 4 0) (Day (Example.at_hour 2025 3 4 0))
                  eq_refl eq_refl eq_refl eq_refl ltac:(vm_compute; reflexivity)
                  ltac:(vm_compute; reflexivity) ltac:(vm_compute; reflexivity)
                  ltac:(apply opensDay_const))).
  vm_compute. discriminate.
Defined.

(** X9. The multi-day all-day text depends on the local day of the (last)
    end date relative to the current one: "ends today" when it is the
    current day, "ends tomorrow" when it is the next day, and otherwise
    "until" followed by day and month of that date in the order of the
    language's date style.  (The current year must lie outside 0..99, which
    [new Date(year, month, day)] reads as 1900 + year, and local midnight of
    the current and of the next day must be on the clock of the zone.) *)
Theorem formatMultiDayAllDayTime_relative (h : Host) (now te : Z)
    (language : string) (tr : Translations) :
  ~ (0 <= getFullYear (zone h) now <= 99) ->
  onClock (zone h) (Day (LocalTime (zone h) now) * msPerDay) ->
  onClock (zone h) ((Day (LocalTime (zone h) now) + 1) * msPerDay) ->
  let de := Day (LocalTime (zone h) te) in
  let dn := Day (LocalTime (zone h) now) in
  let day := JS.numberToString (getDate (zone h) te) in
  let month := strAt (months tr) (Some (getMonth (zone h) te)) in
  formatMultiDayAllDayTime h now (Some te) language tr
  = if bool_decide (de = dn) then allDay tr +:+ ", " +:+ endsToday tr
    else if bool_decide (de = dn + 1) then allDay tr +:+ ", " +:+ endsTomorrow tr
    else allDay tr +:+ ", " +:+ multiDay tr +:+ " "
         +:+ (if getDateFormatStyle h language =? "day-dot-month" then day +:+ ". " +:+ month
              else if getDateFormatStyle h language =? "month-day" then month +:+ " " +:+ day
              else day +:+ " " +:+ month).
Proof.
  intros Hy Hc Hc' de dn day month. unfold formatMultiDayAllDayTime.
  rewrite (sameDate_today h now te Hy Hc), (sameDate_tomorrow h now te Hy Hc Hc').
  fold de. fold dn.
  destruct (bool_decide (de = dn)); [reflexivity|].
  destruct (bool_decide (de = dn + 1)); [reflexivity|].
  cbn [fmap option_fmap option_map JS.numToString]. fold day. fold month.
  destruct (getDateFormatStyle h language =? "day-dot-month"); [reflexivity|].
  destruct (getDateFormatStyle h language =? "month-day"); reflexivity.
Qed.

Lemma formatMultiDayAllDayTime_relative_witness :
  formatMultiDayAllDayTime Example.host (Example.at_hour 2025 3 2 9)
    (Some (Example.at_hour 2025 3 3 0)) "en" Example.english
  = "all-day, ends tomorrow".
Proof.
  rewrite (formatMultiDayAllDayTime_relative Example.host (Example.at_hour 2025 3 2 9)
             (Example.at_hour 2025 3 3 0) "en" Example.english
             ltac:(vm_compute; intros [_ H]; apply H; reflexivity)
             ltac:(split; vm_compute; [discriminate | reflexivity])
             ltac:(split; vm_compute; [discriminate | reflexivity])).
  vm_compute. reflexivity.
Defined.

(** X10. A timed event (with [start.dateTime]) whose start and end parse to
    valid dates is formatted as a single-day event exactly when both fall on
    the same local calendar day, and as a multi-day event otherwise; in
    particular an event that runs until local midnight at the end of its
    start day counts as multi-day.  An event without [start] makes the
    routine throw a [TypeError]. *)
Theorem formatEventTime_timed (h : Host) (now : Z) (event : CalendarEventData)
    (config : TimeConfig) (language : string) (hass : option Hass) :
  (start event = None ->
   formatEventTime h now event config language hass = JS.Throws JS.TypeError)
  /\ (forall st ts te,
        start event = Some st ->
        JS.truthy (dateTime st) = true ->
        parseDate h (JS.or_else (dateTime st) "") = Some ts ->
        parseDate h (JS.or_else (dateTime (end_ event)) "") = Some te ->
        let useNative := match time_24h config, hass ≫= locale with
                         | T24System, Some _ => true
                         | _, _ => false
                         end in
        let use24h := match time_24h config with T24 true => true | _ => false end in
        (Day (LocalTime (zone h) ts) = Day (LocalTime (zone h) te) ->
         formatEventTime h now event config language hass
         = JS.Returns (capitalizeFirstLetter h
                         (formatSingleDayTime h (Some ts) (Some te) (show_end_time config)
                            useNative use24h hass)))
        /\ (Day (LocalTime (zone h) ts) <> Day (LocalTime (zone h) te) ->
            formatEventTime h now event config language hass
            = JS.Returns (capitalizeFirstLetter h
                            (formatMultiDayTime h now (Some ts) (Some te) language
                               (getTranslations h language) useNative use24h hass)))
        /\ (LocalTime (zone h) te = (Day (LocalTime (zone h) ts) + 1) * msPerDay ->
            formatEventTime h now event config language hass
            = JS.Returns (capitalizeFirstLetter h
                            (formatMultiDayTime h now (Some ts) (Some te) language
                               (getTranslations h language) useNative use24h hass)))).
Proof.
  split.
  - intros Hs. unfold formatEventTime. by rewrite Hs.
  - intros st ts te Hs Hdt Hts Hte useNative use24h.
    assert (Hmulti : Day (LocalTime (zone h) ts) <> Day (LocalTime (zone h) te) ->
            formatEventTime h now event config language hass
            = JS.Returns (capitalizeFirstLetter h
                            (formatMultiDayTime h now (Some ts) (Some te) language
                               (getTranslations h language) useNative use24h hass))).
    { intros Hne. unfold formatEventTime. rewrite Hs, Hdt. cbn [negb]. rewrite Hts, Hte.
      assert (E : sameDateString h (Some ts) (Some te) = false).
      { apply not_true_is_false. rewrite sameDateString_iff. exact Hne. }
      rewrite E. reflexivity. }
    split; [|split].
    + intros Heq. unfold formatEventTime. rewrite Hs, Hdt. cbn [negb]. rewrite Hts, Hte.
      assert (E : sameDateString h (Some ts) (Some te) = true)
        by (by apply sameDateString_iff).
      rewrite E. reflexivity.
    + exact Hmulti.
    + intros Hend. apply Hmulti. rewrite Hend, Day_of_midnight. lia.
Qed.

Lemma formatEventTime_timed_witness :
  formatEventTime Example.host (Example.at_hour 2025 3 3 9)
    {| start := Some {| dateTime := Some "2025-03-03T22:00"; date := None |};
       end_ := {| dateTime := Some "2025-03-04T00:00"; date := None |};
       _isEmptyDay := false |}
    Example.config24 "en" None
  = JS.Returns "22:00 until ends tomorrow at 00:00".
Proof.
  rewrite (proj2 (proj2 (proj2 (formatEventTime_timed Example.host (Example.at_hour 2025 3 3 9)
             {| start := Some {| dateTime := Some "2025-03-03T22:00"; date := None |};
                end_ := {| dateTime := Some "2025-03-04T00:00"; date := None |};
                _isEmptyDay := false |}
             Example.config24 "en" None)
             {| dateTime := Some "2025-03-03T22:00"; date := None |}
             (Example.at_hour 2025 3 3 22) (Example.at_hour 2025 3 4 0)
             eq_refl eq_refl ltac:(vm_compute; reflexivity) ltac:(vm_compute; reflexivity)))
           ltac:(vm_compute; reflexivity)).
  vm_compute. reflexivity.
Defined.

(** X11. For a multi-day timed event with valid dates (current year outside
    0..99, the current local day opening at its local midnight, that
    midnight and the next being on the clock of the zone): once its start
    lies before the current local day, an event ending on the current day
    reads "ends today at <time>" and one ending on the next day "ends
    tomorrow at <time>", without the "until" prefix; as long as the start
    does not lie before the current local day, the text opens with the start
    time followed by "until". *)
Theorem formatMultiDayTime_relative (h : Host) (now ts te : Z) (language : string)
    (tr : Translations) (useNative use24h : bool) (hass : option Hass) :
  ~ (0 <= getFullYear (zone h) now <= 99) ->
  onClock (zone h) (Day (LocalTime (zone h) now) * msPerDay) ->
  onClock (zone h) ((Day (LocalTime (zone h) now) + 1) * msPerDay) ->
  opensDay (zone h) (Day (LocalTime (zone h) now)) ->
  let ds := Day (LocalTime (zone h) ts) in
  let de := Day (LocalTime (zone h) te) in
  let dn := Day (LocalTime (zone h) now) in
  let fmt := fun t => formatTime h (Some t) (effective24h h useNative use24h hass) in
  let text := formatMultiDayTime h now (Some ts) (Some te) language tr useNative use24h hass in
  (ds < dn -> de = dn ->
   text = endsToday tr +:+ " " +:+ at_ tr +:+ " " +:+ fmt te)
  /\ (ds < dn -> de = dn + 1 ->
      text = endsTomorrow tr +:+ " " +:+ at_ tr +:+ " " +:+ fmt te)
  /\ (dn <= ds ->
      exists endPart, text = fmt ts +:+ " " +:+ multiDay tr +:+ " " +:+ endPart).
Proof.
  intros Hy Hc Hc' Hopen ds de dn fmt text.
  assert (Hstart : match todayOf h now with
                   | Some a => (a <=? ts)%Z
                   | None => false
                   end = bool_decide (dn <= ds)).
  { rewrite (proj1 (todayOf_eq h now Hy Hc)). unfold startOfLocalDay. fold dn.
    destruct (Z.leb_spec (UTC (zone h) (dn * msPerDay)) ts) as [Hle|Hgt].
    - rewrite bool_decide_eq_true_2; [reflexivity|]. by apply Hopen.
    - rewrite bool_decide_eq_false_2; [reflexivity|]. intros Hd.
      pose proof (proj2 (Hopen ts) Hd) as Hd'. unfold dn in Hgt.
      exact (Z.lt_irrefl _ (Z.lt_le_trans _ _ _ Hgt Hd')). }
  unfold text, formatMultiDayTime.
  rewrite !(sameDate_today h now te Hy Hc), !(sameDate_tomorrow h now te Hy Hc Hc'), Hstart.
  fold de. fold dn.
  split; [|split].
  - intros Hlt Hde. rewrite (bool_decide_eq_true_2 (de = dn)) by exact Hde.
    rewrite (bool_decide_eq_false_2 (dn <= ds)) by lia. reflexivity.
  - intros Hlt Hde. rewrite (bool_decide_eq_false_2 (de = dn)) by lia.
    rewrite (bool_decide_eq_true_2 (de = dn + 1)) by exact Hde.
    rewrite (bool_decide_eq_false_2 (dn <= ds)) by lia. reflexivity.
  - intros Hle. rewrite (bool_decide_eq_true_2 (dn <= ds)) by exact Hle.
    eexists. reflexivity.
Qed.

Lemma formatMultiDayTime_relative_witness :
  formatMultiDayTime Example.host (Example.at_hour 2025 3 4 9)
    (Some (Example.at_hour 2025 3 3 22)) (Some (Example.at_hour 2025 3 4 18))
    "en" Example.english false true None
  = "ends today at 18:00".
Proof.
  rewrite (proj1 (formatMultiDayTime_relative Example.host (Example.at_hour 2025 3 4 9)
             (Example.at_hour 2025 3 3 22) (Example.at_hour 2025 3 4 18)
             "en" Example.english false true None
             ltac:(vm_compute; intros [_ H]; apply H; reflexivity)
             ltac:(split; vm_compute; [discriminate | reflexivity])
             ltac:(split; vm_compute; [discriminate | reflexivity])
             ltac:(apply opensDay_const))
           ltac:(vm_compute; reflexivity) ltac:(vm_compute; reflexivity)).
  vm_compute. reflexivity.
Defined.

(** X12. [getWeekNumber] with the method ['iso'], or [null] which stands
    for it, applied to a date that [parseAllDayDate] produced and at which
    the local clock shows midnight, is the ISO 8601 week number of that
    calendar day, a number from 1 to 53, whatever the configured first day
    of the week, in a zone whose offset on 1 January does not exceed its
    offset on the Thursday of the date's week (no clock changes, or summer
    time in the middle of the year).  The local midnight of that Thursday is
    on the clock, the year of the Thursday lies outside 0..99, and its
    1 January is a time value. *)
Theorem getWeekNumber_parsed (h : Host) (s : string) (t : Z)
    (method : option WeekMethod) (firstDayOfWeek : Z) :
  parseAllDayDate h s = Some t ->
  TimeWithinDay (LocalTime (zone h) t) = 0 ->
  ~ (0 <= YearFromDay (thursdayOf (Day (LocalTime (zone h) t))) <= 99) ->
  onClock (zone h) (thursdayLocal (zone h) t) ->
  representable
    (UTC (zone h)
       (DayFromYear (YearFromDay (thursdayOf (Day (LocalTime (zone h) t)))) * msPerDay)) ->
  - msPerDay < sinceMidnight (zone h) t <= 0 ->
  method = None \/ method = Some iso ->
  getWeekNumber (zone h) (parseAllDayDate h s) method firstDayOfWeek
  = Some (Some (isoWeekNumber (Day (LocalTime (zone h) t))))
  /\ 1 <= isoWeekNumber (Day (LocalTime (zone h) t)) <= 53.
Proof.
  intros Hp Htod Hy Hc Hr He Hm. rewrite Hp.
  destruct (getISOWeekNumber_midnight (zone h) t Htod Hy Hc Hr He) as [Heq Hrange].
  split; [|exact Hrange].
  destruct Hm as [-> | ->]; unfold getWeekNumber; cbn [default]; by rewrite Heq.
Qed.

Lemma getWeekNumber_parsed_witness :
  getWeekNumber Example.berlin2021
    (parseAllDayDate (Example.hostIn Example.berlin2021) "2021-07-11") None 0
  = Some (Some (isoWeekNumber (Day (Example.at_hour 2021 7 11 0))))
  /\ 1 <= isoWeekNumber (Day (Example.at_hour 2021 7 11 0)) <= 53.
Proof.
  apply (getWeekNumber_parsed (Example.hostIn Example.berlin2021) "2021-07-11"
           (Example.localAt Example.berlin2021 2021 7 11 0) None 0).
  - vm_compute. reflexivity.
  - vm_compute. reflexivity.
  - vm_compute. intros [_ H]. apply H. reflexivity.
  - split; vm_compute; [discriminate | reflexivity].
  - vm_compute. discriminate.
  - vm_compute. split; [reflexivity | discriminate].
  - by left.
Defined.

End EventDates.

Section Numerals.
Import JSDate Format Spec.

Lemma digitValue_digitChar (d : Z) : 0 <= d < 10 -> JS.digitValue (JS.digitChar d) = Some d.
Proof.
  intros Hd. unfold JS.digitValue, JS.digitChar.
  destruct (Z.ltb_spec d 10); [|lia].
  rewrite nat_ascii_embedding by lia.
  assert (E1 : (48 <=? Z.to_nat (48 + d))%nat = true) by (apply Nat.leb_le; lia).
  assert (E2 : (Z.to_nat (48 + d) <=? 57)%nat = true) by (apply Nat.leb_le; lia).
  rewrite E1, E2. cbn [andb]. f_equal. lia.
Qed.

Lemma digitsOf10_value (fuel : nat) (n : Z) (acc : string) :
  0 <= n < 10 ^ Z.of_nat fuel ->
  JS.digitsValue 0 (JS.digitsOf fuel 10 n acc) = JS.digitsValue n acc
  /\ (allDigits acc = true -> allDigits (JS.digitsOf fuel 10 n acc) = true)
  /\ (fuel <> O \/ acc <> "" -> JS.digitsOf fuel 10 n acc <> "").
Proof.
  revert n acc. induction fuel as [|fuel IH]; intros n acc Hn.
  - simpl in Hn. assert (n = 0) as -> by lia. simpl.
    split; [reflexivity|]. split; [auto|]. intros [H|H]; congruence.
  - cbn [JS.digitsOf].
    assert (Hd : 0 <= n mod 10 < 10) by (apply Z.mod_pos_bound; lia).
    pose proof (digitValue_digitChar _ Hd) as Hv.
    destruct (Z.eqb_spec (n / 10) 0) as [Hz|Hz].
    + cbn [JS.digitsValue allDigits]. rewrite Hv.
      split; [f_equal; Z.div_mod_to_equations; lia|]. split; [auto | discriminate].
    + assert (Hq : 0 <= n / 10 < 10 ^ Z.of_nat fuel).
      { rewrite Nat2Z.inj_succ, Z.pow_succ_r in Hn by lia. Z.div_mod_to_equations; lia. }
      destruct (IH (n / 10) (String (JS.digitChar (n mod 10)) acc) Hq) as (E & Ha & Hne).
      rewrite E. cbn [JS.digitsValue allDigits] in *. rewrite Hv in *.
      split; [f_equal; Z.div_mod_to_equations; lia|]. split; [exact Ha|].
      intros _. apply Hne. right. discriminate.
Qed.

Lemma log2_fuel (n : Z) : 0 <= n -> 0 <= n < 10 ^ Z.of_nat (S (Z.to_nat (Z.log2 n))).
Proof.
  intros Hn. split; [exact Hn|].
  rewrite Nat2Z.inj_succ, Z2Nat.id by apply Z.log2_nonneg.
  destruct (Z.eq_dec n 0) as [->|Hz]; [reflexivity|].
  apply Z.lt_le_trans with (2 ^ Z.succ (Z.log2 n)).
  - apply Z.log2_spec. lia.
  - apply Z.pow_le_mono_l. lia.
Qed.

Lemma allDigits_not_space (s : string) : allDigits s = true -> JS.trim s = s.
Proof.
  intros H. assert (Hs : JS.trimStart s = s).
  { destruct s as [|c s]; [reflexivity|]. simpl in *.
    unfold JS.digitValue in H. unfold JS.isWhiteSpace.
    destruct ((48 <=? nat_of_ascii c)%nat && (nat_of_ascii c <=? 57)%nat) eqn:E; [|discriminate].
    apply andb_true_iff in E as [E1 E2]. apply Nat.leb_le in E1, E2.
    replace ((9 <=? nat_of_ascii c)%nat && (nat_of_ascii c <=? 13)%nat
             || (nat_of_ascii c =? 32)%nat || (nat_of_ascii c =? 160)%nat) with false;
      [reflexivity|].
    symmetry. rewrite !orb_false_iff, andb_false_iff, !Nat.leb_gt, !Nat.eqb_neq. lia. }
  unfold JS.trim. rewrite Hs. clear Hs.
  induction s as [|c s IH]; [reflexivity|]. cbn [JS.trimEnd allDigits] in *.
  destruct (JS.digitValue c) eqn:Ec; [|discriminate]. rewrite (IH H).
  unfold JS.digitValue in Ec. unfold JS.isWhiteSpace.
  destruct ((48 <=? nat_of_ascii c)%nat && (nat_of_ascii c <=? 57)%nat) eqn:E; [|discriminate].
  apply andb_true_iff in E as [E1 E2]. apply Nat.leb_le in E1, E2.
  replace ((9 <=? nat_of_ascii c)%nat && (nat_of_ascii c <=? 13)%nat
           || (nat_of_ascii c =? 32)%nat || (nat_of_ascii c =? 160)%nat) with false;
    [by rewrite andb_false_r|].
  symmetry. rewrite !orb_false_iff, andb_false_iff, !Nat.leb_gt, !Nat.eqb_neq. lia.
Qed.

Lemma allDigits_no_dash (s : string) : allDigits s = true -> JS.includesChar "-" s = false.
Proof.
  induction s as [|c s IH]; [reflexivity|]. cbn [allDigits JS.includesChar].
  destruct (JS.digitValue c) eqn:Ec; [|discriminate]. intros H.
  destruct (Ascii.eqb_spec c "-") as [->|]; [discriminate | by apply IH].
Qed.

(** The decimal numeral of a natural number reads back as that number, also
    after padding to two digits. *)
Lemma numberToString_spec (n : Z) :
  0 <= n ->
  let s := JS.numberToString n in
  allDigits s = true /\ s <> "" /\ JS.Number s = Some n
  /\ allDigits (JS.padStart2 s) = true /\ JS.Number (JS.padStart2 s) = Some n
  /\ (n < 100 -> String.length (JS.padStart2 s) = 2%nat).
Proof.
  intros Hn s. unfold s, JS.numberToString, JS.toStringRadix.
  destruct (Z.ltb_spec n 0); [lia|]. rewrite (Z.abs_eq n) by lia.
  destruct (digitsOf10_value _ n "" (log2_fuel n Hn)) as (Hv & Hd & Hne).
  specialize (Hd eq_refl). specialize (Hne (or_introl (Nat.neq_succ_0 _))).
  set (str := JS.digitsOf (S (Z.to_nat (Z.log2 n))) 10 n "") in *.
  assert (HN : JS.Number str = Some n).
  { unfold JS.Number. by rewrite (allDigits_not_space _ Hd), Hv. }
  assert (Hp : allDigits (JS.padStart2 str) = true /\ JS.Number (JS.padStart2 str) = Some n).
  { clearbody str. destruct str as [|c [|c' r]]; [congruence| |by split].
    change (JS.padStart2 (String c "")) with (String "0" (String c "")).
    assert (Ha : allDigits (String "0" (String c "")) = true) by exact Hd.
    split; [exact Ha|]. unfold JS.Number in *.
    rewrite (allDigits_not_space _ Ha). rewrite (allDigits_not_space _ Hd) in HN. exact HN. }
  split; [exact Hd|]. split; [exact Hne|]. split; [exact HN|].
  split; [apply Hp|]. split; [apply Hp|].
  intros Hlt. unfold str. clear -Hn Hlt.
  assert (Hf : forallb (fun k => (String.length (JS.padStart2 (JS.numberToString (Z.of_nat k))) =? 2)%nat)
                 (seq 0 100) = true) by (vm_compute; reflexivity).
  rewrite forallb_forall in Hf. specialize (Hf (Z.to_nat n)).
  rewrite Z2Nat.id in Hf by lia. apply Nat.eqb_eq in Hf.
  - unfold JS.numberToString, JS.toStringRadix in Hf.
    destruct (Z.ltb_spec n 0); [lia|]. by rewrite (Z.abs_eq n) in Hf by lia.
  - apply in_seq. lia.
Qed.

Lemma splitChar_three (a b c : string) :
  allDigits a = true -> allDigits b = true -> allDigits c = true ->
  JS.splitChar "-" (a +:+ "-" +:+ b +:+ "-" +:+ c) = [a; b; c].
Proof.
  intros Ha Hb Hc.
  change (a +:+ "-" +:+ b +:+ "-" +:+ c) with (a +:+ String "-" (b +:+ String "-" c)).
  rewrite splitChar_app by (by apply allDigits_no_dash).
  rewrite splitChar_app by (by apply allDigits_no_dash).
  rewrite splitChar_none by (by apply allDigits_no_dash). reflexivity.
Qed.

Lemma getLocalDateKey_fields (h : Host) (t : Z) :
  100 <= getFullYear (zone h) t ->
  map JS.Number (JS.splitChar "-" (getLocalDateKey h (Some t)))
  = [Some (getFullYear (zone h) t); Some (getMonth (zone h) t + 1); Some (getDate (zone h) t)].
Proof.
  intros Hy. unfold getLocalDateKey.
  cbn [fmap option_fmap option_map JS.numToString].
  pose proof (MonthFromDay_range (Day (LocalTime (zone h) t))) as Hm.
  pose proof (DateFromDay_range (Day (LocalTime (zone h) t))) as Hd.
  fold (MonthFromTime (LocalTime (zone h) t)) in Hm. fold (getMonth (zone h) t) in Hm.
  fold (DateFromTime (LocalTime (zone h) t)) in Hd. fold (getDate (zone h) t) in Hd.
  destruct (numberToString_spec (getFullYear (zone h) t) ltac:(lia))
    as (Ya & _ & Yn & _).
  destruct (numberToString_spec (getMonth (zone h) t + 1) ltac:(lia))
    as (_ & _ & _ & Ma & Mn & _).
  destruct (numberToString_spec (getDate (zone h) t) ltac:(lia))
    as (_ & _ & _ & Da & Dn & _).
  rewrite (splitChar_three _ _ _ Ya Ma Da).
  cbn [map]. by rewrite Yn, Mn, Dn.
Qed.

(** X13. Date keys.  For a date in year 100 or later, [parseAllDayDate]
    reads the key written by [getLocalDateKey] back as local midnight of the
    same day (an invalid date if the instant of that midnight is no time
    value); and two such dates have the same key exactly when they fall on
    the same local calendar day. *)
Theorem getLocalDateKey_roundtrip (h : Host) :
  (forall t, 100 <= getFullYear (zone h) t ->
     parseAllDayDate h (getLocalDateKey h (Some t))
     = TimeClip (startOfLocalDay (zone h) t))
  /\ (forall a b,
        100 <= getFullYear (zone h) a -> 100 <= getFullYear (zone h) b ->
        (getLocalDateKey h (Some a) = getLocalDateKey h (Some b)
         <-> Day (LocalTime (zone h) a) = Day (LocalTime (zone h) b))).
Proof.
  split.
  - intros t Hy. unfold parseAllDayDate. rewrite (getLocalDateKey_fields h t Hy).
    change (newDateYMD (zone h) (getFullYear (zone h) t) (getMonth (zone h) t + 1 - 1)
              (getDate (zone h) t)
            = TimeClip (startOfLocalDay (zone h) t)).
    replace (getMonth (zone h) t + 1 - 1) with (getMonth (zone h) t) by lia.
    apply newDateYMD_civil. lia.
  - intros a b Ha Hb. split.
    + intros Hk.
      pose proof (getLocalDateKey_fields h a Ha) as Ea.
      rewrite Hk, (getLocalDateKey_fields h b Hb) in Ea.
      injection Ea as Ey Em Ed.
      unfold getFullYear, getMonth, getDate, YearFromTime, MonthFromTime, DateFromTime in *.
      pose proof (MakeDay_civil (Day (LocalTime (zone h) a)) 0) as Ca.
      pose proof (MakeDay_civil (Day (LocalTime (zone h) b)) 0) as Cb.
      replace (MonthFromDay (Day (LocalTime (zone h) b)))
        with (MonthFromDay (Day (LocalTime (zone h) a))) in Cb by lia.
      rewrite <- Ey, <- Ed in Ca. lia.
    + intros Hd. unfold getLocalDateKey. cbn [fmap option_fmap option_map].
      unfold getFullYear, getMonth, getDate, YearFromTime, MonthFromTime, DateFromTime.
      by rewrite Hd.
Qed.

Lemma getLocalDateKey_roundtrip_witness :
  parseAllDayDate (Example.hostIn Example.berlin2025)
    (getLocalDateKey (Example.hostIn Example.berlin2025)
       (Some (Example.localAt Example.berlin2025 2025 7 4 15)))
  = Some (Example.localAt Example.berlin2025 2025 7 4 0).
Proof.
  rewrite (proj1 (getLocalDateKey_roundtrip (Example.hostIn Example.berlin2025))
             (Example.localAt Example.berlin2025 2025 7 4 15)
             ltac:(vm_compute; discriminate)).
  vm_compute. reflexivity.
Defined.

Lemma hours_minutes_range (z : Zone) (t : Z) :
  0 <= getHours z t < 24 /\ 0 <= getMinutes z t < 60.
Proof.
  unfold getHours, getMinutes, HourFromTime, MinFromTime.
  split; apply Z.mod_pos_bound; lia.
Qed.

(** X14. The clock text of a valid date.  In 24-hour form it is the local
    hour in two decimal digits, a colon and the local minute in two decimal
    digits.  In 12-hour form it is the hour on the scale from 1 to 12
    (midnight and noon both show 12) without leading zero, a colon, the
    minute in two decimal digits, a space, and PM exactly from noon on,
    AM before. *)
Theorem formatTime_shape (h : Host) (t : Z) :
  let hours := getHours (zone h) t in
  let minutes := getMinutes (zone h) t in
  let h12 := if (hours mod 12 =? 0)%Z then 12 else hours mod 12 in
  0 <= hours < 24 /\ 0 <= minutes < 60
  /\ formatTime h (Some t) true = twoDigits hours +:+ ":" +:+ twoDigits minutes
  /\ formatTime h (Some t) false
     = shortNumeral h12 +:+ ":" +:+ twoDigits minutes +:+ " "
         +:+ (if (12 <=? hours)%Z then "PM" else "AM").
Proof.
  intros hours minutes h12.
  destruct (hours_minutes_range (zone h) t) as [Hh Hm]. fold hours in Hh. fold minutes in Hm.
  split; [exact Hh|]. split; [exact Hm|].
  assert (H12 : 1 <= h12 <= 12).
  { unfold h12. destruct (Z.eqb_spec (hours mod 12) 0); zdiv. }
  destruct (numberToString_short hours ltac:(lia)) as [_ Eh].
  destruct (numberToString_short minutes ltac:(lia)) as [_ Em].
  destruct (numberToString_short h12 ltac:(lia)) as [E12 _].
  unfold formatTime. cbn [negb fmap option_fmap option_map JS.numToString].
  fold hours. fold minutes. rewrite Eh, Em.
  split; [reflexivity|].
  rewrite Z.rem_mod_nonneg by lia. fold h12. by rewrite E12.
Qed.

End Numerals.

Section MoreWeeks.
Import JSDate Format Spec.

Lemma getISOWeekNumber_time_of_day_witness :
  getISOWeekNumber Example.berlin2021
    (Some (Example.localAt Example.berlin2021 2021 7 11 2))
  = Some (27 + 1).
Proof.
  rewrite (getISOWeekNumber_time_of_day Example.berlin2021
             (Example.localAt Example.berlin2021 2021 7 11 2)
             ltac:(vm_compute; intros [_ H]; apply H; reflexivity)
             ltac:(split; vm_compute; [discriminate | reflexivity])
             ltac:(vm_compute; discriminate)
             ltac:(vm_compute; split; [reflexivity | discriminate])).
  vm_compute. reflexivity.
Defined.

Lemma getSimpleWeekNumber_facts_witness :
  getSimpleWeekNumber Example.berlin2025 (newDateYMD Example.berlin2025 2025 0 1) 1 = Some 1.
Proof.
  apply (proj1 (getSimpleWeekNumber_facts Example.berlin2025 1 ltac:(lia)) 2025).
  - lia.
  - split; vm_compute; [discriminate | reflexivity].
Defined.

(** X17. The simple week number depends on the instant only through the
    local year and the day shown by a clock that keeps the offset of
    1 January; among the instants at which the zone has the offset of
    1 January it depends on the local calendar day only, not on the time of
    day.  At such an instant week 54 is reached in one situation only: on
    31 December of a leap year when that day is the configured first day of
    the week.  (First day from 0 to 6, years outside 0..99, local midnight of
    1 January on the clock of the zone.) *)
Theorem getSimpleWeekNumber_day_only (z : Zone) (t fdow : Z) :
  0 <= fdow <= 6 ->
  ~ (0 <= getFullYear z t <= 99) ->
  onClock z (newYear z t) ->
  (forall t', getFullYear z t' = getFullYear z t ->
     newYearClockDay z t' = newYearClockDay z t ->
     getSimpleWeekNumber z (Some t') fdow = getSimpleWeekNumber z (Some t) fdow)
  /\ (forall t', keepsNewYearOffset z t -> keepsNewYearOffset z t' ->
        Day (LocalTime z t') = Day (LocalTime z t) ->
        getSimpleWeekNumber z (Some t') fdow = getSimpleWeekNumber z (Some t) fdow)
  /\ (keepsNewYearOffset z t ->
      (getSimpleWeekNumber z (Some t) fdow = Some 54
       <-> InLeapYear (getFullYear z t) = true
           /\ DayWithinYear (Day (LocalTime z t)) = 365
           /\ getDay z t = fdow)).
Proof.
  intros Hf Hy Hc.
  assert (Hdep : forall t', getFullYear z t' = getFullYear z t ->
     newYearClockDay z t' = newYearClockDay z t ->
     getSimpleWeekNumber z (Some t') fdow = getSimpleWeekNumber z (Some t) fdow).
  { intros t' Hsame Hd.
    assert (Hn : newYear z t' = newYear z t) by (unfold newYear; by rewrite Hsame).
    rewrite (getSimpleWeekNumber_eq z t fdow Hy Hf Hc).
    rewrite (getSimpleWeekNumber_eq z t' fdow); rewrite ?Hsame, ?Hn; try assumption.
    by rewrite Hd. }
  split; [exact Hdep|]. split.
  - intros t' Hk Hk' Hd. apply Hdep.
    + unfold getFullYear, YearFromTime. by rewrite Hd.
    + by rewrite (newYearClockDay_local _ _ Hk), (newYearClockDay_local _ _ Hk').
  - intros Hk. rewrite (getSimpleWeekNumber_eq z t fdow Hy Hf Hc).
    rewrite (newYearClockDay_local _ _ Hk).
    unfold getFullYear, YearFromTime.
    pose proof (YearFromDay_spec (Day (LocalTime z t))) as Hs.
    pose proof (InLeapYear_spec (YearFromDay (Day (LocalTime z t)))) as Hl.
    unfold getDay, WeekDay, DayWithinYear, JS.ceilDiv, weekDayOf.
    destruct (InLeapYear (YearFromDay (Day (LocalTime z t)))); split.
    + intros [= H]. split; [reflexivity|]. zdiv.
    + intros (_ & H1 & H2). f_equal. zdiv.
    + intros [= H]. exfalso. zdiv.
    + intros (H & _). discriminate.
Qed.

Lemma getSimpleWeekNumber_day_only_witness :
  getSimpleWeekNumber Example.utc (Some (Example.at_hour 2028 12 31 17)) 0 = Some 54.
Proof.
  apply (proj2 (proj2 (getSimpleWeekNumber_day_only Example.utc (Example.at_hour 2028 12 31 17) 0
                         ltac:(lia) ltac:(vm_compute; intros [_ H]; apply H; reflexivity)
                         ltac:(split; vm_compute; [discriminate | reflexivity])))
           eq_refl).
  vm_compute. repeat split; reflexivity.
Defined.

End MoreWeeks.

Section MoreLocations.
Import Format Spec Helpers.

Lemma length_append (a b : string) :
  String.length (a +:+ b) = (String.length a + String.length b)%nat.
Proof. induction a as [|c a IH]; simpl; [reflexivity | by rewrite IH]. Qed.

Lemma substring_prefix (a b : string) : String.substring 0 (String.length a) (a +:+ b) = a.
Proof.
  induction a as [|c a IH]; simpl; [by destruct b | by rewrite IH].
Qed.

Lemma substring_all (b : string) : String.substring 0 (String.length b) b = b.
Proof. induction b as [|c b IH]; simpl; [reflexivity | by rewrite IH]. Qed.

Lemma substring_suffix (a b : string) :
  String.substring (String.length a) (String.length b) (a +:+ b) = b.
Proof. induction a as [|c a IH]; simpl; [apply substring_all | exact IH]. Qed.

Lemma endsWith_append (a b : string) : JS.endsWith b (a +:+ b) = true.
Proof.
  unfold JS.endsWith. rewrite length_append.
  replace (String.length a + String.length b - String.length b)%nat with (String.length a) by lia.
  rewrite substring_suffix, String.eqb_refl, andb_true_r. apply Nat.leb_le. lia.
Qed.

Lemma allWhiteSpace_comma (a b : string) : JS.allWhiteSpace (a +:+ String "," b) = false.
Proof.
  induction a as [|c a IH]; simpl; [reflexivity|]. rewrite IH. apply andb_false_r.
Qed.

(** A comma with white space after it is cut off, and nothing before it. *)
Lemma stripCommaSpaces_append (body ws : string) :
  JS.allWhiteSpace ws = true ->
  JS.stripCommaSpaces (body +:+ String "," ws) = body.
Proof.
  intros Hws. unfold JS.stripCommaSpaces.
  induction body as [|c body IH].
  - change ("" +:+ String "," ws) with (String "," ws).
    assert (E : JS.commaSpaces (String "," ws) = true).
    { unfold JS.commaSpaces. rewrite Ascii.eqb_refl, Hws. apply orb_true_r. }
    cbn [JS.cutAtMatch]. by rewrite E.
  - change (String c body +:+ String "," ws) with (String c (body +:+ String "," ws)).
    cbn [JS.cutAtMatch].
    assert (E : JS.commaSpaces (String c (body +:+ String "," ws)) = false).
    { unfold JS.commaSpaces.
      change (String c (body +:+ String "," ws)) with (String c body +:+ String "," ws).
      rewrite allWhiteSpace_comma.
      change (String c body +:+ String "," ws) with (String c (body +:+ String "," ws)).
      cbn iota. rewrite allWhiteSpace_comma. by rewrite andb_false_r. }
    rewrite E. by rewrite IH.
Qed.

(** X18. Removing the country.  With the built-in list, a location whose
    trimmed text is [body], a comma, optional white space and a country name
    of the list comes back as [body], provided no name earlier in the list
    also ends the text (the first name that matches is the one removed). *)
Theorem formatLocation_country_removed (h : Host) (location body ws country : string)
    (before after : list string) (rc : RemoveCountry) :
  rc = RCBool true \/ rc = RCString "true" ->
  location <> "" ->
  JS.trim location = body +:+ String "," ws +:+ country ->
  JS.allWhiteSpace ws = true ->
  COUNTRY_NAMES h = (before ++ country :: after)%list ->
  Forall (fun c => JS.endsWith c (JS.trim location) = false) before ->
  formatLocation h location rc = JS.Returns body.
Proof.
  intros Hrc Hloc Htrim Hws Hlist Hbefore.
  assert (Hf : formatLocation h location rc
               = JS.Returns (countryLoop (COUNTRY_NAMES h) (JS.trim location))).
  { apply String.eqb_neq in Hloc. unfold formatLocation. rewrite Hloc.
    destruct Hrc as [-> | ->]; reflexivity. }
  rewrite Hf, Hlist. f_equal. clear Hf Hlist.
  induction Hbefore as [|c before Hc Hb IH]; cbn [app countryLoop].
  - rewrite Htrim.
    change (body +:+ String "," ws +:+ country) with (body +:+ String "," (ws +:+ country)).
    assert (Happ : body +:+ String "," (ws +:+ country) = (body +:+ String "," ws) +:+ country).
    { clear. induction body as [|c body IH]; [reflexivity|].
      change (String c (body +:+ String "," (ws +:+ country))
              = String c ((body +:+ String "," ws) +:+ country)).
      by rewrite IH. }
    rewrite Happ, endsWith_append. unfold JS.sliceTo. rewrite length_append.
    replace (String.length (body +:+ String "," ws) + String.length country
             - String.length country)%nat
      with (String.length (body +:+ String "," ws)) by lia.
    rewrite substring_prefix. by apply stripCommaSpaces_append.
  - rewrite Hc. exact IH.
Qed.

Lemma formatLocation_country_removed_witness :
  formatLocation Example.host " Alexanderplatz 1, Berlin,  Germany " (RCBool true)
  = JS.Returns "Alexanderplatz 1, Berlin".
Proof.
  apply (formatLocation_country_removed Example.host _ "Alexanderplatz 1, Berlin" "  "
           "Germany" [] ["United States"; "USA"] (RCBool true)).
  - by left.
  - discriminate.
  - vm_compute. reflexivity.
  - reflexivity.
  - reflexivity.
  - constructor.
Defined.

Lemma lowerCase_length (s : string) : String.length (JS.lowerCase s) = String.length s.
Proof. induction s as [|c s IH]; simpl; [reflexivity | by rewrite IH]. Qed.

Lemma hasImageExtension_length (s : string) :
  hasImageExtension s = true -> (4 <= String.length s)%nat.
Proof.
  unfold hasImageExtension. rewrite existsb_exists. intros (ext & Hin & He).
  unfold JS.endsWith in He. apply andb_true_iff in He as [He _].
  apply Nat.leb_le in He. rewrite lowerCase_length in He.
  simpl in Hin. destruct Hin as [<-|[<-|[<-|[<-|[<-|[<-|[]]]]]]]; simpl in He; lia.
Qed.

(** X19. The kind of today indicator.  The answer is always one of the seven
    kinds; it is 'none' only for [false]; it is 'mdi' exactly for the strings
    that begin with "mdi:", whatever follows; and a string of at most two
    characters (the empty string included) is an 'image' when it begins with
    a slash and an 'emoji' otherwise. *)
Theorem getTodayIndicatorType_spec :
  (forall v, In (getTodayIndicatorType v)
               ["none"; "dot"; "pulse"; "glow"; "mdi"; "image"; "emoji"])
  /\ (forall v, getTodayIndicatorType v = "none" <-> v = IVBool false)
  /\ (forall s, getTodayIndicatorType (IVString s) = "mdi" <-> prefixOf "mdi:" s)
  /\ (forall s, (String.length s <= 2)%nat ->
        getTodayIndicatorType (IVString s)
        = if JS.startsWith "/" s then "image" else "emoji").
Proof.
  split; [|split; [|split]].
  - intros [[|]|s]; simpl; auto 10.
    repeat match goal with
           | |- context [if ?b then _ else _] => destruct b
           end; auto 10.
  - intros [[|]|s]; simpl; split; try congruence.
    repeat match goal with
           | |- context [if ?b then _ else _] => destruct b
           end; discriminate.
  - intros s. cbn [getTodayIndicatorType]. split.
    + destruct (s =? "dot"); [discriminate|].
      destruct (s =? "pulse"); [discriminate|].
      destruct (s =? "glow"); [discriminate|].
      unfold JS.startsWith at 1.
      destruct (String.prefix "mdi:" s) eqn:Hp.
      * intros _. destruct (prefix_inv _ _ Hp) as [r Hr]. by exists r.
      * repeat match goal with
               | |- context [if ?b then _ else _] => destruct b
               end; discriminate.
    + intros [r ->].
      destruct (String.eqb_spec ("mdi:" +:+ r) "dot"); [discriminate|].
      destruct (String.eqb_spec ("mdi:" +:+ r) "pulse"); [discriminate|].
      destruct (String.eqb_spec ("mdi:" +:+ r) "glow"); [discriminate|].
      unfold JS.startsWith. by rewrite prefix_app.
  - intros s Hlen. cbn [getTodayIndicatorType].
    destruct (String.eqb_spec s "dot") as [->|_]; [simpl in Hlen; lia|].
    destruct (String.eqb_spec s "pulse") as [->|_]; [simpl in Hlen; lia|].
    destruct (String.eqb_spec s "glow") as [->|_]; [simpl in Hlen; lia|].
    unfold JS.startsWith at 1.
    destruct (String.prefix "mdi:" s) eqn:Hp.
    { destruct (prefix_inv _ _ Hp) as [r ->]. simpl in Hlen. lia. }
    destruct (hasImageExtension s) eqn:Hx.
    { apply hasImageExtension_length in Hx. lia. }
    rewrite orb_false_r.
    destruct (JS.startsWith "/" s); [reflexivity|].
    apply Nat.leb_le in Hlen. by rewrite Hlen.
Qed.

Lemma getTodayIndicatorType_spec_witness :
  getTodayIndicatorType (IVString "") = "emoji".
Proof.
  apply (proj2 (proj2 (proj2 getTodayIndicatorType_spec)) ""). simpl. lia.
Defined.

End MoreLocations.
